(** * CONTROL: budget valuation, progress reports and planned curves

    A shallow embedding of the valuation core of [app.js] (budget overlay,
    contract value, executed values, finance accumulation, spreadsheet
    parsers, suspension shifting) together with the properties its
    specification states about it.

    Conventions of the embedding.
    - A JavaScript number is an IEEE-754 binary64 value: Rocq's primitive
      [float], with the machine operations [+ - * /] and comparisons.
    - A JavaScript string is a Rocq [string] holding the UTF-8 encoding of
      the text.  Searching for ASCII patterns, equality and trimming are
      unaffected by the encoding; ordering is the bytewise order, which is
      the code-unit order of JavaScript on the texts the application stores
      (ISO dates, digits, Latin letters).
    - [null] and [undefined] results of functions returning "a number or
      nothing" are [None]. *)

From Stdlib Require Import ZArith List String Ascii Floats Lia Bool.
From stdpp Require Import gmap strings sorting.
Import ListNotations.

(** ** The JavaScript built-ins the program calls *)

Module JS.

(** *** Numbers *)

(** [Number.isFinite] on a number. *)
Definition isFinite (x : float) : bool := PrimFloat.is_finite x.

(** Truthiness of a number: everything but [NaN], [+0] and [-0]. *)
Definition truthy (x : float) : bool := negb (is_nan x || is_zero x).

(** [x || 0] on a number. *)
Definition or0 (x : float) : float := if truthy x then x else 0%float.

(** The binary64 value nearest to [num/den] (ties to even), signed by [sx]. *)
Definition ratio_to_float (sx : bool) (num den : positive) : float :=
  let e := (Zdigits2 (Zpos num) - Zdigits2 (Zpos den) - 55)%Z in
  let n := if (0 <=? e)%Z then Zpos num else (Zpos num * 2 ^ (- e))%Z in
  let d := if (0 <=? e)%Z then (Zpos den * 2 ^ e)%Z else Zpos den in
  let q := (n / d)%Z in
  let r := (n mod d)%Z in
  let loc := if (r =? 0)%Z then loc_Exact else loc_Inexact (2 * r ?= d)%Z in
  SF2Prim (binary_round_aux prec emax sx q e loc).

(** The binary64 value nearest to [m * 10^e], for [m >= 0]. *)
Definition dec_to_float (sx : bool) (m : Z) (e : Z) : float :=
  match m with
  | Zpos p =>
      if (0 <=? e)%Z then ratio_to_float sx (p * Z.to_pos (10 ^ e)) 1
      else ratio_to_float sx p (Z.to_pos (10 ^ (- e)))
  | _ => if sx then neg_zero else zero
  end.

(** An integer of magnitude below 2^53 as a number. *)
Definition float_of_Z (n : Z) : float :=
  if (n <? 0)%Z then (- of_uint63 (Uint63.of_Z (- n)))%float
  else of_uint63 (Uint63.of_Z n).

(** [Math.pow(10, d)] for an integer [d].  The standard leaves the
    precision of [Math.pow] to the implementation; the correctly rounded
    power is taken, which is exact for [0 <= d <= 22]. *)
Definition pow10 (d : Z) : float := dec_to_float false 1 d.

(** [Math.round]: the nearest integer, halves going towards +infinity;
    [NaN], the infinities and the zeros are returned as they are, and a
    value in [[-0.5, 0)] gives [-0]. *)
Definition Math_round (x : float) : float :=
  match Prim2SF x with
  | S754_finite s m e =>
      if (0 <=? e)%Z then x
      else
        let v := if s then Zneg m else Zpos m in
        let n := ((2 * v + 2 ^ (- e)) / 2 ^ (1 - e))%Z in
        if (n =? 0)%Z then (if s then neg_zero else zero) else float_of_Z n
  | _ => x
  end.

(** *** Strings *)

Definition bytes (l : list nat) : string :=
  string_of_list_ascii (map ascii_of_nat l).

(** [s.includes(sub)]. *)
Fixpoint includes (s sub : string) : bool :=
  String.prefix sub s ||
  match s with
  | EmptyString => false
  | String _ t => includes t sub
  end.

(** [s.startsWith(p)]. *)
Definition startsWith (s p : string) : bool := String.prefix p s.

(** [s.endsWith(p)]. *)
Definition endsWith (s p : string) : bool :=
  String.prefix (String.rev p) (String.rev s).

Fixpoint drop (n : nat) (s : string) : string :=
  match n, s with
  | S n', String _ t => drop n' t
  | _, _ => s
  end.

(** The white space and line terminators removed by [trim], in UTF-8:
    TAB, LF, VT, FF, CR, SP, U+00A0, U+1680, U+2000..U+200A, U+2028,
    U+2029, U+202F, U+205F, U+3000 and U+FEFF. *)
Definition whitespace : list string :=
  [bytes [9]; bytes [10]; bytes [11]; bytes [12]; bytes [13]; bytes [32];
   bytes [194; 160]; bytes [225; 154; 128];
   bytes [226; 128; 128]; bytes [226; 128; 129]; bytes [226; 128; 130];
   bytes [226; 128; 131]; bytes [226; 128; 132]; bytes [226; 128; 133];
   bytes [226; 128; 134]; bytes [226; 128; 135]; bytes [226; 128; 136];
   bytes [226; 128; 137]; bytes [226; 128; 138];
   bytes [226; 128; 168]; bytes [226; 128; 169]; bytes [226; 128; 175];
   bytes [226; 129; 159]; bytes [227; 128; 128]; bytes [239; 187; 191]].

(** Length of the white-space character [s] starts with, if any. *)
Definition ws_prefix (toks : list string) (s : string) : option nat :=
  String.length <$> List.find (fun w => String.prefix w s) toks.

Fixpoint trim_go (toks : list string) (fuel : nat) (s : string) : string :=
  match fuel with
  | O => s
  | S fuel' =>
      match ws_prefix toks s with
      | Some k => trim_go toks fuel' (drop k s)
      | None => s
      end
  end.

Definition trimStart (s : string) : string :=
  trim_go whitespace (String.length s) s.

Definition trimEnd (s : string) : string :=
  String.rev (trim_go (map String.rev whitespace) (String.length s) (String.rev s)).

(** [s.trim()]. *)
Definition trim (s : string) : string := trimEnd (trimStart s).

Definition is_digit (c : ascii) : bool :=
  let n := nat_of_ascii c in (48 <=? n) && (n <=? 57).

Definition lower_ascii (c : ascii) : ascii :=
  let n := nat_of_ascii c in
  if (65 <=? n) && (n <=? 90) then ascii_of_nat (n + 32) else c.

(** [s.toLowerCase()] for Basic Latin and the Latin-1 Supplement (the
    two-byte sequences C3 80 .. C3 9E but C3 97); the bytes of every other
    character are kept. *)
Fixpoint toLowerCase (s : string) : string :=
  match s with
  | EmptyString => EmptyString
  | String c t =>
      match t with
      | String d u =>
          let n := nat_of_ascii d in
          if (nat_of_ascii c =? 195) && (128 <=? n) && (n <=? 158) && negb (n =? 151)
          then String c (String (ascii_of_nat (n + 32)) (toLowerCase u))
          else String (lower_ascii c) (toLowerCase t)
      | EmptyString => String (lower_ascii c) EmptyString
      end
  end.

(** [s.replaceAll(c, "")] for a one-character pattern. *)
Fixpoint removeAll (c : ascii) (s : string) : string :=
  match s with
  | EmptyString => EmptyString
  | String a t => if Ascii.eqb a c then removeAll c t else String a (removeAll c t)
  end.

(** [s.replace(c, d)] for one-character strings: the first occurrence only. *)
Fixpoint replaceFirst (c d : ascii) (s : string) : string :=
  match s with
  | EmptyString => EmptyString
  | String a t => if Ascii.eqb a c then String d t else String a (replaceFirst c d t)
  end.

(** [s.split(c)] for a one-character separator. *)
Fixpoint split_go (c : ascii) (cur : string) (s : string) : list string :=
  match s with
  | EmptyString => [String.rev cur]
  | String a t =>
      if Ascii.eqb a c then String.rev cur :: split_go c EmptyString t
      else split_go c (String a cur) t
  end.

Definition split (c : ascii) (s : string) : list string := split_go c EmptyString s.

(** [l.join(sep)]. *)
Fixpoint join (sep : string) (l : list string) : string :=
  match l with
  | [] => EmptyString
  | [x] => x
  | x :: r => x +:+ sep +:+ join sep r
  end.

Definition all_digits (s : string) : bool :=
  forallb is_digit (list_ascii_of_string s).

Definition nonempty (s : string) : bool :=
  match s with EmptyString => false | _ => true end.

(** [a < b] and [a <= b] on strings. *)
Definition str_ltb (a b : string) : bool := String.ltb a b.
Definition str_leb (a b : string) : bool := String.leb a b.

(** [a.localeCompare(b)], read as the same order: the host's collation
    agrees with it on the ISO dates that are compared. *)
Definition localeCompare (a b : string) : comparison := String.compare a b.

(** *** Conversions between numbers and strings *)

Fixpoint span_digits (s : string) : string * string :=
  match s with
  | String c t =>
      if is_digit c then let (d, r) := span_digits t in (String c d, r)
      else (EmptyString, s)
  | EmptyString => (EmptyString, EmptyString)
  end.

Definition digit_val (c : ascii) : Z :=
  let n := nat_of_ascii c in
  if (48 <=? n) && (n <=? 57) then Z.of_nat (n - 48)
  else if (97 <=? n) && (n <=? 102) then Z.of_nat (n - 87)
  else if (65 <=? n) && (n <=? 70) then Z.of_nat (n - 55)
  else 16%Z.

(** The value of a digit string in the given radix, when every character
    is a digit of that radix and there is at least one. *)
Fixpoint radix_go (radix : Z) (acc : Z) (s : string) : option Z :=
  match s with
  | EmptyString => Some acc
  | String c t =>
      if (digit_val c <? radix)%Z then radix_go radix (radix * acc + digit_val c)%Z t
      else None
  end.

Definition radix_value (radix : Z) (s : string) : option Z :=
  if nonempty s then radix_go radix 0%Z s else None.

(** [ExponentPart], or nothing left: the exponent it denotes. *)
Definition exponent_part (s : string) : option Z :=
  match s with
  | EmptyString => Some 0%Z
  | String c t =>
      if Ascii.eqb c "e" || Ascii.eqb c "E" then
        match t with
        | String "+" u => radix_value 10 u
        | String "-" u => Z.opp <$> radix_value 10 u
        | _ => radix_value 10 t
        end
      else None
  end.

(** [StrUnsignedDecimalLiteral]. *)
Definition unsigned_decimal (sx : bool) (s : string) : float :=
  if String.eqb s "Infinity" then (if sx then neg_infinity else infinity)
  else
    let (ip, r1) := span_digits s in
    let '(fp, r2, ok) :=
      match r1 with
      | String "." u =>
          let (fp, r2) := span_digits u in (fp, r2, nonempty ip || nonempty fp)
      | _ => (EmptyString, r1, nonempty ip)
      end in
    if ok then
      match radix_go 10 0%Z (ip +:+ fp), exponent_part r2 with
      | Some m, Some e => dec_to_float sx m (e - Z.of_nat (String.length fp))
      | _, _ => nan
      end
    else nan.

Definition integer_literal (radix : Z) (s : string) : float :=
  match radix_value radix s with
  | Some m => dec_to_float false m 0
  | None => nan
  end.

(** [Number(s)] on a string (the [StringToNumber] operation): white space
    is trimmed, the empty string is [0], then a signed decimal literal,
    [Infinity], or an unsigned binary, octal or hexadecimal integer;
    anything else is [NaN]. *)
Definition StringToNumber (s : string) : float :=
  match trim s with
  | EmptyString => zero
  | String "+" t => unsigned_decimal false t
  | String "-" t => unsigned_decimal true t
  | String "0" (String "x" t) | String "0" (String "X" t) => integer_literal 16 t
  | String "0" (String "o" t) | String "0" (String "O" t) => integer_literal 8 t
  | String "0" (String "b" t) | String "0" (String "B" t) => integer_literal 2 t
  | t => unsigned_decimal false t
  end.

Fixpoint digits_go (fuel : nat) (n : Z) (acc : string) : string :=
  match fuel with
  | O => acc
  | S fuel' =>
      let acc' := String (ascii_of_nat (48 + Z.to_nat (n mod 10))) acc in
      if (n <? 10)%Z then acc' else digits_go fuel' (n / 10)%Z acc'
  end.

(** The decimal digits of a non-negative integer. *)
Definition digits (n : Z) : string :=
  digits_go (S (Z.to_nat (Z.log2 n))) n EmptyString.

Fixpoint zeros (n : nat) : string :=
  match n with O => EmptyString | S n' => String "0" (zeros n') end.

(** [v = num/den] scaled by [10^p], rounded down. *)
Definition scaled_floor (num den : Z) (p : Z) : Z :=
  if (0 <=? p)%Z then (num * 10 ^ p / den)%Z else (num / (den * 10 ^ (- p)))%Z.

(** The [n] with [10^(n-1) <= num/den < 10^n]. *)
Definition decimal_exponent (num den : Z) : Z :=
  let est := ((Z.log2 num - Z.log2 den) * 30103 / 100000)%Z in
  let n := (est - 1)%Z in
  if (scaled_floor num den (- n) <? 1)%Z then n
  else if (scaled_floor num den (- (n + 1)) <? 1)%Z then (n + 1)%Z
  else if (scaled_floor num den (- (n + 2)) <? 1)%Z then (n + 2)%Z
  else (n + 3)%Z.

(** Shortest digits: the least [k] (tried from the given one upwards) with a
    [k]-digit [s] such that [s * 10^(n-k)] reads back as [x]; of two such
    [s] the one nearer to [num/den], the even one on a tie. *)
Fixpoint shortest_go (fuel : nat) (x : float) (num den n k : Z) : Z * Z * Z :=
  let lo := scaled_floor num den (k - n) in
  let hi := (lo + 1)%Z in
  let back s := PrimFloat.eqb (dec_to_float false s (n - k)) x in
  let norm s := if (s =? 10 ^ k)%Z then (10 ^ (k - 1), k, n + 1)%Z else (s, k, n) in
  (* 2 * (v * 10^(k-n)) compared with lo + hi *)
  let closer_lo :=
    if (0 <=? k - n)%Z
    then (2 * num * 10 ^ (k - n) ?= (lo + hi) * den)%Z
    else (2 * num ?= (lo + hi) * den * 10 ^ (n - k))%Z in
  match back lo, back hi with
  | true, true =>
      match closer_lo with
      | Lt => norm lo
      | Gt => norm hi
      | Eq => if Z.even lo then norm lo else norm hi
      end
  | true, false => norm lo
  | false, true => norm hi
  | false, false =>
      match fuel with
      | O => norm lo
      | S fuel' => shortest_go fuel' x num den n (k + 1)%Z
      end
  end.

(** The text of a positive finite number from its digits [s] ([k] of them)
    and decimal exponent [n]. *)
Definition format_number (s k n : Z) : string :=
  let d := digits s in
  if (k <=? n)%Z && (n <=? 21)%Z then d +:+ zeros (Z.to_nat (n - k))
  else if (0 <? n)%Z && (n <=? 21)%Z then
    String.substring 0 (Z.to_nat n) d +:+ "." +:+ drop (Z.to_nat n) d
  else if (-6 <? n)%Z && (n <=? 0)%Z then "0." +:+ zeros (Z.to_nat (- n)) +:+ d
  else
    let e := (n - 1)%Z in
    let es := (if (e <? 0)%Z then "-" else "+") +:+ digits (Z.abs e) in
    if (k =? 1)%Z then d +:+ "e" +:+ es
    else String.substring 0 1 d +:+ "." +:+ drop 1 d +:+ "e" +:+ es.

(** [String(x)] on a number (the [Number::toString] operation). *)
Definition NumberToString (x : float) : string :=
  match Prim2SF x with
  | S754_nan => "NaN"
  | S754_zero _ => "0"
  | S754_infinity s => if s then "-Infinity" else "Infinity"
  | S754_finite sx m e =>
      let num := if (0 <=? e)%Z then (Zpos m * 2 ^ e)%Z else Zpos m in
      let den := if (0 <=? e)%Z then 1%Z else (2 ^ (- e))%Z in
      let n := decimal_exponent num den in
      let '(s, k, n') := shortest_go 17 (abs x) num den n 1 in
      (if sx then "-" else "") +:+ format_number s k n'
  end.

End JS.

(** ** Values, settings and rounding *)

(** A primitive value: what a decoded spreadsheet cell or a stored field
    can hold.  The workbook is read without date conversion, so a date cell
    arrives as its serial number. *)
Inductive value :=
  | VUndefined
  | VNull
  | VBool (b : bool)
  | VNum (x : float)
  | VStr (s : string).

(** [String(v)]. *)
Definition ToString (v : value) : string :=
  match v with
  | VUndefined => "undefined"
  | VNull => "null"
  | VBool b => if b then "true" else "false"
  | VNum x => JS.NumberToString x
  | VStr s => s
  end.

(** [Number(v)]. *)
Definition ToNumber (v : value) : float :=
  match v with
  | VUndefined => nan
  | VNull => zero
  | VBool b => if b then one else zero
  | VNum x => x
  | VStr s => JS.StringToNumber s
  end.

(** [v ?? d]. *)
Definition nullish_or (v d : value) : value :=
  match v with
  | VUndefined | VNull => d
  | _ => v
  end.

Record Settings := {
  moneyDecimals : Z;
  qtyDecimals : Z;
  highlightExtraQty : bool;
  shiftPlannedBySuspensions : bool
}.

Definition defaultSettings : Settings :=
  {| moneyDecimals := 0; qtyDecimals := 2;
     highlightExtraQty := true; shiftPlannedBySuspensions := true |}.

Definition parseNumber (v : value) : option float :=
  match v with
  | VNull | VUndefined => None
  | VNum x => if JS.isFinite x then Some x else None
  | _ =>
      let s := JS.trim (ToString v) in
      if JS.nonempty s then
        let hasComma := JS.includes s "," in
        let hasDot := JS.includes s "." in
        let norm :=
          if hasComma && hasDot then JS.replaceFirst "," "." (JS.removeAll "." s)
          else if hasComma && negb hasDot then JS.replaceFirst "," "." s
          else s in
        let n := JS.StringToNumber norm in
        if JS.isFinite n then Some n else None
      else None
  end.

Definition roundByDecimals (v : value) (decimals : Z) : option float :=
  match v with
  | VNull | VUndefined => None
  | _ =>
      let x := ToNumber v in
      if JS.isFinite x then
        if (decimals =? -3)%Z then
          Some (JS.Math_round (x / 1000) * 1000)%float
        else
          let p := JS.pow10 decimals in
          Some (JS.Math_round (x * p) / p)%float
      else None
  end.

(** ** Data model *)

Inductive ItemType :=
  CAP | SUB | ITEM | TEXT | LUMP | SUBTOTAL | AIU | TOTAL | OTHER.

Global Instance ItemType_eq_dec : EqDecision ItemType.
Proof. solve_decision. Defined.

(** A numeric field is [Some x] when [typeof] gives "number" and [None]
    when the field is absent or [null]. *)
Record BudgetItem := {
  item_id : string;
  code : string;
  codeNorm : string;
  desc : string;
  item_unit : string;
  qtyContract : option float;
  vuContract : option float;
  vtContract : option float;
  parentCodeNorm : string;
  type : ItemType
}.

Record Change := {
  itemCodeNorm : string;
  qtyNew : option float;
  vuNew : option float
}.

Record Revision := {
  rev_id : string;
  rev_name : string;
  changes : list Change;
  rev_show : bool
}.

(** [qtyAccumByItem] maps a normalized item code to the cumulative
    quantity; an entry that is not a number counts as absent. *)
Record Report := {
  rep_id : string;
  cutoffDate : string;
  label : string;
  qtyAccumByItem : gmap string float
}.

Record Suspension := {
  from : string;
  to : string;
  reason : string
}.

Inductive FinanceType := ADVANCE | PAYMENT.

(** [ev_date] is [None] when the event carries no date. *)
Record FinanceEvent := {
  ev_date : option string;
  ev_type : FinanceType;
  amount : value;
  note : string
}.

Record PlannedPoint := {
  date : string;
  plannedCostAccum : float
}.

Record Project := {
  name : string;
  currency : string;
  suspensions : list Suspension;
  items : list BudgetItem;
  revisions : list Revision;
  reports : list Report;
  events : list FinanceEvent;
  curve : list PlannedPoint
}.

(** [project.contract.currency || "COP"]. *)
Definition currency_or_COP (p : Project) : string :=
  if JS.nonempty (currency p) then currency p else "COP".

(** ** Revision overlay *)

Record Effective := { qty : float; vu : float; vt : float }.

(** [(rev.changes || []).find(c => c.itemCodeNorm === item.codeNorm)]. *)
Definition find_change (codeN : string) (chs : list Change) : option Change :=
  List.find (fun c => String.eqb (itemCodeNorm c) codeN) chs.

(** The loop of [budgetEffectiveItem] over the revisions, carrying the two
    mutable locals [qty] and [vu]. *)
Fixpoint revisions_loop (codeN : string) (revs : list Revision)
    (q v : float) : float * float :=
  match revs with
  | [] => (q, v)
  | rev :: rest =>
      match find_change codeN (changes rev) with
      | Some ch =>
          let q' := match qtyNew ch with Some x => x | None => q end in
          let v' := match vuNew ch with Some x => x | None => v end in
          revisions_loop codeN rest q' v'
      | None => revisions_loop codeN rest q v
      end
  end.

(** [budgetEffectiveItem(item, project)]: the third argument of the source,
    [asOfDate], is never read.  The revision list is passed on its own so
    that a prefix of it can be evaluated too. *)
Definition effectiveValue (item : BudgetItem) (revs : list Revision) : Effective :=
  let q0 := match qtyContract item with Some x => x | None => zero end in
  let v0 := match vuContract item with Some x => x | None => zero end in
  let (q, v) := revisions_loop (codeNorm item) revs q0 v0 in
  {| qty := q; vu := v; vt := (q * v)%float |}.

Definition budgetEffectiveItem (item : BudgetItem) (project : Project) : Effective :=
  effectiveValue item (revisions project).

(** ** Contract value *)

Record Money := { value_of : option float; currency_of : string }.

(** The predicate of the [find] that looks for an explicit total row. *)
Definition is_total_row (it : BudgetItem) : bool :=
  bool_decide (type it = TOTAL) &&
  JS.includes (JS.toLowerCase (desc it)) "valor total" &&
  match vtContract it with Some x => JS.isFinite x | None => false end.

(** The summing loop of [contractValue], carrying the local [sum]. *)
Fixpoint contract_sum_loop (project : Project) (its : list BudgetItem)
    (sum : float) : float :=
  match its with
  | [] => sum
  | it :: rest =>
      match type it with
      | ITEM =>
          let eff := budgetEffectiveItem it project in
          contract_sum_loop project rest (sum + qty eff * vu eff)%float
      | AIU | LUMP =>
          let t := match vtContract it with
                   | Some x => if JS.isFinite x then x else zero
                   | None => zero
                   end in
          contract_sum_loop project rest (sum + t)%float
      | _ => contract_sum_loop project rest sum
      end
  end.

Definition contractValue (project : Project) (settings : Settings) : Money :=
  let cur := currency_or_COP project in
  match List.find is_total_row (items project) with
  | Some totalRow =>
      {| value_of :=
           match vtContract totalRow with
           | Some x => roundByDecimals (VNum x) (moneyDecimals settings)
           | None => None
           end;
         currency_of := cur |}
  | None =>
      {| value_of :=
           roundByDecimals (VNum (contract_sum_loop project (items project) zero))
             (moneyDecimals settings);
         currency_of := cur |}
  end.

(** ** Reports and executed values *)

(** [Array.prototype.sort] with a comparator: a stable sort.  Elements are
    inserted from the right, each in front of the first element that does
    not compare smaller, so equal elements keep their order. *)
Section Sort.
Context {A : Type} (cmp : A -> A -> comparison).

Fixpoint insert_sorted (x : A) (l : list A) : list A :=
  match l with
  | [] => [x]
  | y :: r =>
      match cmp x y with
      | Gt => y :: insert_sorted x r
      | _ => x :: l
      end
  end.

Fixpoint sort (l : list A) : list A :=
  match l with
  | [] => []
  | x :: r => insert_sorted x (sort r)
  end.
End Sort.

(** "Not after" in the order of a comparator. *)
Definition cmp_le {A : Type} (cmp : A -> A -> comparison) (a b : A) : Prop :=
  cmp a b <> Gt.

Definition by_cutoff (a b : Report) : comparison :=
  JS.localeCompare (cutoffDate a) (cutoffDate b).

Definition previousReport (project : Project) (report : Report) : option Report :=
  let cutoff := cutoffDate report in
  last (sort by_cutoff
          (List.filter (fun r => JS.str_ltb (cutoffDate r) cutoff) (reports project))).

(** [typeof map[code] === "number" ? map[code] : 0]. *)
Definition qty_of (m : gmap string float) (codeN : string) : float :=
  match m !! codeN with Some x => x | None => zero end.

Record Executed := {
  accumVal : option float;
  periodVal : option float;
  exec_currency : string
}.

(** The loop of [computeExecutedValues], carrying [accumVal] and
    [periodVal]. *)
Fixpoint executed_loop (project : Project) (map prevMap : gmap string float)
    (its : list BudgetItem) (accum period : float) : float * float :=
  match its with
  | [] => (accum, period)
  | it :: rest =>
      if bool_decide (type it = ITEM) then
        let eff := budgetEffectiveItem it project in
        let qa := qty_of map (codeNorm it) in
        let qp0 := qty_of prevMap (codeNorm it) in
        let qPeriod := (qa - qp0)%float in
        executed_loop project map prevMap rest
          (accum + qa * vu eff)%float (period + qPeriod * vu eff)%float
      else executed_loop project map prevMap rest accum period
  end.

Definition computeExecutedValues (settings : Settings) (project : Project)
    (report : Report) : Executed :=
  let prev := previousReport project report in
  let prevMap := match prev with Some r => qtyAccumByItem r | None => ∅ end in
  let map := qtyAccumByItem report in
  let (a, p) := executed_loop project map prevMap (items project) zero zero in
  {| accumVal := roundByDecimals (VNum a) (moneyDecimals settings);
     periodVal := roundByDecimals (VNum p) (moneyDecimals settings);
     exec_currency := currency_or_COP project |}.

(** [contractValue(project, settings).value || 0]. *)
Definition contract_value_or0 (settings : Settings) (project : Project) : float :=
  match value_of (contractValue project settings) with
  | Some x => JS.or0 x
  | None => zero
  end.

(** A money figure used as an operand: [null] converts to [0]. *)
Definition operand (m : option float) : float :=
  match m with Some x => x | None => zero end.

Definition computeExecutedPct (settings : Settings) (project : Project)
    (report : Report) : option float :=
  let cv := contract_value_or0 settings project in
  if (cv <=? 0)%float then None
  else
    let v := computeExecutedValues settings project report in
    Some (operand (accumVal v) / cv)%float.

(** ** Finance *)

(** [e.date || ""]. *)
Definition event_date (e : FinanceEvent) : string :=
  match ev_date e with Some d => d | None => "" end.

(** [cutoffDate || "9999-12-31"]: an omitted or empty cut-off is the far
    future. *)
Definition cutoff_or_max (cutoffDate : option string) : string :=
  match cutoffDate with
  | Some d => if JS.nonempty d then d else "9999-12-31"
  | None => "9999-12-31"
  end.

Definition financeAccumUpTo (settings : Settings) (project : Project)
    (cutoffDate : option string) : option float :=
  let date := cutoff_or_max cutoffDate in
  let sum :=
    fold_left (fun acc e => (acc + JS.or0 (ToNumber (amount e)))%float)
      (List.filter (fun e => JS.str_leb (event_date e) date) (events project))
      zero in
  roundByDecimals (VNum sum) (moneyDecimals settings).

Definition computeFinancePct (settings : Settings) (project : Project)
    (cutoffDate : option string) : option float :=
  let cv := contract_value_or0 settings project in
  if (cv <=? 0)%float then None
  else
    let acc := financeAccumUpTo settings project cutoffDate in
    Some (operand acc / cv)%float.

(** ** Row classification (RowClassifier) *)

Definition normalizeCode (code : value) : string :=
  match code with
  | VNull | VUndefined => ""
  | _ =>
      let s := JS.trim (ToString code) in
      if JS.endsWith s "." then String.substring 0 (String.length s - 1) s else s
  end.

(** The test [/^\d+(\.\d+)*$/]: dot-separated runs of digits. *)
Definition is_numeric_code (s : string) : bool :=
  forallb (fun seg => JS.nonempty seg && JS.all_digits seg) (JS.split "." s).

Definition codeLevel (codeNorm : string) : nat :=
  if JS.nonempty codeNorm then
    if is_numeric_code codeNorm then length (JS.split "." codeNorm) else 99
  else 0.

(** [(v ?? "").toString().trim()]. *)
Definition text_of (v : value) : string :=
  JS.trim (ToString (nullish_or v (VStr ""))).

Definition classifyRow (code desc : value) (qty : option float) (unit : value)
    (vu vt : option float) : ItemType :=
  let cRaw := text_of code in
  let dRaw := text_of desc in
  let cLow := JS.toLowerCase cRaw in
  let dLow := JS.toLowerCase dRaw in
  if negb (JS.nonempty cRaw) && negb (JS.nonempty dRaw) then OTHER
  else if JS.startsWith cLow "subtotal" || JS.startsWith dLow "subtotal" then SUBTOTAL
  else if
    JS.startsWith dLow "administr" || JS.startsWith dLow "imprev" ||
    JS.startsWith dLow "utilidad" || JS.includes dLow "a.i.u" || String.eqb dLow "aiu" ||
    JS.startsWith cLow "administr" || JS.startsWith cLow "imprev" ||
    JS.startsWith cLow "utilidad" || JS.includes cLow "a.i.u" || String.eqb cLow "aiu"
  then AIU
  else if
    JS.includes dLow "valor total" || JS.includes cLow "valor total" ||
    JS.includes dLow "incluye a.i.u" || JS.includes dLow "incluye aiu" ||
    JS.includes cLow "incluye a.i.u" || JS.includes cLow "incluye aiu"
  then TOTAL
  else
    let hasVT := match vt with Some x => JS.isFinite x | None => false end in
    if negb (JS.nonempty cRaw) && JS.nonempty dRaw then (if hasVT then LUMP else TEXT)
    else
      let cn := normalizeCode (VStr cRaw) in
      if is_numeric_code cn then
        match codeLevel cn with
        | 1 => CAP
        | 2 => SUB
        | _ => ITEM
        end
      else if JS.nonempty cn then ITEM
      else OTHER.

(** ** Budget import (BudgetTableParser) *)

(** A decoded sheet: rows of cells; [None] is a row the decoder left out. *)
Definition Row := option (list value).

Definition keywords : list string :=
  ["item"; "ítem"; "codigo"; "código"; "descripcion"; "descripción"; "unidad";
   "und"; "cantidad"; "cant"; "valor"; "unit"; "total"; "vt"; "vu"].

(** [String(c ?? "").toLowerCase().trim()]. *)
Definition cell_text (c : value) : string :=
  JS.trim (JS.toLowerCase (ToString (nullish_or c (VStr "")))).

Definition row_cells (r : Row) : list value :=
  match r with Some cells => cells | None => [] end.

(** The non-empty lower-cased texts of a row. *)
Definition row_text (r : Row) : list string :=
  List.filter JS.nonempty (map cell_text (row_cells r)).

Definition is_keyword_hit (t : string) : bool :=
  existsb (fun kw => JS.includes t kw) keywords.

Definition row_hits (text : list string) : nat :=
  fold_left (fun acc t => acc + (if is_keyword_hit t then 1 else 0)) text 0.

Definition row_score (r : Row) : nat :=
  let text := row_text r in
  row_hits text * 3 + Nat.min (length text) 12.

(** The loop of [findHeaderRow] over the rows it scans, carrying [best]. *)
Fixpoint header_loop (rows : list Row) (i : nat) (best_idx : Z) (best_score : nat) : Z :=
  match rows with
  | [] => best_idx
  | r :: rest =>
      let score := row_score r in
      if best_score <? score then header_loop rest (S i) (Z.of_nat i) score
      else header_loop rest (S i) best_idx best_score
  end.

Definition findHeaderRow (rows : list Row) : Z :=
  header_loop (firstn (Nat.min (length rows) 80) rows) 0 (-1) 0.

Record Columns := {
  col_code : Z; col_desc : Z; col_unit : Z; col_qty : Z; col_vu : Z; col_vt : Z
}.

Fixpoint find_column (header : list string) (preds : list string) (i : nat) : Z :=
  match header with
  | [] => (-1)%Z
  | h :: rest =>
      if JS.nonempty h && existsb (fun p => JS.includes h p) preds then Z.of_nat i
      else find_column rest preds (S i)
  end.

Definition mapColumns (headerRow : list value) : Columns :=
  let header := map cell_text headerRow in
  {| col_code := find_column header ["item"; "ítem"; "codigo"; "código"] 0;
     col_desc := find_column header ["descripcion"; "descripción"; "desc"] 0;
     col_unit := find_column header ["unidad"; "und"] 0;
     col_qty := find_column header ["cantidad"; "cant"] 0;
     col_vu := find_column header ["valor unit"; "vr unit"; "v/u"; "vu"] 0;
     col_vt := find_column header ["valor total"; "vr total"; "total"; "vt"] 0 |}.

(** [row[i]]: [undefined] outside the row. *)
Definition cell_at (row : list value) (i : Z) : value :=
  if (i <? 0)%Z then VUndefined else nth (Z.to_nat i) row VUndefined.

(** [col >= 0 ? row[col] : null]. *)
Definition column_cell (row : list value) (col : Z) : value :=
  if (0 <=? col)%Z then cell_at row col else VNull.

Definition column_number (row : list value) (col : Z) : option float :=
  if (0 <=? col)%Z then parseNumber (cell_at row col) else None.

(** [row.every(c => c === null || c === "")]. *)
Definition is_blank_row (row : list value) : bool :=
  forallb (fun c => match c with
                    | VNull => true
                    | VStr s => negb (JS.nonempty s)
                    | _ => false
                    end) row.

Definition decimalsCount (n : option float) : nat :=
  match n with
  | None => 0
  | Some x =>
      let s := JS.NumberToString x in
      if JS.includes s "." then String.length (nth 1 (JS.split "." s) "") else 0
  end.

(** The decimal text of an integer setting. *)
Definition Z_to_string (n : Z) : string :=
  if (n <? 0)%Z then "-" +:+ JS.digits (- n) else JS.digits n.

Record BudgetParse := { parsed_items : list BudgetItem; budget_warnings : list string }.

Section BudgetImport.
(** The settings in force, and the random part of the identifier drawn
    for the row at index [r] ([Math.random().toString(16).slice(2)]). *)
Variable settings : Settings.
Variable random_hex : nat -> string.

(** One row of the sheet below the header: the item it yields, if any. *)
Definition budget_row (cols : Columns) (r : nat) (row : Row) : option BudgetItem :=
  match row with
  | None => None
  | Some row =>
      if is_blank_row row then None
      else
        let code := column_cell row (col_code cols) in
        let desc := column_cell row (col_desc cols) in
        let unit := column_cell row (col_unit cols) in
        let qty := column_number row (col_qty cols) in
        let vu := column_number row (col_vu cols) in
        let vt := column_number row (col_vt cols) in
        let typ := classifyRow code desc qty unit vu vt in
        if bool_decide (typ = OTHER) then None
        else
          let codeStr := text_of code in
          let descStr := text_of desc in
          let moved :=
            bool_decide (typ = SUBTOTAL) && negb (JS.nonempty descStr) &&
            JS.startsWith (JS.toLowerCase codeStr) "subtotal" in
          let descStr' := if moved then codeStr else descStr in
          let codeStr' := if moved then "" else codeStr in
          let codeNorm := normalizeCode (VStr codeStr') in
          let lvl := codeLevel codeNorm in
          let parent :=
            if (2 <=? lvl) && is_numeric_code codeNorm
            then JS.join "." (removelast (JS.split "." codeNorm))
            else "" in
          let q := match qty with Some x => x | None => zero end in
          let v := match vu with Some x => x | None => zero end in
          Some {| item_id := "itm_" +:+ random_hex r +:+ "_" +:+ JS.digits (Z.of_nat r);
                  code := codeStr';
                  codeNorm := codeNorm;
                  desc := descStr';
                  item_unit := text_of unit;
                  qtyContract := Some q;
                  vuContract := Some v;
                  vtContract := Some (match vt with Some x => x | None => (q * v)%float end);
                  parentCodeNorm := parent;
                  type := typ |}
  end.

(** The loop over the rows after the header, [r] being the row index. *)
Fixpoint budget_rows (cols : Columns) (r : nat) (rows : list Row) : list BudgetItem :=
  match rows with
  | [] => []
  | row :: rest =>
      match budget_row cols r row with
      | Some it => it :: budget_rows cols (S r) rest
      | None => budget_rows cols (S r) rest
      end
  end.

Definition missing_columns (cols : Columns) : list string :=
  List.map fst
    (List.filter (fun kv => (snd kv <? 0)%Z)
       [("code", col_code cols); ("desc", col_desc cols); ("unit", col_unit cols);
        ("qty", col_qty cols); ("vu", col_vu cols)]).

Definition parseBudgetFromSheet (rows : list Row) : BudgetParse :=
  let headerIdx := findHeaderRow rows in
  if (headerIdx <? 0)%Z then
    {| parsed_items := []; budget_warnings := ["No se encontró fila de encabezados."] |}
  else
    let h := Z.to_nat headerIdx in
    let headerRow := row_cells (nth h rows None) in
    let cols := mapColumns headerRow in
    let missing := missing_columns cols in
    let warnings1 :=
      match missing with
      | [] => []
      | _ => ["Faltan columnas mínimas detectables: " +:+ JS.join ", " missing +:+
              ". Puedes renombrarlas en Excel o ajustar manualmente (próxima versión)."]
      end in
    let items := budget_rows cols (S h) (skipn (S h) rows) in
    let extra :=
      List.filter (fun it => (qtyDecimals settings <? Z.of_nat (decimalsCount (qtyContract it)))%Z)
        items in
    let warnings2 :=
      match extra with
      | [] => []
      | _ => ["Hay " +:+ JS.digits (Z.of_nat (length extra)) +:+
              " cantidad(es) con más de " +:+ Z_to_string (qtyDecimals settings) +:+
              " decimales en el presupuesto. Se resaltarán."]
      end in
    {| parsed_items := items; budget_warnings := warnings1 ++ warnings2 |}.
End BudgetImport.

(** ** Planned curve import (PlannedCurveImporter) *)

(** [s.padStart(2, "0")]. *)
Definition padStart2 (s : string) : string :=
  match String.length s with
  | 0 => "00"
  | 1 => "0" +:+ s
  | _ => s
  end.

(** The test [/^\d{4}-\d{2}-\d{2}$/]. *)
Definition is_iso_date (s : string) : bool :=
  match list_ascii_of_string s with
  | [y1; y2; y3; y4; h1; m1; m2; h2; d1; d2] =>
      forallb JS.is_digit [y1; y2; y3; y4; m1; m2; d1; d2] &&
      Ascii.eqb h1 "-" && Ascii.eqb h2 "-"
  | _ => false
  end.

Definition is_date_separator (c : ascii) : bool := Ascii.eqb c "/" || Ascii.eqb c "-".

(** The match of [/^(\d{1,2})[\/\-](\d{1,2})[\/\-](\d{4})$/]: the three
    groups. *)
Definition match_dmy (s : string) : option (string * string * string) :=
  let (g1, r1) := JS.span_digits s in
  match r1 with
  | String c1 r2 =>
      let (g2, r3) := JS.span_digits r2 in
      match r3 with
      | String c2 r4 =>
          let (g3, r5) := JS.span_digits r4 in
          let short g := (1 <=? String.length g) && (String.length g <=? 2) in
          if short g1 && short g2 && (String.length g3 =? 4) &&
             is_date_separator c1 && is_date_separator c2 && negb (JS.nonempty r5)
          then Some (g1, g2, g3) else None
      | EmptyString => None
      end
  | EmptyString => None
  end.

(** [String(Number(g))] for a run of one or two digits. *)
Definition renumber (g : string) : string :=
  match JS.radix_value 10 g with
  | Some n => JS.digits n
  | None => "NaN"
  end.

(** The curve under construction: entries of a [Map] in insertion order. *)
Definition DateMap := list (string * float).

Fixpoint map_get (k : string) (m : DateMap) : option float :=
  match m with
  | [] => None
  | (k', v) :: r => if String.eqb k' k then Some v else map_get k r
  end.

(** [m.set(k, v)]: an existing key keeps its place. *)
Fixpoint map_set (k : string) (v : float) (m : DateMap) : DateMap :=
  match m with
  | [] => [(k, v)]
  | (k', v') :: r => if String.eqb k' k then (k, v) :: r else (k', v') :: map_set k v r
  end.

(** [(m.get(k) || 0) + v] stored under [k]. *)
Definition map_add (m : DateMap) (k : string) (v : float) : DateMap :=
  let old := match map_get k m with Some x => JS.or0 x | None => zero end in
  map_set k (old + v)%float m.

Record PlannedParse := { parsed_curve : list PlannedPoint; planned_warnings : list string }.

(** [findIndex]: the first index whose element passes, or -1. *)
Fixpoint findIndex {A} (f : A -> bool) (l : list A) (i : nat) : Z :=
  match l with
  | [] => (-1)%Z
  | x :: r => if f x then Z.of_nat i else findIndex f r (S i)
  end.

(** The running sums of [sorted.map(([date, cost]) => ...)], carrying
    [accum]. *)
Fixpoint accumulate (accum : float) (sorted : DateMap) : list PlannedPoint :=
  match sorted with
  | [] => []
  | (d, cost) :: r =>
      let accum' := (accum + cost)%float in
      {| date := d; plannedCostAccum := accum' |} :: accumulate accum' r
  end.

Definition by_date (a b : string * float) : comparison :=
  JS.localeCompare (fst a) (fst b).

(** "Normalize and accumulate": from the collected points to the curve. *)
Definition curve_of_points (points : DateMap) : list PlannedPoint :=
  let byDate := fold_left (fun m p => map_add m (fst p) (snd p)) points [] in
  accumulate zero (sort by_date byDate).

Section PlannedImport.
(** The spreadsheet library's [XLSX.SSF.parse_date_code]: year, month and
    day of a date serial, [None] when it gives nothing or throws. *)
Variable parse_date_code : float -> option (Z * Z * Z).

Definition toISODate (v : value) : option string :=
  match v with
  | VNull | VUndefined => None
  | _ =>
      let from_serial :=
        match v with
        | VNum x =>
            match parse_date_code x with
            | Some (y, m, d) =>
                if negb (y =? 0)%Z && negb (m =? 0)%Z && negb (d =? 0)%Z then
                  Some (Z_to_string y +:+ "-" +:+ padStart2 (Z_to_string m) +:+ "-"
                        +:+ padStart2 (Z_to_string d))
                else None
            | None => None
            end
        | _ => None
        end in
      match from_serial with
      | Some iso => Some iso
      | None =>
          let s := JS.trim (ToString v) in
          if is_iso_date s then Some s
          else
            match match_dmy s with
            | Some (g1, g2, g3) =>
                Some (g3 +:+ "-" +:+ padStart2 (renumber g2) +:+ "-" +:+ padStart2 (renumber g1))
            | None => None
            end
      end
  end.

(** Shape A: one point per row holding a number and a date. *)
Fixpoint long_points (iFecha iCosto : Z) (rows : list Row) : DateMap :=
  match rows with
  | [] => []
  | None :: rest => long_points iFecha iCosto rest
  | Some row :: rest =>
      match parseNumber (cell_at row iCosto) with
      | None => long_points iFecha iCosto rest
      | Some cost =>
          match toISODate (cell_at row iFecha) with
          | None => long_points iFecha iCosto rest
          | Some d => (d, cost) :: long_points iFecha iCosto rest
          end
      end
  end.

(** Shape B: the columns whose header is a date. *)
Fixpoint date_columns (header : list string) (i : nat) : list (nat * string) :=
  match header with
  | [] => []
  | h :: rest =>
      match toISODate (VStr h) with
      | Some iso => (i, iso) :: date_columns rest (S i)
      | None => date_columns rest (S i)
      end
  end.

(** The inner loop of shape B over the date columns of one row. *)
Definition wide_row (dateCols : list (nat * string)) (row : list value)
    (sumByDate : DateMap) : DateMap :=
  fold_left
    (fun m c =>
       match parseNumber (cell_at row (Z.of_nat (fst c))) with
       | None => m
       | Some v => map_add m (snd c) v
       end)
    dateCols sumByDate.

Fixpoint wide_rows (dateCols : list (nat * string)) (rows : list Row)
    (sumByDate : DateMap) : DateMap :=
  match rows with
  | [] => sumByDate
  | None :: rest => wide_rows dateCols rest sumByDate
  | Some row :: rest => wide_rows dateCols rest (wide_row dateCols row sumByDate)
  end.

Definition wide_points (dateCols : list (nat * string)) (rows : list Row) : DateMap :=
  wide_rows dateCols rows
    (fold_left (fun m c => map_set (snd c) zero m) dateCols []).

Definition no_date_columns_warning : string :=
  "No pude detectar columnas de fecha/costo. Intenta una hoja con columnas 'Fecha' y 'Costo', o una exportación con fechas como encabezados.".

(** The header texts, the two column indexes of shape A and the rows
    below the header. *)
Definition planned_header (rows : list Row) : list string :=
  let headerIdx := findHeaderRow rows in
  let headerRow :=
    if (headerIdx <? 0)%Z then [] else row_cells (nth (Z.to_nat headerIdx) rows None) in
  map (fun h => JS.trim (ToString (nullish_or h (VStr "")))) headerRow.

Definition planned_body (rows : list Row) : list Row :=
  skipn (Z.to_nat (findHeaderRow rows + 1)) rows.

Definition fecha_index (header : list string) : Z :=
  findIndex (fun h => JS.includes h "fecha") (map JS.toLowerCase header) 0.

Definition costo_index (header : list string) : Z :=
  findIndex (fun h => JS.includes h "costo" || JS.includes h "cost")
    (map JS.toLowerCase header) 0.

(** The points collected from the sheet; [None] when neither shape is
    recognized. *)
Definition planned_points (rows : list Row) : option DateMap :=
  let header := planned_header rows in
  let iFecha := fecha_index header in
  let iCosto := costo_index header in
  if (0 <=? iFecha)%Z && (0 <=? iCosto)%Z then
    Some (long_points iFecha iCosto (planned_body rows))
  else
    let dateCols := date_columns header 0 in
    if length dateCols <? 3 then None
    else Some (wide_points dateCols (planned_body rows)).

Definition parsePlanned (rows : list Row) : PlannedParse :=
  match rows with
  | [] => {| parsed_curve := []; planned_warnings := ["Hoja vacía."] |}
  | _ =>
      match planned_points rows with
      | None =>
          {| parsed_curve := []; planned_warnings := [no_date_columns_warning] |}
      | Some points =>
          let curve := curve_of_points points in
          {| parsed_curve := curve;
             planned_warnings :=
               match curve with
               | [] => []
               | _ => ["Programado: " +:+ JS.digits (Z.of_nat (length curve)) +:+
                       " punto(s) de curva cargados."]
               end |}
      end
  end.
End PlannedImport.

(** ** Suspension shifting (SuspensionAligner) *)

(** Days from 1970-01-01 to the given day of the proleptic Gregorian
    calendar ([MakeDay]), and back. *)
Definition days_from_civil (y m d : Z) : Z :=
  let y' := (if m <=? 2 then y - 1 else y)%Z in
  let era := (y' / 400)%Z in
  let yoe := (y' - era * 400)%Z in
  let mp := (if 2 <? m then m - 3 else m + 9)%Z in
  let doy := ((153 * mp + 2) / 5 + d - 1)%Z in
  let doe := (yoe * 365 + yoe / 4 - yoe / 100 + doy)%Z in
  (era * 146097 + doe - 719468)%Z.

Definition civil_from_days (z : Z) : Z * Z * Z :=
  let z' := (z + 719468)%Z in
  let era := (z' / 146097)%Z in
  let doe := (z' - era * 146097)%Z in
  let yoe := ((doe - doe / 1460 + doe / 36524 - doe / 146096) / 365)%Z in
  let doy := (doe - (365 * yoe + yoe / 4 - yoe / 100))%Z in
  let mp := ((5 * doy + 2) / 153)%Z in
  let d := (doy - (153 * mp + 2) / 5 + 1)%Z in
  let m := (if mp <? 10 then mp + 3 else mp - 9)%Z in
  ((if m <=? 2 then yoe + era * 400 + 1 else yoe + era * 400)%Z, m, d).

Definition msPerDay : Z := 86400000.

(** The integer a finite number truncates to. *)
Definition Z_of_float (x : float) : Z :=
  match Prim2SF x with
  | S754_finite s m e =>
      let a := (if 0 <=? e then Zpos m * 2 ^ e else Zpos m / 2 ^ (- e))%Z in
      if s then (- a)%Z else a
  | _ => 0%Z
  end.

(** [TimeClip]: the time value of [new Date(t)] for a number [t]. *)
Definition TimeClip (t : float) : float :=
  if JS.isFinite t then
    if (abs t <=? 8640000000000000)%float then JS.float_of_Z (Z_of_float t) else nan
  else nan.

Definition pad_left (n : nat) (s : string) : string :=
  JS.zeros (n - String.length s) +:+ s.

(** [toISOString()] of a valid time value. *)
Definition iso_string (t : Z) : string :=
  let day := (t / msPerDay)%Z in
  let ms := (t mod msPerDay)%Z in
  let '(y, m, d) := civil_from_days day in
  let year :=
    if (0 <=? y)%Z && (y <=? 9999)%Z then pad_left 4 (JS.digits y)
    else (if (y <? 0)%Z then "-" else "+") +:+ pad_left 6 (JS.digits (Z.abs y)) in
  year +:+ "-" +:+ pad_left 2 (JS.digits m) +:+ "-" +:+ pad_left 2 (JS.digits d) +:+ "T"
  +:+ pad_left 2 (JS.digits (ms / 3600000)) +:+ ":"
  +:+ pad_left 2 (JS.digits (ms / 60000 mod 60)) +:+ ":"
  +:+ pad_left 2 (JS.digits (ms / 1000 mod 60)) +:+ "."
  +:+ pad_left 3 (JS.digits (ms mod 1000)) +:+ "Z".

(** What a call gives back: a value, or the [RangeError] thrown by
    [toISOString] on an invalid date. *)
Inductive outcome :=
  | Returned (s : string)
  | RangeError.

Section Suspensions.
(** The host's time zone: [UTC t] is the time value of the local time
    [t] (both in milliseconds). *)
Variable UTC : Z -> Z.

(** The fields of a date text [YYYY-MM-DD], [YYYY-MM] or [YYYY]. *)
Definition date_fields (s : string) : option (Z * Z * Z) :=
  let num a b := JS.radix_value 10 (String.substring a b s) in
  let dash i := String.eqb (String.substring i 1 s) "-" in
  let fields :=
    match String.length s with
    | 4 => match num 0 4 with Some y => Some (y, 1%Z, 1%Z) | None => None end
    | 7 =>
        match num 0 4, num 5 2 with
        | Some y, Some m => if dash 4 then Some (y, m, 1%Z) else None
        | _, _ => None
        end
    | 10 =>
        match num 0 4, num 5 2, num 8 2 with
        | Some y, Some m, Some d => if dash 4 && dash 7 then Some (y, m, d) else None
        | _, _, _ => None
        end
    | _ => None
    end in
  match fields with
  | Some (y, m, d) =>
      if (1 <=? m)%Z && (m <=? 12)%Z && (1 <=? d)%Z && (d <=? 31)%Z
      then Some (y, m, d) else None
  | None => None
  end.

(** The time value of [new Date(s + "T00:00:00")] for a date written
    [YYYY-MM-DD], [YYYY-MM] or [YYYY]: local midnight of that date.  Every
    other text gives [NaN] here; a host also reads years written with a
    sign and six digits, and may read further spellings of its own. *)
Definition local_midnight (s : string) : float :=
  match date_fields s with
  | Some (y, m, d) =>
      TimeClip (JS.float_of_Z (UTC ((days_from_civil y m 1 + (d - 1)) * msPerDay)))
  | None => nan
  end.

(** The loop over the suspensions, carrying [extraDays]. *)
Fixpoint suspension_days (d : float) (ss : list Suspension) (extraDays : float) : float :=
  match ss with
  | [] => extraDays
  | s :: rest =>
      if negb (JS.nonempty (from s)) || negb (JS.nonempty (to s))
      then suspension_days d rest extraDays
      else
        let a := local_midnight (from s) in
        let b := local_midnight (to s) in
        if is_nan a || is_nan b then suspension_days d rest extraDays
        else if (b <=? d)%float then
          suspension_days d rest
            (extraDays + (JS.Math_round ((b - a) / (1000 * 60 * 60 * 24)) + 1))%float
        else suspension_days d rest extraDays
  end.

Definition shiftDateBySuspensions (dateISO : string) (project : Project) : outcome :=
  let d := local_midnight dateISO in
  if is_nan d then Returned dateISO
  else
    let extraDays := suspension_days d (suspensions project) zero in
    let shifted := TimeClip (d + extraDays * 24 * 60 * 60 * 1000)%float in
    if is_nan shifted then RangeError
    else Returned (String.substring 0 10 (iso_string (Z_of_float shifted))).
End Suspensions.

(** The same function over the host's own reading of date texts, which
    the language leaves to the implementation outside the date-time string
    format. *)
Section SuspensionsOnHost.
(** [date_of s] is the time value of [new Date(s + "T00:00:00")] on the
    host: [NaN] for a text it does not read as a date. *)
Variable date_of : string -> float.

Fixpoint suspension_days_host (d : float) (ss : list Suspension) (extraDays : float)
    : float :=
  match ss with
  | [] => extraDays
  | s :: rest =>
      if negb (JS.nonempty (from s)) || negb (JS.nonempty (to s))
      then suspension_days_host d rest extraDays
      else
        let a := date_of (from s) in
        let b := date_of (to s) in
        if is_nan a || is_nan b then suspension_days_host d rest extraDays
        else if (b <=? d)%float then
          suspension_days_host d rest
            (extraDays + (JS.Math_round ((b - a) / (1000 * 60 * 60 * 24)) + 1))%float
        else suspension_days_host d rest extraDays
  end.

Definition shiftDateBySuspensions_host (dateISO : string) (project : Project) : outcome :=
  let d := date_of dateISO in
  if is_nan d then Returned dateISO
  else
    let extraDays := suspension_days_host d (suspensions project) zero in
    let shifted := TimeClip (d + extraDays * 24 * 60 * 60 * 1000)%float in
    if is_nan shifted then RangeError
    else Returned (String.substring 0 10 (iso_string (Z_of_float shifted))).
End SuspensionsOnHost.

(** ** Updating a project *)

(** The project with one of its lists replaced: what an assignment to, or
    a mutation of, that list leaves behind. *)
Definition with_items (p : Project) (its : list BudgetItem) : Project :=
  {| name := name p; currency := currency p; suspensions := suspensions p;
     items := its; revisions := revisions p; reports := reports p;
     events := events p; curve := curve p |}.

Definition with_revisions (p : Project) (revs : list Revision) : Project :=
  {| name := name p; currency := currency p; suspensions := suspensions p;
     items := items p; revisions := revs; reports := reports p;
     events := events p; curve := curve p |}.

Definition with_reports (p : Project) (rs : list Report) : Project :=
  {| name := name p; currency := currency p; suspensions := suspensions p;
     items := items p; revisions := revisions p; reports := rs;
     events := events p; curve := curve p |}.

Definition with_events (p : Project) (evs : list FinanceEvent) : Project :=
  {| name := name p; currency := currency p; suspensions := suspensions p;
     items := items p; revisions := revisions p; reports := reports p;
     events := evs; curve := curve p |}.

Definition with_suspensions (p : Project) (ss : list Suspension) : Project :=
  {| name := name p; currency := currency p; suspensions := ss;
     items := items p; revisions := revisions p; reports := reports p;
     events := events p; curve := curve p |}.

(** ** Creating and deleting reports *)

(** The identifier of a report: [rep_], the date without its dashes, [_]
    and the random part [Math.random().toString(16).slice(2)], here
    [random_hex]. *)
Definition ensureReportId (random_hex : string) (date : string) : string :=
  "rep_" +:+ JS.removeAll "-" date +:+ "_" +:+ random_hex.

(** The loop of [createNewReport] that fills [rep.qtyAccumByItem] from the
    quantities [base] of the previous report. *)
Fixpoint seed_loop (base : gmap string float) (its : list BudgetItem)
    (m : gmap string float) : gmap string float :=
  match its with
  | [] => m
  | it :: rest =>
      if bool_decide (type it = ITEM)
      then seed_loop base rest (<[codeNorm it := qty_of base (codeNorm it)]> m)
      else seed_loop base rest m
  end.

(** [createNewReport], as a function of the project and of what the
    dialogs return: the cut-off date and the label ([None] when a dialog
    is cancelled).  The result is the project as the call leaves it.  The
    period start, period end and notes of the new report are not read by
    any computation and are not part of [Report]. *)
Definition createNewReport (random_hex : string) (cutoff label : option string)
    (p : Project) : Project :=
  match List.filter (fun i => bool_decide (type i = ITEM)) (items p) with
  | [] => p
  | _ =>
      match cutoff with
      | None | Some EmptyString => p
      | Some cutoff =>
          let prev :=
            last (sort by_cutoff
                    (List.filter (fun r => JS.str_ltb (cutoffDate r) cutoff) (reports p))) in
          let base := match prev with Some r => qtyAccumByItem r | None => ∅ end in
          let rep :=
            {| rep_id := ensureReportId random_hex cutoff;
               cutoffDate := cutoff;
               label := match label with
                        | None | Some EmptyString => cutoff
                        | Some l => l
                        end;
               qtyAccumByItem := seed_loop base (items p) ∅ |} in
          with_reports p (reports p ++ [rep])
      end
  end.

(** [getSelectedReport], [selected] being the value of the report selector. *)
Definition getSelectedReport (selected : string) (project : Project) : option Report :=
  List.find (fun r => String.eqb (rep_id r) selected) (reports project).

(** [deleteSelectedReport]; [confirmed] is the answer to the confirmation
    dialog. *)
Definition deleteSelectedReport (selected : string) (confirmed : bool) (p : Project)
    : Project :=
  match getSelectedReport selected p with
  | None => p
  | Some rep =>
      if confirmed
      then with_reports p
             (List.filter (fun r => negb (String.eqb (rep_id r) (rep_id rep))) (reports p))
      else p
  end.

(** ** Normalizing the budget quantities *)

(** A stored numeric field as the value [roundByDecimals] receives. *)
Definition field_value (o : option float) : value :=
  match o with Some x => VNum x | None => VNull end.

(** The body of the loop of [normalizeBudgetQuantities]: the quantity of
    an ITEM row is replaced by its rounding; other rows are skipped. *)
Definition normalize_item (dec : Z) (it : BudgetItem) : BudgetItem :=
  if bool_decide (type it = ITEM) then
    {| item_id := item_id it; code := code it; codeNorm := codeNorm it; desc := desc it;
       item_unit := item_unit it;
       qtyContract := roundByDecimals (field_value (qtyContract it)) dec;
       vuContract := vuContract it; vtContract := vtContract it;
       parentCodeNorm := parentCodeNorm it; type := type it |}
  else it.

Definition normalizeBudgetQuantities (settings : Settings) (p : Project) : Project :=
  with_items p (map (normalize_item (qtyDecimals settings)) (items p)).

(** ** Chart series *)

(** A point of a series, with its fields [x] and [y], and a series
    [{name, points, color}]. *)
Record Point := { pt_x : string; pt_y : float }.

Record Series := { series_name : string; points : list Point; color : string }.

(** What a call that can throw gives back. *)
Inductive completion (A : Type) :=
  | Normal (a : A)
  | Throws.
Arguments Normal {A} a.
Arguments Throws {A}.

Definition by_point_date (a b : PlannedPoint) : comparison :=
  JS.localeCompare (date a) (date b).

(** [reps.map(r => ({x: r.cutoffDate, y: computeExecutedPct(project, r) ?? 0}))]. *)
Definition executed_points (settings : Settings) (project : Project)
    (reps : list Report) : list Point :=
  map (fun r =>
         {| pt_x := cutoffDate r;
            pt_y := match computeExecutedPct settings project r with
                    | Some y => y
                    | None => zero
                    end |}) reps.

Definition buildFinanceVsExecutedSeries (settings : Settings) (project : Project)
    : option (list Series) :=
  let reps := sort by_cutoff (reports project) in
  match reps with
  | [] => None
  | _ =>
      let cv := contract_value_or0 settings project in
      if (cv <=? 0)%float then None
      else
        let fin :=
          map (fun r =>
                 {| pt_x := cutoffDate r;
                    pt_y := (operand (financeAccumUpTo settings project (Some (cutoffDate r)))
                             / cv)%float |}) reps in
        let exec := executed_points settings project reps in
        Some [{| series_name := "Financiero (bruto)"; points := fin; color := "warn" |};
              {| series_name := "Ejecutado"; points := exec; color := "ok" |}]
  end.

Section Charts.
Variable UTC : Z -> Z.

(** The date a planned point is plotted at: shifted by the suspensions
    when the setting asks for it. *)
Definition planned_point_date (settings : Settings) (project : Project)
    (p : PlannedPoint) : outcome :=
  if shiftPlannedBySuspensions settings
  then shiftDateBySuspensions UTC (date p) project
  else Returned (date p).

(** [curve.map(p => ...)]: the planned points over the contract value, in
    order; the first date shift that throws ends the call. *)
Fixpoint planned_series_points (settings : Settings) (project : Project) (cv : float)
    (curve : list PlannedPoint) : completion (list Point) :=
  match curve with
  | [] => Normal []
  | p :: rest =>
      match planned_point_date settings project p with
      | RangeError => Throws
      | Returned d =>
          match planned_series_points settings project cv rest with
          | Throws => Throws
          | Normal l =>
              Normal ({| pt_x := d; pt_y := (plannedCostAccum p / cv)%float |} :: l)
          end
      end
  end.

Definition buildPlannedVsExecutedSeries (settings : Settings) (project : Project)
    : completion (option (list Series)) :=
  let curve := sort by_point_date (curve project) in
  let reps := sort by_cutoff (reports project) in
  match curve, reps with
  | [], _ | _, [] => Normal None
  | _, _ =>
      let cv := contract_value_or0 settings project in
      if (cv <=? 0)%float then Normal None
      else
        match planned_series_points settings project cv curve with
        | Throws => Throws
        | Normal plannedPct =>
            let executedPct := executed_points settings project reps in
            Normal (Some [{| series_name := "Programado"; points := plannedPct;
                             color := "accent" |};
                          {| series_name := "Ejecutado"; points := executedPct;
                             color := "ok" |}])
        end
  end.
End Charts.

(** ** HTML escaping *)

(** [s.replaceAll(c, r)] for a one-character pattern. *)
Fixpoint replaceAll (c : ascii) (r : string) (s : string) : string :=
  match s with
  | EmptyString => EmptyString
  | String a t =>
      if Ascii.eqb a c then r +:+ replaceAll c r t else String a (replaceAll c r t)
  end.

(** The double quote character. *)
Definition double_quote : ascii := ascii_of_nat 34.

Definition escapeHtml (s : value) : string :=
  replaceAll double_quote "&quot;"
    (replaceAll ">" "&gt;"
       (replaceAll "<" "&lt;"
          (replaceAll "&" "&amp;" (ToString (nullish_or s (VStr "")))))).

(** ** Adding a revision *)

(** [addRevisionFlow], as a function of the project, of the name the
    dialog returns ([None] when it is cancelled), of the random part of the
    identifier and of the clock ([Date.now()]).  The revision is created
    without changes; its [effectiveDate], always [null], is not part of
    [Revision]. *)
Definition addRevisionFlow (random_hex : string) (now : Z) (name : option string)
    (p : Project) : Project :=
  match name with
  | None | Some EmptyString => p
  | Some name =>
      with_revisions p
        (revisions p ++
         [{| rev_id := "rev_" +:+ random_hex +:+ "_" +:+ Z_to_string now;
             rev_name := name; changes := []; rev_show := true |}])
  end.

(** ** Typing a quantity *)



(** ** Adding and deleting finance events *)






(** * Specification vocabulary and examples *)

(** ** Revision overlay *)

(** The overlay as the specification words it: every change that targets
    the item overwrites the fields it sets, revision after revision. *)
Definition overlay_change (codeN : string) (st : float * float) (c : Change)
    : float * float :=
  if String.eqb (itemCodeNorm c) codeN then
    (match qtyNew c with Some x => x | None => fst st end,
     match vuNew c with Some x => x | None => snd st end)
  else st.

Definition overlay_revision (codeN : string) (st : float * float) (rev : Revision)
    : float * float :=
  fold_left (overlay_change codeN) (changes rev) st.

Definition overlay_fold (codeN : string) (revs : list Revision) (base : float * float)
    : float * float :=
  fold_left (overlay_revision codeN) revs base.

Definition base_state (item : BudgetItem) : float * float :=
  (match qtyContract item with Some x => x | None => zero end,
   match vuContract item with Some x => x | None => zero end).

(** The invariant of the data model: a revision holds at most one change
    per normalized code. *)
Definition one_change_per_code (rev : Revision) : Prop :=
  NoDup (map itemCodeNorm (changes rev)).

(** Whether a revision sets the quantity of the item with this code. *)
Definition sets_qty (codeN : string) (rev : Revision) : option float :=
  match find_change codeN (changes rev) with
  | Some ch => qtyNew ch
  | None => None
  end.

(** The item and the two revisions of the specification's example: base
    quantity 10 and unit price 100; R1 sets the quantity to 12, R2 the
    unit price to 110. *)
Definition example_item : BudgetItem :=
  {| item_id := "itm_1"; code := "1.1.1"; codeNorm := "1.1.1"; desc := "Excavación";
     item_unit := "m3"; qtyContract := Some 10%float; vuContract := Some 100%float;
     vtContract := Some 1000%float; parentCodeNorm := "1.1"; type := ITEM |}.

Definition example_R1 : Revision :=
  {| rev_id := "rev_1"; rev_name := "MOD 1"; rev_show := true;
     changes := [{| itemCodeNorm := "1.1.1"; qtyNew := Some 12%float; vuNew := None |}] |}.

Definition example_R2 : Revision :=
  {| rev_id := "rev_2"; rev_name := "MOD 2"; rev_show := true;
     changes := [{| itemCodeNorm := "1.1.1"; qtyNew := None; vuNew := Some 110%float |}] |}.

(** A further revision that sets the quantity again, to 15. *)
Definition example_R3 : Revision :=
  {| rev_id := "rev_3"; rev_name := "MOD 3"; rev_show := true;
     changes := [{| itemCodeNorm := "1.1.1"; qtyNew := Some 15%float; vuNew := None |}] |}.

(** ** Contract value and percentages *)

(** The stored total of a row as [contractValue] reads it: the number in
    [vtContract] when it is finite, and 0 for a row that stores none. *)
Definition stored_total (it : BudgetItem) : float :=
  match vtContract it with
  | Some x => if JS.isFinite x then x else zero
  | None => zero
  end.

(** What a row adds to the contract value; [None] for the rows that take
    no part in the sum. *)
Definition contribution (project : Project) (it : BudgetItem) : option float :=
  match type it with
  | ITEM =>
      let eff := effectiveValue it (revisions project) in
      Some (qty eff * vu eff)%float
  | AIU | LUMP => Some (stored_total it)
  | SUBTOTAL | CAP | SUB | TEXT | TOTAL | OTHER => None
  end.

Definition float_sum (l : list float) : float :=
  fold_left (fun acc x => (acc + x)%float) l zero.

(** A row tagged TOTAL whose description contains "valor total" in any
    letter case and whose stored total is the finite number [x]. *)
Definition authoritative_total (it : BudgetItem) (x : float) : Prop :=
  type it = TOTAL /\
  JS.includes (JS.toLowerCase (desc it)) "valor total" = true /\
  vtContract it = Some x /\ JS.isFinite x = true.

(** The budgets of the specification's examples. *)
Definition example_aiu : BudgetItem :=
  {| item_id := "itm_2"; code := ""; codeNorm := ""; desc := "AIU"; item_unit := "";
     qtyContract := Some 0%float; vuContract := Some 0%float;
     vtContract := Some 50%float; parentCodeNorm := ""; type := AIU |}.


Definition example_total : BudgetItem :=
  {| item_id := "itm_4"; code := ""; codeNorm := ""; desc := "VALOR TOTAL"; item_unit := "";
     qtyContract := Some 0%float; vuContract := Some 0%float;
     vtContract := Some 1000000%float; parentCodeNorm := ""; type := TOTAL |}.

Definition example_project (its : list BudgetItem) : Project :=
  {| name := "Proyecto"; currency := "COP"; suspensions := []; items := its;
     revisions := []; reports := []; events := []; curve := [] |}.


(** The contract value is unset, zero or negative. *)
Definition contract_value_not_positive (settings : Settings) (project : Project) : Prop :=
  match value_of (contractValue project settings) with
  | None => True
  | Some x => (x <=? 0)%float = true
  end.

Definition example_report (cutoff : string) (q : float) : Report :=
  {| rep_id := "rep_" +:+ cutoff; cutoffDate := cutoff; label := cutoff;
     qtyAccumByItem := {[ "1.1.1" := q ]} |}.

(** ** Finance *)

(** The events [financeAccumUpTo] keeps for a cut-off. *)
Definition counted_events (project : Project) (cutoffDate : option string)
    : list FinanceEvent :=
  List.filter (fun e => JS.str_leb (event_date e) (cutoff_or_max cutoffDate))
    (events project).

Definition example_dateless : FinanceEvent :=
  {| ev_date := None; ev_type := ADVANCE; amount := VNum 500; note := "anticipo" |}.

Definition example_finance_project : Project :=
  {| name := "Proyecto"; currency := "COP"; suspensions := [];
     items := [example_item]; revisions := []; reports := [];
     events := [example_dateless]; curve := [] |}.

(** Two dated payments, of 100 on 2024-01-15 and of 200 on 2024-03-01,
    after the dateless advance of 500. *)
Definition example_january_payment : FinanceEvent :=
  {| ev_date := Some "2024-01-15"; ev_type := PAYMENT; amount := VNum 100; note := "acta 1" |}.

Definition example_march_payment : FinanceEvent :=
  {| ev_date := Some "2024-03-01"; ev_type := PAYMENT; amount := VNum 200; note := "acta 2" |}.

Definition example_dated_project : Project :=
  {| name := "Proyecto"; currency := "COP"; suspensions := [];
     items := [example_item]; revisions := []; reports := [];
     events := [example_dateless; example_january_payment; example_march_payment];
     curve := [] |}.

(** ** Executed values *)

Definition is_ITEM (it : BudgetItem) : bool := bool_decide (type it = ITEM).

(** The sum of [f] over the ITEM rows, in budget order. *)
Definition sum_over_items (f : BudgetItem -> float) (its : list BudgetItem) : float :=
  fold_left (fun acc it => (acc + f it)%float) (List.filter is_ITEM its) zero.

(** The reports and the item of the specification's example: report A with
    5 units, report B with 8, unit price 100. *)
Definition example_reports_project : Project :=
  {| name := "Proyecto"; currency := "COP"; suspensions := [];
     items := [example_item]; revisions := [];
     reports := [example_report "2024-01-31" 5; example_report "2024-02-29" 8];
     events := []; curve := [] |}.

(** The executed value as the specification words it: the plain sum. *)
Definition plain_accumulated_value (project : Project) (report : Report) : float :=
  sum_over_items
    (fun it => qty_of (qtyAccumByItem report) (codeNorm it)
               * vu (effectiveValue it (revisions project)))%float
    (items project).

Definition half_unit_project : Project :=
  {| name := "Proyecto"; currency := "COP"; suspensions := [];
     items := [{| item_id := "itm_1"; code := "1.1.1"; codeNorm := "1.1.1";
                  desc := "Concreto"; item_unit := "m3";
                  qtyContract := Some 10%float; vuContract := Some 1%float;
                  vtContract := Some 10%float; parentCodeNorm := "1.1";
                  type := ITEM |}];
     revisions := []; reports := [example_report "2024-01-31" 0.5];
     events := []; curve := [] |}.

(** ** Numeric parsing and the importers *)

(** A number when it is finite, nothing otherwise. *)
Definition finite_or_null (x : float) : option float :=
  if JS.isFinite x then Some x else None.

(** The text handed to [Number]: with both a comma and a dot, every dot (a
    thousands separator) is dropped and the comma becomes the decimal
    point; with a comma alone, the comma becomes the decimal point;
    otherwise the text as it is. *)
Definition decimal_text (s : string) : string :=
  if JS.includes s "," && JS.includes s "." then
    JS.replaceFirst "," "." (JS.removeAll "." s)
  else if JS.includes s "," then JS.replaceFirst "," "." s
  else s.

(** A sheet of blank cells and a left-out row. *)
Definition blank_sheet : list Row := [Some [VNull; VStr " "]; None].

(** ** Planned curve *)

(** The costs collected for a date, in sheet order. *)
Definition costs_on (d : string) (points : DateMap) : list float :=
  map snd (List.filter (fun p => String.eqb (fst p) d) points).

(** Their sum as the importer forms it: from 0, each cost added to the
    running total read back with [|| 0]. *)
Definition date_total (d : string) (points : DateMap) : float :=
  fold_left (fun acc c => (JS.or0 acc + c)%float) (costs_on d points) zero.

(** The running cumulative sums of a list of amounts. *)
Fixpoint running_sums (acc : float) (l : list float) : list float :=
  match l with
  | [] => []
  | x :: r => (acc + x)%float :: running_sums (acc + x)%float r
  end.

Definition str_lt (a b : string) : Prop := JS.str_ltb a b = true.

(** The running total of a date after one more cost. *)
Definition cost_step (acc : option float) (c : float) : option float :=
  Some ((match acc with Some x => JS.or0 x | None => zero end) + c)%float.

(** The running total of date [d] while the points are read. *)
Definition date_step (d : string) (acc : option float) (p : string * float)
    : option float :=
  if String.eqb (fst p) d then cost_step acc (snd p) else acc.

(** The sheets of the specification's example: two rows on 2024-01-05 with
    costs 100 and 50, and the same with a later date after them. *)
Definition planned_sheet_1 : list Row :=
  [Some [VStr "Fecha"; VStr "Costo"];
   Some [VStr "2024-01-05"; VNum 100];
   Some [VStr "2024-01-05"; VNum 50]].

Definition planned_sheet_2 : list Row :=
  planned_sheet_1 ++ [Some [VStr "2024-02-01"; VNum 30]].

(** No date serials in these sheets. *)
Definition no_serial_dates (x : float) : option (Z * Z * Z) := None.

(** ** Suspensions *)

(** Local time one hour ahead of UTC, and five hours behind. *)
Definition UTC_plus_1 (t : Z) : Z := (t - 3600000)%Z.
Definition UTC_minus_5 (t : Z) : Z := (t + 18000000)%Z.

Definition january_suspension : Suspension :=
  {| from := "2024-01-10"; to := "2024-01-19"; reason := "lluvias" |}.

Definition suspended_project (ss : list Suspension) : Project :=
  {| name := "Proyecto"; currency := "COP"; suspensions := ss; items := [];
     revisions := []; reports := []; events := []; curve := [] |}.

(** ** Sums of numbers *)

(** The spec-level floats of a sum that is being formed: neither NaN nor
    -0 ([sum_safe]), and finite ([sf_finite]); a non-zero result of the
    given sign ([signed_nonzero]). *)
Definition signed_nonzero (sx : bool) (x : spec_float) : Prop :=
  match x with
  | S754_finite s _ _ | S754_infinity s => s = sx
  | _ => False
  end.

Definition sum_safe (x : spec_float) : Prop :=
  x <> S754_nan /\ x <> S754_zero true.

Definition sf_finite (x : spec_float) : Prop :=
  match x with S754_zero _ | S754_finite _ _ _ => True | _ => False end.

(** A running total that [|| 0] leaves as it is. *)
Definition safe_total (x : float) : Prop := sum_safe (Prim2SF x).

(** Shape B: the numbers of one row under the columns of date [d], and of
    all rows below the header, row after row. *)
Definition row_costs (d : string) (dateCols : list (nat * string)) (row : list value)
    : list float :=
  omap (fun c => if String.eqb (snd c) d
                 then parseNumber (cell_at row (Z.of_nat (fst c))) else None)
    dateCols.

Fixpoint sheet_costs (d : string) (dateCols : list (nat * string)) (rows : list Row)
    : list float :=
  match rows with
  | [] => []
  | None :: rest => sheet_costs d dateCols rest
  | Some row :: rest => row_costs d dateCols row ++ sheet_costs d dateCols rest
  end.

(** Shape A: what a row of the sheet says.  A row that holds a number in
    the cost column and a date in the date column is dated and costed;
    any other row says nothing. *)
Definition long_row (parse_date_code : float -> option (Z * Z * Z))
    (iFecha iCosto : Z) (row : Row) : option (string * float) :=
  match row with
  | Some cells =>
      match toISODate parse_date_code (cell_at cells iFecha),
            parseNumber (cell_at cells iCosto) with
      | Some d, Some c => Some (d, c)
      | _, _ => None
      end
  | None => None
  end.

(** The dates of the rows of the sheet, and the costs of its rows dated
    [d], row after row. *)
Definition long_dates (parse_date_code : float -> option (Z * Z * Z))
    (iFecha iCosto : Z) (rows : list Row) : list string :=
  omap (fun row => fst <$> long_row parse_date_code iFecha iCosto row) rows.

Definition long_costs (parse_date_code : float -> option (Z * Z * Z))
    (iFecha iCosto : Z) (d : string) (rows : list Row) : list float :=
  omap (fun row =>
          match long_row parse_date_code iFecha iCosto row with
          | Some (d', c) => if String.eqb d' d then Some c else None
          | None => None
          end) rows.

(** The raw costs a sheet holds for date [d], in reading order: in shape A
    the costs of the rows dated [d], in shape B the numbers under the
    columns dated [d]. *)
Definition raw_costs (parse_date_code : float -> option (Z * Z * Z))
    (rows : list Row) (d : string) : list float :=
  let header := planned_header rows in
  let iFecha := fecha_index header in
  let iCosto := costo_index header in
  if (0 <=? iFecha)%Z && (0 <=? iCosto)%Z then
    long_costs parse_date_code iFecha iCosto d (planned_body rows)
  else
    sheet_costs d (date_columns parse_date_code header 0) (planned_body rows).

(** The dates a sheet holds: in shape A those of its dated and costed
    rows, in shape B those of its date columns. *)
Definition sheet_dates (parse_date_code : float -> option (Z * Z * Z))
    (rows : list Row) : list string :=
  let header := planned_header rows in
  let iFecha := fecha_index header in
  let iCosto := costo_index header in
  if (0 <=? iFecha)%Z && (0 <=? iCosto)%Z then
    long_dates parse_date_code iFecha iCosto (planned_body rows)
  else
    map snd (date_columns parse_date_code header 0).

(** A sheet of shape B: three date columns and two rows of costs, one cell
    empty and one written with a decimal comma. *)
Definition planned_sheet_wide : list Row :=
  [Some [VStr "Item"; VStr "2024-01-31"; VStr "29/02/2024"; VStr "2024-03-31"];
   Some [VStr "1.1.1"; VNum 100; VNum 200; VNull];
   Some [VStr "1.1.2"; VNum 50; VStr "25,5"; VNum 300]].

(** ** Rows, header and columns of a budget sheet *)

(** The test a header cell passes for one of the column roles. *)
Definition header_matches (preds : list string) (h : string) : bool :=
  JS.nonempty h && existsb (fun p => JS.includes h p) preds.

(** [idx] is the first position of [header] that passes, or -1 when no
    position does. *)
Definition first_match (preds : list string) (header : list string) (idx : Z) : Prop :=
  (idx = (-1)%Z /\ Forall (fun h => header_matches preds h = false) header) \/
  exists k h, idx = Z.of_nat k /\ header !! k = Some h /\
    header_matches preds h = true /\
    forall j h', j < k -> header !! j = Some h' -> header_matches preds h' = false.

(** What the budget importer guarantees of an item it stores. *)
Definition well_formed_item (it : BudgetItem) : Prop :=
  type it <> OTHER /\
  codeNorm it = normalizeCode (VStr (code it)) /\
  (exists q v t,
     qtyContract it = Some q /\ vuContract it = Some v /\ vtContract it = Some t /\
     JS.isFinite q = true /\ JS.isFinite v = true /\
     (JS.isFinite t = true \/ t = (q * v)%float)) /\
  (type it = SUBTOTAL -> desc it <> "") /\
  (type it = CAP -> codeLevel (codeNorm it) = 1) /\
  (type it = SUB -> codeLevel (codeNorm it) = 2).

(** A numeric code of two or more segments. *)
Definition has_parent (codeN : string) : bool :=
  (2 <=? codeLevel codeN) && is_numeric_code codeN.

(** The stored parent code is the code without its last segment. *)
Definition parent_linked (it : BudgetItem) : Prop :=
  if has_parent (codeNorm it) then
    parentCodeNorm it <> "" /\
    exists seg, codeNorm it = parentCodeNorm it +:+ "." +:+ seg /\
                JS.nonempty seg = true /\ JS.all_digits seg = true
  else parentCodeNorm it = "".

Definition budget_sheet_example : list Row :=
  [Some [VStr "Presupuesto de obra"];
   Some [VStr "Item"; VStr "Descripción"; VStr "Unidad"; VStr "Cantidad";
         VStr "Valor unitario"; VStr "Valor total"];
   Some [VStr "1"; VStr "Preliminares"; VNull; VNull; VNull; VNull];
   Some [VStr "1.1"; VStr "Movimiento de tierras"; VNull; VNull; VNull; VNull];
   Some [VStr "1.1.1"; VStr "Excavación"; VStr "m3"; VNum 10; VNum 100; VNum 1000];
   Some [VStr "Subtotal"; VNull; VNull; VNull; VNull; VNum 1000];
   Some [VNull; VStr "AIU"; VNull; VNull; VNull; VNum 50]].

(** ** Revisions and events that change nothing *)

(** Whether a revision changes the quantity or the unit price of the item
    with this code. *)
Definition changes_item (codeN : string) (rev : Revision) : bool :=
  match find_change codeN (changes rev) with
  | Some ch =>
      match qtyNew ch, vuNew ch with
      | None, None => false
      | _, _ => true
      end
  | None => false
  end.

(** An event whose amount reads as a number other than 0. *)
Definition has_amount (e : FinanceEvent) : bool := JS.truthy (ToNumber (amount e)).

Definition example_void_event : FinanceEvent :=
  {| ev_date := Some "2024-01-15"; ev_type := PAYMENT; amount := VStr "pendiente";
     note := "acta 1" |}.

(** A project with a dated advance of 500 and a payment whose amount was
    never filled in. *)
Definition example_void_project : Project :=
  {| name := "Proyecto"; currency := "COP"; suspensions := [];
     items := [example_item]; revisions := []; reports := [];
     events := [example_dateless; example_void_event]; curve := [] |}.

(** A number other than -0. *)
Definition not_neg_zero (x : float) : Prop := Prim2SF x <> S754_zero true.

(** ** Charts *)

(** The project of the executed-value example with a planned curve of two
    points: 400 by the end of January and 900 by the end of February. *)
Definition example_chart_project : Project :=
  {| name := "Proyecto"; currency := "COP"; suspensions := [];
     items := [example_item]; revisions := [];
     reports := [example_report "2024-02-29" 8; example_report "2024-01-31" 5];
     events := [example_dateless];
     curve := [{| date := "2024-02-29"; plannedCostAccum := 900 |};
               {| date := "2024-01-31"; plannedCostAccum := 400 |}] |}.

(** ** Escaped text *)

(** The text with every character replaced by [f] of it. *)
Fixpoint expand (f : ascii -> string) (s : string) : string :=
  match s with
  | EmptyString => EmptyString
  | String a t => f a +:+ expand f t
  end.

(** The entity of a character that has one; the character otherwise. *)
Definition escape_char (a : ascii) : string :=
  if Ascii.eqb a "&" then "&amp;"
  else if Ascii.eqb a "<" then "&lt;"
  else if Ascii.eqb a ">" then "&gt;"
  else if Ascii.eqb a double_quote then "&quot;"
  else String a "".

(** The characters that open or close markup or an attribute value. *)
Definition is_markup (a : ascii) : bool :=
  Ascii.eqb a "<" || Ascii.eqb a ">" || Ascii.eqb a double_quote.

(** ** Suspensions that count *)

(** A suspension with both dates given and read by the host that has ended
    by the time [d]. *)
Definition ended_by (date_of : string -> float) (d : float) (s : Suspension) : bool :=
  JS.nonempty (from s) && JS.nonempty (to s) &&
  negb (is_nan (date_of (from s))) &&
  negb (is_nan (date_of (to s))) &&
  (date_of (to s) <=? d)%float.

(** A suspension that has begun and not ended on 2024-01-15, and one
    without an end date. *)
Definition open_suspension : Suspension :=
  {| from := "2024-01-10"; to := "2024-01-20"; reason := "lluvias" |}.

Definition undated_suspension : Suspension :=
  {| from := "2024-01-02"; to := ""; reason := "orden de la interventoría" |}.

(** ** Dates read from text *)

Definition digit_chars : list ascii :=
  ["0"; "1"; "2"; "3"; "4"; "5"; "6"; "7"; "8"; "9"]%char.

(** A text of exactly two digits. *)
Definition two_digit_text (t : string) : bool :=
  match t with
  | String a (String b EmptyString) => JS.is_digit a && JS.is_digit b
  | _ => false
  end.

(** A sheet with the two headers of the long shape and no row that holds
    both a date and a cost. *)
Definition planned_sheet_without_data : list Row :=
  [Some [VStr "Fecha"; VStr "Costo"];
   Some [VStr "por definir"; VNum 100];
   Some [VStr "2024-01-05"; VStr "n/a"]].

(** ** Dates of finance events *)


(** ** Stored quantities *)


(** * Properties *)

(** Two results that evaluate to different numbers are different. *)
Ltac float_neq :=
  let H := fresh in
  intros H;
  apply (f_equal (fun o : option float =>
           match o with
           | Some x => Some (Prim2SF x)
           | None => None
           end)) in H;
  vm_compute in H; discriminate H.

(** ** Revision overlay (RevisionOverlay) *)

Lemma overlay_changes_no_match codeN chs st :
  (forall c, In c chs -> itemCodeNorm c <> codeN) ->
  fold_left (overlay_change codeN) chs st = st.
Proof.
  revert st. induction chs as [|c chs IH]; intros st Hno; simpl; [reflexivity|].
  unfold overlay_change at 2.
  destruct (String.eqb_spec (itemCodeNorm c) codeN) as [Heq|Hne].
  - exfalso. apply (Hno c); [left; reflexivity | exact Heq].
  - apply IH. intros c' Hc'. apply Hno. right. exact Hc'.
Qed.

Lemma overlay_revision_find codeN rev st :
  one_change_per_code rev ->
  overlay_revision codeN st rev =
    match find_change codeN (changes rev) with
    | Some ch =>
        (match qtyNew ch with Some x => x | None => fst st end,
         match vuNew ch with Some x => x | None => snd st end)
    | None => st
    end.
Proof.
  unfold one_change_per_code, overlay_revision, find_change.
  generalize (changes rev) as chs. intros chs. revert st.
  induction chs as [|c chs IH]; intros st Hnd; simpl; [reflexivity|].
  inversion Hnd as [|? ? Hnotin Hnd']; subst.
  unfold overlay_change at 2.
  destruct (String.eqb_spec (itemCodeNorm c) codeN) as [Heq|Hne].
  - apply overlay_changes_no_match.
    intros c' Hc' Heq'. apply Hnotin. rewrite Heq, <- Heq'.
    apply list_elem_of_In, in_map. exact Hc'.
  - apply IH. exact Hnd'.
Qed.

Lemma revisions_loop_fold codeN revs q v :
  Forall one_change_per_code revs ->
  revisions_loop codeN revs q v = overlay_fold codeN revs (q, v).
Proof.
  revert q v. induction revs as [|rev revs IH]; intros q v Hall; simpl; [reflexivity|].
  inversion Hall as [|? ? Hrev Hall']; subst.
  unfold overlay_fold. simpl. rewrite (overlay_revision_find codeN rev (q, v) Hrev).
  destruct (find_change codeN (changes rev)) as [ch|]; simpl; apply IH; exact Hall'.
Qed.

Lemma revisions_loop_app codeN pre post q v :
  revisions_loop codeN (pre ++ post) q v =
    let (q', v') := revisions_loop codeN pre q v in
    revisions_loop codeN post q' v'.
Proof.
  revert q v. induction pre as [|rev pre IH]; intros q v; simpl.
  - reflexivity.
  - destruct (find_change codeN (changes rev)); apply IH.
Qed.

Lemma revisions_loop_keeps_qty codeN revs q v :
  Forall (fun rev => sets_qty codeN rev = None) revs ->
  fst (revisions_loop codeN revs q v) = q.
Proof.
  revert q v. induction revs as [|rev revs IH]; intros q v Hall; simpl; [reflexivity|].
  inversion Hall as [|? ? Hrev Hall']; subst.
  unfold sets_qty in Hrev.
  destruct (find_change codeN (changes rev)) as [ch|].
  - rewrite Hrev. apply IH. exact Hall'.
  - apply IH. exact Hall'.
Qed.

(** C3: [effectiveValue] is the left-to-right fold over the revision list
    from the item's base quantity and unit price in which a change that
    targets the item's normalized code overwrites just the fields it sets,
    and the total is final quantity times final unit price; two revisions
    setting disjoint fields give the same result in both orders (12, 110
    and 1320 on a base of 10 and 100); and when several revisions set the
    quantity, the last of them in list order decides it. *)
Theorem effectiveValue_is_ordered_fold :
  forall (item : BudgetItem) (revs : list Revision),
    Forall one_change_per_code revs ->
    (let st := overlay_fold (codeNorm item) revs (base_state item) in
     effectiveValue item revs =
       {| qty := fst st; vu := snd st; vt := (fst st * snd st)%float |})
    /\ (forall r1 r2 q v,
          changes r1 = [{| itemCodeNorm := codeNorm item; qtyNew := Some q; vuNew := None |}] ->
          changes r2 = [{| itemCodeNorm := codeNorm item; qtyNew := None; vuNew := Some v |}] ->
          effectiveValue item [r1; r2] = {| qty := q; vu := v; vt := (q * v)%float |} /\
          effectiveValue item [r2; r1] = {| qty := q; vu := v; vt := (q * v)%float |})
    /\ (effectiveValue example_item [example_R1; example_R2] =
          {| qty := 12; vu := 110; vt := 1320 |} /\
        effectiveValue example_item [example_R2; example_R1] =
          {| qty := 12; vu := 110; vt := 1320 |})
    /\ (forall pre r post q,
          revs = pre ++ r :: post ->
          sets_qty (codeNorm item) r = Some q ->
          Forall (fun r' => sets_qty (codeNorm item) r' = None) post ->
          qty (effectiveValue item revs) = q).
Proof.
  intros item revs Hinv. split; [|split; [|split]].
  - unfold effectiveValue, base_state. cbv zeta.
    rewrite (revisions_loop_fold _ _ _ _ Hinv).
    destruct (overlay_fold _ _ _) as [q v]. reflexivity.
  - intros r1 r2 q v H1 H2.
    unfold effectiveValue. simpl. unfold find_change. rewrite H1, H2. simpl.
    rewrite String.eqb_refl. split; reflexivity.
  - split; vm_compute; reflexivity.
  - intros pre r post q Hsplit Hset Hpost. subst revs.
    unfold effectiveValue. rewrite revisions_loop_app.
    destruct (revisions_loop (codeNorm item) pre _ _) as [q1 v1].
    simpl. unfold sets_qty in Hset.
    destruct (find_change (codeNorm item) (changes r)) as [ch|]; [|discriminate].
    rewrite Hset.
    pose proof (revisions_loop_keeps_qty (codeNorm item) post q
                  (match vuNew ch with Some x => x | None => v1 end) Hpost) as Hk.
    destruct (revisions_loop (codeNorm item) post q _) as [q2 v2].
    simpl in Hk. simpl. exact Hk.
Qed.

Lemma effectiveValue_is_ordered_fold_witness :
  Forall one_change_per_code [example_R1; example_R3; example_R2] /\
  effectiveValue example_item [example_R1; example_R3; example_R2] =
    {| qty := 15; vu := 110; vt := 1650 |} /\
  qty (effectiveValue example_item [example_R1; example_R3; example_R2]) = 15%float.
Proof.
  assert (Hinv : Forall one_change_per_code [example_R1; example_R3; example_R2]).
  { repeat (constructor; [unfold one_change_per_code; simpl; apply NoDup_singleton|]).
    constructor. }
  split; [exact Hinv|].
  destruct (effectiveValue_is_ordered_fold example_item _ Hinv) as (Hfold & _ & _ & Hlast).
  split.
  - rewrite Hfold. vm_compute. reflexivity.
  - apply (Hlast [example_R1] example_R3 [example_R2]).
    + reflexivity.
    + vm_compute. reflexivity.
    + repeat constructor.
Defined.

(** ** Rounding *)

(** C4 (as the code has it): with the money precision at the sentinel -3,
    1,249,999 rounds to the nearest thousand, which is 1,250,000. *)
Theorem roundByDecimals_nearest_thousand :
  roundByDecimals (VNum 1249999) (-3) = Some 1250000%float.
Proof. vm_compute. reflexivity. Qed.

(** Against C4 as worded: the value given there for that rounding is not
    the one computed. *)
Lemma roundByDecimals_not_1249000 :
  roundByDecimals (VNum 1249999) (-3) <> Some 1249000%float.
Proof. float_neq. Qed.

(** ** Contract value (ValuationEngine) *)

Lemma is_total_row_true it :
  is_total_row it = true <-> exists x, authoritative_total it x.
Proof.
  unfold is_total_row, authoritative_total. split.
  - intros H. apply andb_true_iff in H as [H Hfin].
    apply andb_true_iff in H as [Hty Hinc].
    apply bool_decide_eq_true in Hty.
    destruct (vtContract it) as [x|]; [|discriminate].
    exists x. auto.
  - intros (x & Hty & Hinc & Hvt & Hfin).
    rewrite Hvt, Hfin, Hinc. rewrite bool_decide_eq_true_2 by exact Hty. reflexivity.
Qed.


Lemma omap_cons_case {A B} (f : A -> option B) (x : A) (l : list A) :
  omap f (x :: l) =
    match f x with Some y => y :: omap f l | None => omap f l end.
Proof. reflexivity. Qed.

Lemma contract_sum_loop_fold project its sum :
  contract_sum_loop project its sum =
    fold_left (fun acc x => (acc + x)%float) (omap (contribution project) its) sum.
Proof.
  revert sum. induction its as [|it its IH]; intros sum; [reflexivity|].
  rewrite omap_cons_case. cbn [contract_sum_loop].
  unfold contribution at 1, budgetEffectiveItem, stored_total.
  destruct (type it); cbn [fold_left]; apply IH.
Qed.



(** ** Percentages without a contract value *)

Lemma or0_not_positive x : (x <=? 0)%float = true -> (JS.or0 x <=? 0)%float = true.
Proof.
  intros H. unfold JS.or0. destruct (JS.truthy x); [exact H | reflexivity].
Qed.

Lemma contract_value_or0_not_positive settings project :
  contract_value_not_positive settings project ->
  (contract_value_or0 settings project <=? 0)%float = true.
Proof.
  unfold contract_value_not_positive, contract_value_or0.
  destruct (value_of (contractValue project settings)) as [x|].
  - apply or0_not_positive.
  - reflexivity.
Qed.

(** C5: when the contract value is unset, zero or negative,
    [computeExecutedPct] and [computeFinancePct] return [null] and divide
    nothing; both are total functions, so no fault is raised either. *)
Theorem percentages_undefined_without_contract_value :
  forall (settings : Settings) (project : Project) (report : Report)
         (cutoffDate : option string),
    contract_value_not_positive settings project ->
    computeExecutedPct settings project report = None /\
    computeFinancePct settings project cutoffDate = None.
Proof.
  intros settings project report cutoffDate H.
  apply contract_value_or0_not_positive in H.
  unfold computeExecutedPct, computeFinancePct. cbv zeta. rewrite H. auto.
Qed.

Lemma percentages_undefined_without_contract_value_witness :
  contract_value_not_positive defaultSettings (example_project []) /\
  computeExecutedPct defaultSettings (example_project [])
    (example_report "2024-01-31" 5) = None /\
  computeFinancePct defaultSettings (example_project []) (Some "2024-01-31") = None.
Proof.
  assert (H : contract_value_not_positive defaultSettings (example_project [])).
  { vm_compute. reflexivity. }
  split; [exact H|].
  exact (percentages_undefined_without_contract_value defaultSettings
           (example_project []) (example_report "2024-01-31" 5)
           (Some "2024-01-31") H).
Defined.

(** ** Finance accumulation (FinanceTracker) *)

Lemma empty_string_least (s : string) : JS.str_leb "" s = true.
Proof. destruct s; reflexivity. Qed.

(** C10: [financeAccumUpTo] adds up exactly the events whose date string
    is not greater than the cut-off string: for an event dated [d] and a
    cut-off [c] given, exactly when [d <= c] as strings, and with the
    cut-off omitted or empty, when [d <= "9999-12-31"].  A missing or
    empty date is read as the empty string, which is not greater than any
    cut-off, so a dateless event is counted for every cut-off, and with it
    in [computeFinancePct].  With an advance of 500 without date and
    payments of 100 on 2024-01-15 and 200 on 2024-03-01 the accumulated
    amount is 500 on 2024-01-14, 600 on 2024-02-01 and 800 on
    2024-03-01. *)
Theorem financeAccumUpTo_counts_dateless_events :
  forall (settings : Settings) (project : Project) (cutoffDate : option string),
    financeAccumUpTo settings project cutoffDate =
      roundByDecimals
        (VNum (fold_left (fun acc e => (acc + JS.or0 (ToNumber (amount e)))%float)
                 (counted_events project cutoffDate) zero))
        (moneyDecimals settings)
    /\ (forall e, In e (counted_events project cutoffDate) <->
                  In e (events project) /\
                  JS.str_leb (event_date e) (cutoff_or_max cutoffDate) = true)
    /\ (forall e d c, ev_date e = Some d -> cutoffDate = Some c -> c <> "" ->
          (In e (counted_events project cutoffDate) <->
           In e (events project) /\ JS.str_leb d c = true))
    /\ (forall e d, ev_date e = Some d -> cutoffDate = None \/ cutoffDate = Some "" ->
          (In e (counted_events project cutoffDate) <->
           In e (events project) /\ JS.str_leb d "9999-12-31" = true))
    /\ (forall e, In e (events project) ->
                  ev_date e = None \/ ev_date e = Some "" ->
                  event_date e = "" /\ In e (counted_events project cutoffDate))
    /\ ((contract_value_or0 settings project <=? 0)%float = false ->
        computeFinancePct settings project cutoffDate =
          Some (operand (financeAccumUpTo settings project cutoffDate)
                / contract_value_or0 settings project)%float)
    /\ financeAccumUpTo defaultSettings example_finance_project (Some "1999-01-01")
         = Some 500%float
    /\ computeFinancePct defaultSettings example_finance_project (Some "1999-01-01")
         = Some 0.5%float
    /\ financeAccumUpTo defaultSettings example_dated_project (Some "2024-01-14")
         = Some 500%float
    /\ financeAccumUpTo defaultSettings example_dated_project (Some "2024-02-01")
         = Some 600%float
    /\ financeAccumUpTo defaultSettings example_dated_project (Some "2024-03-01")
         = Some 800%float
    /\ financeAccumUpTo defaultSettings example_dated_project None = Some 800%float.
Proof.
  intros settings project cutoffDate.
  assert (Hcounted : forall e, In e (counted_events project cutoffDate) <->
            In e (events project) /\
            JS.str_leb (event_date e) (cutoff_or_max cutoffDate) = true).
  { intros e. unfold counted_events. apply filter_In. }
  split; [reflexivity|]. split; [exact Hcounted|]. split; [|split; [|split; [|split]]].
  - intros e d c Hd Hc Hne. rewrite Hcounted. unfold event_date. rewrite Hd, Hc.
    destruct c as [|a c]; [congruence|]. reflexivity.
  - intros e d Hd Hc. rewrite Hcounted. unfold event_date. rewrite Hd.
    destruct Hc as [-> | ->]; reflexivity.
  - intros e Hin Hdate.
    assert (Hempty : event_date e = "").
    { unfold event_date. destruct Hdate as [-> | ->]; reflexivity. }
    split; [exact Hempty|].
    apply Hcounted. split; [exact Hin|].
    rewrite Hempty. apply empty_string_least.
  - intros Hpos. unfold computeFinancePct. cbv zeta. rewrite Hpos. reflexivity.
  - repeat split; vm_compute; reflexivity.
Qed.

Lemma financeAccumUpTo_counts_dateless_events_witness :
  In example_dateless (counted_events example_dated_project (Some "2024-02-01"))
  /\ In example_january_payment (counted_events example_dated_project (Some "2024-02-01"))
  /\ ~ In example_march_payment (counted_events example_dated_project (Some "2024-02-01"))
  /\ computeFinancePct defaultSettings example_dated_project (Some "2024-02-01") =
       Some (operand (financeAccumUpTo defaultSettings example_dated_project
                        (Some "2024-02-01"))
             / contract_value_or0 defaultSettings example_dated_project)%float.
Proof.
  destruct (financeAccumUpTo_counts_dateless_events defaultSettings
              example_dated_project (Some "2024-02-01"))
    as (_ & _ & Hdated & _ & Hdateless & Hpct & _).
  split; [|split; [|split]].
  - apply (Hdateless example_dateless).
    + left. reflexivity.
    + left. reflexivity.
  - apply (Hdated example_january_payment "2024-01-15" "2024-02-01");
      [reflexivity | reflexivity | discriminate |].
    split; [right; left; reflexivity | reflexivity].
  - intros Hin.
    apply (Hdated example_march_payment "2024-03-01" "2024-02-01") in Hin;
      [|reflexivity | reflexivity | discriminate].
    destruct Hin as [_ Hle]. discriminate Hle.
  - apply Hpct. vm_compute. reflexivity.
Defined.

(** ** Sorting with a comparator *)

Section SortFacts.
Context {A : Type} (cmp : A -> A -> comparison).

Hypothesis cmp_trans : forall a b c, (cmp_le cmp) a b -> (cmp_le cmp) b c -> (cmp_le cmp) a c.
Hypothesis cmp_total : forall a b, cmp a b = Gt -> (cmp_le cmp) b a.

Lemma insert_sorted_perm x l : insert_sorted cmp x l ≡ₚ x :: l.
Proof.
  induction l as [|y l IH]; simpl; [reflexivity|].
  destruct (cmp x y); try reflexivity.
  rewrite IH. apply Permutation_swap.
Qed.

Lemma sort_perm l : sort cmp l ≡ₚ l.
Proof.
  induction l as [|x l IH]; simpl; [reflexivity|].
  rewrite insert_sorted_perm, IH. reflexivity.
Qed.

Lemma sort_In x l : In x (sort cmp l) <-> In x l.
Proof.
  rewrite <- !list_elem_of_In. split; intros H.
  - rewrite <- (sort_perm l). exact H.
  - rewrite (sort_perm l). exact H.
Qed.

Lemma insert_sorted_sorted x l :
  StronglySorted (cmp_le cmp) l -> StronglySorted (cmp_le cmp) (insert_sorted cmp x l).
Proof.
  induction l as [|y l IH]; intros Hs; simpl.
  - constructor; constructor.
  - inversion Hs as [|? ? Hl Hy]; subst.
    destruct (cmp x y) eqn:Hxy.
    + constructor; [exact Hs|]. constructor.
      * unfold cmp_le. rewrite Hxy. discriminate.
      * eapply Forall_impl; [exact Hy|]. intros z Hz. simpl in Hz.
        apply (cmp_trans x y z); [|exact Hz]. unfold cmp_le. rewrite Hxy. discriminate.
    + constructor; [exact Hs|]. constructor.
      * unfold cmp_le. rewrite Hxy. discriminate.
      * eapply Forall_impl; [exact Hy|]. intros z Hz. simpl in Hz.
        apply (cmp_trans x y z); [|exact Hz]. unfold cmp_le. rewrite Hxy. discriminate.
    + constructor; [apply IH; exact Hl|].
      apply Forall_forall. intros z Hz.
      rewrite insert_sorted_perm in Hz.
      apply list_elem_of_In in Hz. destruct Hz as [<-|Hz].
      * apply cmp_total. exact Hxy.
      * rewrite Forall_forall in Hy. apply Hy. apply list_elem_of_In. exact Hz.
Qed.

Lemma sort_sorted l : StronglySorted (cmp_le cmp) (sort cmp l).
Proof.
  induction l as [|x l IH]; simpl; [constructor|].
  apply insert_sorted_sorted. exact IH.
Qed.

Lemma cmp_le_refl a : (cmp_le cmp) a a.
Proof.
  destruct (cmp a a) eqn:H; unfold cmp_le; try (rewrite H; discriminate).
  apply cmp_total. exact H.
Qed.

Lemma sorted_last_max l m :
  StronglySorted (cmp_le cmp) l -> last l = Some m ->
  forall x, In x l -> (cmp_le cmp) x m.
Proof.
  induction l as [|y l IH]; intros Hs Hlast x Hin; [destruct Hin|].
  inversion Hs as [|? ? Hl Hy]; subst.
  destruct l as [|z l'].
  - simpl in Hlast. injection Hlast as <-. destruct Hin as [<-|[]]. apply cmp_le_refl.
  - change (last (y :: z :: l')) with (last (z :: l')) in Hlast.
    destruct Hin as [<-|Hin].
    + rewrite Forall_forall in Hy. apply Hy.
      apply last_Some_elem_of in Hlast. exact Hlast.
    + apply IH; assumption.
Qed.

Lemma sort_last_max l m :
  last (sort cmp l) = Some m ->
  In m l /\ forall x, In x l -> (cmp_le cmp) x m.
Proof.
  intros Hlast. split.
  - apply sort_In. apply list_elem_of_In. eapply last_Some_elem_of. exact Hlast.
  - intros x Hx. apply (sorted_last_max (sort cmp l)).
    + apply sort_sorted.
    + exact Hlast.
    + apply sort_In. exact Hx.
Qed.

Lemma sort_last_None l : last (sort cmp l) = None -> l = [].
Proof.
  intros H. apply last_None in H.
  apply Permutation_nil_r. rewrite <- H. symmetry. apply sort_perm.
Qed.
End SortFacts.

Lemma string_compare_trans a b c :
  String.compare a b <> Gt -> String.compare b c <> Gt -> String.compare a c <> Gt.
Proof.
  intros Hab Hbc.
  assert (String.le a b) as H1.
  { unfold String.le, String.leb. destruct (String.compare a b); simpl; auto. }
  assert (String.le b c) as H2.
  { unfold String.le, String.leb. destruct (String.compare b c); simpl; auto. }
  assert (String.le a c) as H3 by (etrans; eassumption).
  unfold String.le, String.leb in H3. destruct (String.compare a c); simpl in H3; auto; discriminate.
Qed.

Lemma string_compare_total a b :
  String.compare a b = Gt -> String.compare b a <> Gt.
Proof.
  intros H. rewrite String.compare_antisym, H. discriminate.
Qed.

Lemma string_le_leb a b : String.compare a b <> Gt <-> JS.str_leb a b = true.
Proof.
  unfold JS.str_leb, String.leb. destruct (String.compare a b); split; congruence.
Qed.

(** ** Executed values (ValuationEngine) *)

Lemma executed_loop_sums project map prevMap its a p :
  executed_loop project map prevMap its a p =
    (fold_left (fun acc it =>
        (acc + qty_of map (codeNorm it) * vu (effectiveValue it (revisions project)))%float)
       (List.filter is_ITEM its) a,
     fold_left (fun acc it =>
        (acc + (qty_of map (codeNorm it) - qty_of prevMap (codeNorm it))
               * vu (effectiveValue it (revisions project)))%float)
       (List.filter is_ITEM its) p).
Proof.
  revert a p. induction its as [|it its IH]; intros a p; [reflexivity|].
  cbn [executed_loop List.filter]. unfold budgetEffectiveItem.
  change (bool_decide (type it = ITEM)) with (is_ITEM it).
  destruct (is_ITEM it); cbn [fold_left]; apply IH.
Qed.

Lemma previousReport_none project report :
  previousReport project report = None ->
  forall r, In r (reports project) ->
    JS.str_ltb (cutoffDate r) (cutoffDate report) = false.
Proof.
  unfold previousReport. intros H r Hin.
  apply sort_last_None in H.
  destruct (JS.str_ltb (cutoffDate r) (cutoffDate report)) eqn:Hlt; [|reflexivity].
  assert (In r (List.filter (fun r => JS.str_ltb (cutoffDate r) (cutoffDate report))
                  (reports project))) as Hf by (apply filter_In; auto).
  rewrite H in Hf. destruct Hf.
Qed.

Lemma previousReport_some project report prev :
  previousReport project report = Some prev ->
  In prev (reports project) /\
  JS.str_ltb (cutoffDate prev) (cutoffDate report) = true /\
  forall r, In r (reports project) ->
    JS.str_ltb (cutoffDate r) (cutoffDate report) = true ->
    JS.str_leb (cutoffDate r) (cutoffDate prev) = true.
Proof.
  unfold previousReport. intros H.
  apply sort_last_max in H.
  - destruct H as [Hin Hmax]. apply filter_In in Hin as [Hin Hlt].
    repeat split; [exact Hin | exact Hlt |].
    intros r Hr Hrlt. apply string_le_leb.
    apply (Hmax r). apply filter_In. auto.
  - intros a b c. apply string_compare_trans.
  - intros a b. apply string_compare_total.
Qed.

(** C2 (as the code has it), for a project whose reports carry cut-off
    dates of the form [YYYY-MM-DD], on which the collation the code sorts
    with is the order of the strings: [prev] is a report of the project
    with the latest cut-off strictly before this report's, or none when
    there is no earlier report; with [accumQty] the report's stored
    quantity of an
    item's normalized code and [prevQty] that of [prev] (0 when absent),
    [accumVal] is the sum over the ITEM rows of [accumQty] times effective
    unit price and [periodVal] the sum of [(accumQty - prevQty)] times
    effective unit price, each rounded to the money precision; at price
    100 with 5 units before and 8 now they are 800 and 300. *)
Theorem computeExecutedValues_rounded_sums :
  forall (settings : Settings) (project : Project) (report : Report),
    Forall (fun r => is_iso_date (cutoffDate r) = true) (reports project) ->
    let prev := previousReport project report in
    let accumQty it := qty_of (qtyAccumByItem report) (codeNorm it) in
    let prevQty it :=
      match prev with
      | Some r => qty_of (qtyAccumByItem r) (codeNorm it)
      | None => zero
      end in
    let price it := vu (effectiveValue it (revisions project)) in
    let v := computeExecutedValues settings project report in
    match prev with
    | Some r =>
        In r (reports project) /\
        JS.str_ltb (cutoffDate r) (cutoffDate report) = true /\
        (forall r', In r' (reports project) ->
           JS.str_ltb (cutoffDate r') (cutoffDate report) = true ->
           JS.str_leb (cutoffDate r') (cutoffDate r) = true)
    | None =>
        forall r', In r' (reports project) ->
          JS.str_ltb (cutoffDate r') (cutoffDate report) = false
    end
    /\ accumVal v =
         roundByDecimals
           (VNum (sum_over_items (fun it => accumQty it * price it)%float (items project)))
           (moneyDecimals settings)
    /\ periodVal v =
         roundByDecimals
           (VNum (sum_over_items (fun it => (accumQty it - prevQty it) * price it)%float
                    (items project)))
           (moneyDecimals settings)
    /\ (let vB := computeExecutedValues defaultSettings example_reports_project
                    (example_report "2024-02-29" 8) in
        accumVal vB = Some 800%float /\ periodVal vB = Some 300%float).
Proof.
  intros settings project report Hdates prev accumQty prevQty price v.
  split; [|split; [|split]].
  - subst prev. destruct (previousReport project report) as [r|] eqn:Hprev.
    + apply previousReport_some. exact Hprev.
    + apply previousReport_none. exact Hprev.
  - subst v. unfold computeExecutedValues. cbv zeta.
    rewrite executed_loop_sums. reflexivity.
  - subst v. unfold computeExecutedValues. cbv zeta.
    rewrite executed_loop_sums. cbn [periodVal].
    unfold sum_over_items, prevQty, prev.
    destruct (previousReport project report) as [r|]; reflexivity.
  - split; vm_compute; reflexivity.
Qed.

Lemma computeExecutedValues_rounded_sums_witness :
  Forall (fun r => is_iso_date (cutoffDate r) = true) (reports example_reports_project) /\
  previousReport example_reports_project (example_report "2024-02-29" 8) =
    Some (example_report "2024-01-31" 5) /\
  periodVal (computeExecutedValues defaultSettings example_reports_project
               (example_report "2024-02-29" 8)) =
    roundByDecimals
      (VNum (sum_over_items
               (fun it =>
                  (qty_of (qtyAccumByItem (example_report "2024-02-29" 8)) (codeNorm it)
                   - match previousReport example_reports_project
                             (example_report "2024-02-29" 8) with
                     | Some r => qty_of (qtyAccumByItem r) (codeNorm it)
                     | None => zero
                     end)
                  * vu (effectiveValue it (revisions example_reports_project)))%float
               (items example_reports_project)))
      (moneyDecimals defaultSettings).
Proof.
  assert (H : Forall (fun r => is_iso_date (cutoffDate r) = true)
                (reports example_reports_project)).
  { constructor; [reflexivity|]. constructor; [reflexivity|]. constructor. }
  split; [exact H|]. split; [reflexivity|].
  exact (proj1 (proj2 (proj2
           (computeExecutedValues_rounded_sums defaultSettings example_reports_project
              (example_report "2024-02-29" 8) H)))).
Defined.

(** Against C2 as worded: half a unit at unit price 1 with the default
    precision of 0 decimals; the sum is 0.5, the value returned is 1. *)
Lemma computeExecutedValues_not_plain_sum :
  plain_accumulated_value half_unit_project (example_report "2024-01-31" 0.5)
    = 0.5%float /\
  accumVal (computeExecutedValues defaultSettings half_unit_project
              (example_report "2024-01-31" 0.5)) = Some 1%float /\
  accumVal (computeExecutedValues defaultSettings half_unit_project
              (example_report "2024-01-31" 0.5)) <>
    Some (plain_accumulated_value half_unit_project (example_report "2024-01-31" 0.5)).
Proof.
  split; [vm_compute; reflexivity|]. split; [vm_compute; reflexivity|].
  float_neq.
Qed.

(** ** Numeric parsing *)

Lemma parseNumber_text (v : value) :
  match v with
  | VBool _ | VStr _ =>
      parseNumber v =
        if JS.nonempty (JS.trim (ToString v))
        then finite_or_null (JS.StringToNumber (decimal_text (JS.trim (ToString v))))
        else None
  | _ => True
  end.
Proof.
  destruct v as [| |b|x|s]; try exact I;
    unfold parseNumber, decimal_text, finite_or_null; cbv zeta;
    destruct (JS.nonempty (JS.trim _)); try reflexivity;
    destruct (JS.includes (JS.trim _) ",");
    destruct (JS.includes (JS.trim _) "."); reflexivity.
Qed.

Lemma finite_or_null_cases (x : float) :
  finite_or_null x = None \/
  exists y, finite_or_null x = Some y /\ JS.isFinite y = true.
Proof. unfold finite_or_null. destruct (JS.isFinite x) eqn:Hx; eauto. Qed.

(** C8: [parseNumber] returns a finite number or [null] for every value
    (it is a total function: nothing is thrown); a number is returned as
    it is when finite and gives [null] otherwise; a text with both "." and
    "," is read with the dots as thousands separators and the comma as the
    decimal separator, a text with "," alone with the comma as the decimal
    separator, any other text as it stands; empty and unreadable texts
    give [null]. *)
Theorem parseNumber_finite_or_null :
  (forall v : value,
     parseNumber v = None \/
     exists x, parseNumber v = Some x /\ JS.isFinite x = true)
  /\ (forall x : float, parseNumber (VNum x) = finite_or_null x)
  /\ parseNumber VNull = None /\ parseNumber VUndefined = None
  /\ (forall s : string,
        parseNumber (VStr s) =
          if JS.nonempty (JS.trim s)
          then finite_or_null (JS.StringToNumber (decimal_text (JS.trim s)))
          else None)
  /\ parseNumber (VStr "1.234,56") = Some (123456 / 100)%float
  /\ parseNumber (VStr "1.234.567,5") = Some 1234567.5%float
  /\ parseNumber (VStr "1234,56") = Some (123456 / 100)%float
  /\ parseNumber (VStr " 1234.56 ") = Some (123456 / 100)%float
  /\ parseNumber (VStr "") = None
  /\ parseNumber (VStr "   ") = None
  /\ parseNumber (VStr "doce") = None
  /\ parseNumber (VStr "1,2,3") = None
  /\ parseNumber (VStr "Infinity") = None
  /\ parseNumber (VNum infinity) = None
  /\ parseNumber (VNum nan) = None.
Proof.
  split; [|split; [|split; [|split; [|split]]]].
  - intros v. destruct v as [| |b|x|s]; try (left; reflexivity).
    + rewrite (parseNumber_text (VBool b)).
      destruct (JS.nonempty _); [apply finite_or_null_cases | left; reflexivity].
    + apply (finite_or_null_cases x).
    + rewrite (parseNumber_text (VStr s)).
      destruct (JS.nonempty _); [apply finite_or_null_cases | left; reflexivity].
  - reflexivity.
  - reflexivity.
  - reflexivity.
  - intros s. apply (parseNumber_text (VStr s)).
  - repeat split; vm_compute; reflexivity.
Qed.

(** ** Hard failures of the two importers *)

Lemma header_loop_no_better rows i best_idx best_score :
  (forall r, In r rows -> row_score r <= best_score) ->
  header_loop rows i best_idx best_score = best_idx.
Proof.
  revert i. induction rows as [|r rows IH]; intros i Hall; simpl; [reflexivity|].
  assert (row_score r <= best_score) as Hr by (apply Hall; left; reflexivity).
  destruct (Nat.ltb_spec best_score (row_score r)) as [Hlt|_]; [lia|].
  apply IH. intros r' Hr'. apply Hall. right. exact Hr'.
Qed.

Lemma header_loop_keeps_found rows i best_idx best_score :
  (0 <= best_idx)%Z -> (0 <= header_loop rows i best_idx best_score)%Z.
Proof.
  revert i best_idx best_score.
  induction rows as [|r rows IH]; intros i best_idx best_score Hpos; simpl; [exact Hpos|].
  destruct (best_score <? row_score r); apply IH; lia.
Qed.

Lemma header_loop_better rows i best_idx best_score :
  (exists r, In r rows /\ best_score < row_score r) ->
  (0 <= header_loop rows i best_idx best_score)%Z.
Proof.
  revert i best_idx best_score.
  induction rows as [|r rows IH]; intros i best_idx best_score (r' & Hin & Hlt).
  - destruct Hin.
  - simpl. destruct (Nat.ltb_spec best_score (row_score r)) as [Hr|Hr].
    + apply header_loop_keeps_found. lia.
    + apply IH. destruct Hin as [<-|Hin]; [lia|]. exists r'. auto.
Qed.

Lemma scanned_rows (rows : list Row) :
  firstn (Nat.min (length rows) 80) rows = firstn 80 rows.
Proof.
  destruct (Nat.le_ge_cases (length rows) 80) as [H|H].
  - rewrite Nat.min_l by exact H.
    rewrite firstn_all. symmetry. apply firstn_all2. exact H.
  - rewrite Nat.min_r by exact H. reflexivity.
Qed.

Lemma findHeaderRow_none rows :
  (forall r, In r (firstn 80 rows) -> row_score r = 0) <-> findHeaderRow rows = (-1)%Z.
Proof.
  unfold findHeaderRow. rewrite scanned_rows. split.
  - intros Hall. apply header_loop_no_better.
    intros r Hr. rewrite (Hall r Hr). lia.
  - intros Hnone r Hr.
    destruct (row_score r) as [|n] eqn:Hscore; [reflexivity|].
    assert (0 <= header_loop (firstn 80 rows) 0 (-1) 0)%Z as Hpos.
    { apply header_loop_better. exists r. split; [exact Hr | lia]. }
    lia.
Qed.

(** C6: a sheet none of whose first 80 rows scores above zero has no
    header row, and the budget parser answers with no items and the
    warning that no header row was found; a sheet in which the planned-curve
    parser finds neither a date column together with a cost column nor
    three date headers gives an empty curve and one explanatory warning.
    Both parsers are total functions: nothing is thrown on these paths. *)
Theorem importers_fail_with_warning :
  forall (settings : Settings) (random_hex : nat -> string)
         (parse_date_code : float -> option (Z * Z * Z)) (rows : list Row),
    ((forall r, In r (firstn 80 rows) -> row_score r = 0) ->
     findHeaderRow rows = (-1)%Z /\
     parseBudgetFromSheet settings random_hex rows =
       {| parsed_items := [];
          budget_warnings := ["No se encontró fila de encabezados."] |})
    /\ (let header := planned_header rows in
        ~ ((0 <= fecha_index header)%Z /\ (0 <= costo_index header)%Z) ->
        length (date_columns parse_date_code header 0) < 3 ->
        parsed_curve (parsePlanned parse_date_code rows) = [] /\
        planned_warnings (parsePlanned parse_date_code rows) =
          [match rows with
           | [] => "Hoja vacía."
           | _ => no_date_columns_warning
           end]).
Proof.
  intros settings random_hex parse_date_code rows. split.
  - intros Hall. apply findHeaderRow_none in Hall. split; [exact Hall|].
    unfold parseBudgetFromSheet. rewrite Hall. reflexivity.
  - intros header Hshape Hcols. subst header.
    destruct rows as [|r rows]; [split; reflexivity|].
    unfold parsePlanned, planned_points.
    set (hd := planned_header (r :: rows)) in *.
    destruct ((0 <=? fecha_index hd)%Z && (0 <=? costo_index hd)%Z) eqn:Hab.
    + exfalso. apply Hshape. apply andb_true_iff in Hab as [Ha Hb].
      split; apply Z.leb_le; assumption.
    + apply Nat.ltb_lt in Hcols. rewrite Hcols. split; reflexivity.
Qed.

Lemma importers_fail_with_warning_witness :
  (forall r, In r (firstn 80 blank_sheet) -> row_score r = 0) /\
  parseBudgetFromSheet defaultSettings (fun _ => "0") blank_sheet =
    {| parsed_items := [];
       budget_warnings := ["No se encontró fila de encabezados."] |} /\
  parsePlanned (fun _ => None) blank_sheet =
    {| parsed_curve := []; planned_warnings := [no_date_columns_warning] |}.
Proof.
  assert (Hscores : forall r, In r (firstn 80 blank_sheet) -> row_score r = 0).
  { intros r Hr. simpl in Hr. destruct Hr as [<-|[<-|[]]]; vm_compute; reflexivity. }
  destruct (importers_fail_with_warning defaultSettings (fun _ => "0")
              (fun _ => None) blank_sheet) as [Hbudget Hplanned].
  split; [exact Hscores|]. split.
  - apply Hbudget. exact Hscores.
  - destruct Hplanned as [Hcurve Hwarn].
    + vm_compute. intros [H _]. apply H. reflexivity.
    + vm_compute. lia.
    + destruct (parsePlanned (fun _ => None) blank_sheet) as [c w].
      simpl in Hcurve, Hwarn. rewrite Hcurve, Hwarn. reflexivity.
Defined.

(** ** Sums of finite numbers *)

Section FloatFacts.
Local Open Scope Z_scope.


Lemma digits2_size p : digits2_pos p = Pos.size p.
Proof. induction p; simpl; congruence. Qed.

Lemma Zdigits2_lower (p : positive) : 2 ^ (Zpos (digits2_pos p) - 1) <= Zpos p.
Proof.
  rewrite digits2_size.
  pose proof (Pos.size_le p) as H.
  assert (Zpos (2 ^ Pos.size p) <= Zpos (p~0)) as H' by exact H.
  rewrite Pos2Z.inj_pow in H'.
  replace (Zpos (Pos.size p)) with (Zpos (Pos.size p) - 1 + 1) in H' by lia.
  rewrite Z.pow_add_r in H' by lia.
  change (Zpos p~0) with (2 * Zpos p) in H'. lia.
Qed.

Lemma shr_1_m mrs : 0 <= shr_m mrs -> shr_m (shr_1 mrs) = shr_m mrs / 2.
Proof.
  destruct mrs as [m r s]. simpl. intros Hm.
  destruct m as [|[p|p|]|p]; simpl; try lia; try reflexivity.
  - rewrite Pos2Z.pos_xI. apply Z.div_unique with (r := 1); lia.
  - rewrite Pos2Z.pos_xO. apply Z.div_unique with (r := 0); lia.
Qed.

Lemma pow2_double (k : Z) : 0 <= k -> 2 ^ k * 2 ^ k = 2 ^ (2 * k).
Proof. intros Hk. rewrite <- Z.pow_add_r by lia. f_equal. lia. Qed.

Lemma iter_shr_m p : forall mrs, 0 <= shr_m mrs ->
  shr_m (SpecFloat.iter_pos shr_1 p mrs) = shr_m mrs / 2 ^ Zpos p.
Proof.
  induction p as [p IH|p IH|]; intros mrs Hm; simpl SpecFloat.iter_pos.
  - assert (0 <= shr_m (shr_1 mrs)) as H1.
    { rewrite shr_1_m by exact Hm. apply Z.div_pos; lia. }
    assert (0 <= shr_m (SpecFloat.iter_pos shr_1 p (shr_1 mrs))) as H2.
    { rewrite IH by exact H1. apply Z.div_pos; [exact H1 | apply Z.pow_pos_nonneg; lia]. }
    rewrite IH by exact H2. rewrite IH by exact H1. rewrite shr_1_m by exact Hm.
    rewrite !Z.div_div by (try apply Z.pow_pos_nonneg; lia).
    f_equal. rewrite pow2_double by lia. rewrite Pos2Z.pos_xI.
    rewrite (Z.pow_add_r 2 (2 * Zpos p) 1) by lia. change (2 ^ 1) with 2. ring.
  - assert (0 <= shr_m (SpecFloat.iter_pos shr_1 p mrs)) as H2.
    { rewrite IH by exact Hm. apply Z.div_pos; [exact Hm | apply Z.pow_pos_nonneg; lia]. }
    rewrite IH by exact H2. rewrite IH by exact Hm.
    rewrite !Z.div_div by (try apply Z.pow_pos_nonneg; lia).
    f_equal. rewrite pow2_double by lia. rewrite Pos2Z.pos_xO. reflexivity.
  - rewrite shr_1_m by exact Hm. reflexivity.
Qed.

Lemma shr_record_m m l : shr_m (shr_record_of_loc m l) = m.
Proof. destruct l as [|[]]; reflexivity. Qed.

Lemma shr_fexp_pos (p : positive) e l :
  SpecFloat.emin prec emax <= e ->
  0 < shr_m (fst (shr_fexp prec emax (Zpos p) e l)) /\
  SpecFloat.emin prec emax <= snd (shr_fexp prec emax (Zpos p) e l).
Proof.
  intros He. unfold shr_fexp, shr.
  set (n := fexp prec emax (Zdigits2 (Zpos p) + e) - e).
  assert (n < Zpos (digits2_pos p)) as Hn.
  { unfold n, fexp. simpl Zdigits2. unfold prec at 1. lia. }
  destruct n as [|q|q] eqn:Hq; simpl fst; simpl snd.
  - rewrite shr_record_m. lia.
  - rewrite iter_shr_m by (rewrite shr_record_m; lia).
    rewrite shr_record_m. split; [|lia].
    apply Z.div_str_pos. split; [apply Z.pow_pos_nonneg; lia|].
    eapply Z.le_trans; [|apply Zdigits2_lower].
    apply Z.pow_le_mono_r; lia.
  - rewrite shr_record_m. lia.
Qed.

Lemma round_nearest_even_ge m l : m <= round_nearest_even m l.
Proof. destruct l as [|[]]; simpl; try lia. destruct (Z.even m); lia. Qed.

Lemma binary_round_aux_pos sx (p : positive) e l :
  SpecFloat.emin prec emax <= e -> signed_nonzero sx (binary_round_aux prec emax sx (Zpos p) e l).
Proof.
  intros He. unfold binary_round_aux.
  pose proof (shr_fexp_pos p e l He) as [Hm He'].
  destruct (shr_fexp prec emax (Zpos p) e l) as [mrs' e'] eqn:H1. simpl in Hm, He'.
  pose proof (round_nearest_even_ge (shr_m mrs') (loc_of_shr_record mrs')) as Hr.
  destruct (round_nearest_even (shr_m mrs') (loc_of_shr_record mrs')) as [|q|q] eqn:Hq; try lia.
  pose proof (shr_fexp_pos q e' loc_Exact He') as [Hm2 _].
  destruct (shr_fexp prec emax (Zpos q) e' loc_Exact) as [mrs'' e''] eqn:H2. simpl in Hm2.
  destruct (shr_m mrs'') as [|r|r]; try lia.
  destruct (e'' <=? emax - prec); reflexivity.
Qed.

Lemma binary_round_pos sx (p : positive) e :
  SpecFloat.emin prec emax <= e -> signed_nonzero sx (binary_round prec emax sx p e).
Proof.
  intros He. unfold binary_round.
  destruct (shl_align p e (fexp prec emax (Zpos (digits2_pos p) + e))) as [mz ez] eqn:Hal.
  apply binary_round_aux_pos.
  unfold shl_align in Hal.
  destruct (fexp prec emax (Zpos (digits2_pos p) + e) - e) eqn:Hd; inversion Hal; subst; try lia.
  unfold fexp. lia.
Qed.

Lemma valid_emin s m e : valid_binary (S754_finite s m e) = true -> SpecFloat.emin prec emax <= e.
Proof.
  simpl. unfold bounded, canonical_mantissa. intros H.
  apply andb_true_iff in H as [H _]. apply Z.eqb_eq in H.
  unfold fexp in H. lia.
Qed.

Lemma SFadd_safe x y :
  valid_binary x = true -> valid_binary y = true ->
  sum_safe x -> sf_finite y -> sum_safe (SF64add x y).
Proof.
  intros Hvx Hvy [Hnan Hnz] Hy. unfold SF64add, SFadd.
  destruct x as [sx|sx| |sx mx ex], y as [sy|sy| |sy my ey]; try contradiction;
    try (split; discriminate).
  - destruct sx; [congruence|]. destruct sy; split; discriminate.
  - apply valid_emin in Hvx. apply valid_emin in Hvy.
    cbv zeta.
    destruct (cond_Zopp sx (Zpos (fst (shl_align mx ex (Z.min ex ey)))) +
              cond_Zopp sy (Zpos (fst (shl_align my ey (Z.min ex ey))))) as [|p|p];
      unfold binary_normalize.
    + split; discriminate.
    + pose proof (binary_round_pos false p (Z.min ex ey) ltac:(lia)) as H.
      destruct (binary_round prec emax false p (Z.min ex ey)); try contradiction;
        split; discriminate.
    + pose proof (binary_round_pos true p (Z.min ex ey) ltac:(lia)) as H.
      destruct (binary_round prec emax true p (Z.min ex ey)); try contradiction;
        split; discriminate.
Qed.

End FloatFacts.

Lemma is_nan_Prim2SF x : is_nan x = true -> Prim2SF x = S754_nan.
Proof. intros H. unfold Prim2SF. rewrite H. reflexivity. Qed.

Lemma isFinite_sf y : JS.isFinite y = true -> sf_finite (Prim2SF y).
Proof.
  unfold JS.isFinite, is_finite. intros H.
  apply negb_true_iff, orb_false_iff in H as [Hn Hi].
  unfold Prim2SF. rewrite Hn, Hi.
  destruct (is_zero y); [exact I|].
  destruct (Z.frexp y) as [r e].
  destruct (shr_fexp prec emax _ _ _) as [shr e'].
  destruct (shr_m shr); exact I.
Qed.

Lemma safe_zero : safe_total zero.
Proof. split; vm_compute; discriminate. Qed.

Lemma add_safe x y :
  safe_total x -> JS.isFinite y = true -> safe_total (x + y)%float.
Proof.
  unfold safe_total. intros Hx Hy. rewrite FloatAxioms.add_spec.
  apply SFadd_safe; [apply Prim2SF_valid | apply Prim2SF_valid | exact Hx |].
  apply isFinite_sf. exact Hy.
Qed.

Lemma or0_safe x : safe_total x -> JS.or0 x = x.
Proof.
  intros [Hnan Hnz]. unfold JS.or0, JS.truthy.
  destruct (is_nan x) eqn:Hn.
  - exfalso. apply Hnan. apply is_nan_Prim2SF. exact Hn.
  - destruct (is_zero x) eqn:Hz; [|reflexivity]. simpl.
    symmetry. apply Prim2SF_inj.
    unfold is_zero in Hz. rewrite FloatAxioms.eqb_spec in Hz.
    assert (Prim2SF 0%float = S754_zero false) as Hzero by reflexivity.
    rewrite Hzero. change (Prim2SF zero) with (S754_zero false) in Hz.
    destruct (Prim2SF x) as [[|]|[|]| |[|] ? ?]; simpl in Hz; try discriminate Hz; congruence.
Qed.

Lemma zero_add_safe x : safe_total x -> (zero + x)%float = x.
Proof.
  intros [Hnan Hnz]. apply Prim2SF_inj. rewrite FloatAxioms.add_spec.
  assert (Prim2SF zero = S754_zero false) as -> by reflexivity.
  destruct (Prim2SF x) as [[|]| | |]; try reflexivity; congruence.
Qed.

Lemma plain_sum cs : forall acc,
  safe_total acc -> Forall (fun c => JS.isFinite c = true) cs ->
  fold_left (fun a c => (JS.or0 a + c)%float) cs acc =
    fold_left (fun a c => (a + c)%float) cs acc /\
  safe_total (fold_left (fun a c => (a + c)%float) cs acc).
Proof.
  induction cs as [|c cs IH]; intros acc Hacc Hfin; simpl; [auto|].
  inversion Hfin as [|? ? Hc Hcs]; subst.
  rewrite (or0_safe acc Hacc). apply IH; [|exact Hcs].
  apply add_safe; assumption.
Qed.

Lemma parseNumber_Some_finite v x : parseNumber v = Some x -> JS.isFinite x = true.
Proof.
  assert (Hf : forall y, finite_or_null y = Some x -> JS.isFinite x = true).
  { intros y. unfold finite_or_null. destruct (JS.isFinite y) eqn:Hy; [|discriminate].
    intros [= <-]. exact Hy. }
  destruct v as [| |b|y|s]; try discriminate.
  - rewrite (parseNumber_text (VBool b)). destruct (JS.nonempty _); [apply Hf | discriminate].
  - apply (Hf y).
  - rewrite (parseNumber_text (VStr s)). destruct (JS.nonempty _); [apply Hf | discriminate].
Qed.

(** ** Aggregation of the planned curve *)

Lemma map_get_set k v m k' :
  map_get k' (map_set k v m) = if String.eqb k k' then Some v else map_get k' m.
Proof.
  induction m as [|[k0 v0] m IH]; simpl.
  - reflexivity.
  - destruct (String.eqb_spec k0 k) as [->|Hne]; simpl.
    + destruct (String.eqb_spec k k'); reflexivity.
    + rewrite IH. destruct (String.eqb_spec k0 k') as [->|Hne'].
      * destruct (String.eqb_spec k k'); [congruence | reflexivity].
      * reflexivity.
Qed.

Lemma map_set_keys k v m k' :
  In k' (map fst (map_set k v m)) <-> k' = k \/ In k' (map fst m).
Proof.
  induction m as [|[k0 v0] m IH]; simpl.
  - intuition.
  - destruct (String.eqb_spec k0 k) as [->|Hne]; simpl.
    + intuition.
    + rewrite IH. intuition.
Qed.

Lemma map_set_NoDup k v m : NoDup (map fst m) -> NoDup (map fst (map_set k v m)).
Proof.
  induction m as [|[k0 v0] m IH]; simpl; intros Hnd.
  - apply NoDup_singleton.
  - inversion Hnd as [|? ? Hnotin Hnd']; subst.
    destruct (String.eqb_spec k0 k) as [->|Hne]; simpl.
    + constructor; assumption.
    + constructor; [|apply IH; exact Hnd'].
      intros Hin. apply list_elem_of_In, map_set_keys in Hin.
      destruct Hin as [->|Hin]; [congruence|].
      apply Hnotin, list_elem_of_In. exact Hin.
Qed.

Lemma map_get_In d v m :
  NoDup (map fst m) -> In (d, v) m -> map_get d m = Some v.
Proof.
  induction m as [|[k0 v0] m IH]; simpl; intros Hnd Hin; [destruct Hin|].
  inversion Hnd as [|? ? Hnotin Hnd']; subst.
  destruct Hin as [[= -> ->]|Hin].
  - rewrite String.eqb_refl. reflexivity.
  - destruct (String.eqb_spec k0 d) as [->|Hne].
    + exfalso. apply Hnotin, list_elem_of_In.
      change d with (fst (d, v)). apply in_map. exact Hin.
    + apply IH; assumption.
Qed.

Lemma byDate_get d points m :
  map_get d (fold_left (fun m p => map_add m (fst p) (snd p)) points m) =
    fold_left (date_step d) points (map_get d m).
Proof.
  revert m. induction points as [|[k c] points IH]; intros m; simpl; [reflexivity|].
  rewrite IH. f_equal. unfold map_add, date_step. simpl.
  rewrite map_get_set. destruct (String.eqb_spec k d) as [->|Hne]; reflexivity.
Qed.

Lemma byDate_keys d points m :
  In d (map fst (fold_left (fun m p => map_add m (fst p) (snd p)) points m)) <->
  In d (map fst m) \/ In d (map fst points).
Proof.
  revert m. induction points as [|[k c] points IH]; intros m; simpl.
  - intuition.
  - rewrite IH. unfold map_add. simpl. rewrite map_set_keys. intuition.
Qed.

Lemma byDate_NoDup points m :
  NoDup (map fst m) ->
  NoDup (map fst (fold_left (fun m p => map_add m (fst p) (snd p)) points m)).
Proof.
  revert m. induction points as [|[k c] points IH]; intros m Hnd; simpl; [exact Hnd|].
  apply IH. unfold map_add. apply map_set_NoDup. exact Hnd.
Qed.

Lemma date_step_some d points a :
  fold_left (date_step d) points (Some a) =
    Some (fold_left (fun acc c => (JS.or0 acc + c)%float) (costs_on d points) a).
Proof.
  revert a. induction points as [|[k c] points IH]; intros a; [reflexivity|].
  unfold costs_on. cbn [fold_left List.filter fst]. unfold date_step at 2. cbn [fst snd].
  destruct (String.eqb k d); [cbn [map fold_left snd]|]; apply IH.
Qed.

Lemma date_step_none d points :
  In d (map fst points) ->
  fold_left (date_step d) points None = Some (date_total d points).
Proof.
  unfold date_total.
  induction points as [|[k c] points IH]; intros Hin; [destruct Hin|].
  unfold costs_on. cbn [fold_left List.filter fst]. unfold date_step at 2. cbn [fst snd].
  destruct (String.eqb_spec k d) as [->|Hne].
  - cbn [map fold_left snd]. apply date_step_some.
  - apply IH. destruct Hin as [Hk|Hin]; [simpl in Hk; congruence | exact Hin].
Qed.

Lemma accumulate_dates a l : map date (accumulate a l) = map fst l.
Proof.
  revert a. induction l as [|[d c] l IH]; intros a; simpl; [reflexivity|].
  rewrite IH. reflexivity.
Qed.

Lemma accumulate_sums a l :
  map plannedCostAccum (accumulate a l) = running_sums a (map snd l).
Proof.
  revert a. induction l as [|[d c] l IH]; intros a; simpl; [reflexivity|].
  rewrite IH. reflexivity.
Qed.

Lemma by_date_trans (a b c : string * float) :
  cmp_le by_date a b -> cmp_le by_date b c -> cmp_le by_date a c.
Proof. unfold cmp_le, by_date, JS.localeCompare. apply string_compare_trans. Qed.

Lemma by_date_total (a b : string * float) :
  by_date a b = Gt -> cmp_le by_date b a.
Proof. unfold cmp_le, by_date, JS.localeCompare. apply string_compare_total. Qed.

Lemma sorted_keys_ascending (l : DateMap) :
  StronglySorted (cmp_le by_date) l -> NoDup (map fst l) ->
  StronglySorted str_lt (map fst l).
Proof.
  induction l as [|[d c] l IH]; simpl; intros Hs Hnd; [constructor|].
  inversion Hs as [|? ? Hl Hall]; subst.
  inversion Hnd as [|? ? Hnotin Hnd']; subst.
  constructor; [apply IH; assumption|].
  apply Forall_forall. intros d' Hd'.
  apply list_elem_of_In, in_map_iff in Hd' as ([d0 c0] & Heq & Hin). simpl in Heq. subst d0.
  rewrite Forall_forall in Hall.
  pose proof (Hall (d', c0) (proj2 (list_elem_of_In _ _) Hin)) as Hle.
  unfold cmp_le, by_date, JS.localeCompare in Hle. simpl in Hle.
  unfold str_lt, JS.str_ltb, String.ltb.
  destruct (String.compare d d') eqn:Hcmp; [|reflexivity|congruence].
  exfalso. apply String.compare_eq_iff in Hcmp. subst d'.
  apply Hnotin, list_elem_of_In.
  change d with (fst (d, c0)). apply in_map. exact Hin.
Qed.

(** The curve of any list of points: its dates are the distinct dates of
    the points in ascending order and its values the running sums of the
    per-date totals. *)
Lemma curve_of_points_spec (points : DateMap) :
  let curve := curve_of_points points in
  StronglySorted str_lt (map date curve) /\
  (forall d, In d (map date curve) <-> In d (map fst points)) /\
  map plannedCostAccum curve =
    running_sums zero (map (fun d => date_total d points) (map date curve)).
Proof.
  unfold curve_of_points. cbv zeta.
  set (byDate := fold_left (fun m p => map_add m (fst p) (snd p)) points []).
  assert (Hnd : NoDup (map fst byDate)) by (apply byDate_NoDup; constructor).
  assert (Hperm : sort by_date byDate ≡ₚ byDate) by apply sort_perm.
  assert (Hnds : NoDup (map fst (sort by_date byDate))).
  { rewrite Hperm. exact Hnd. }
  rewrite accumulate_dates, accumulate_sums. split; [|split].
  - apply sorted_keys_ascending; [|exact Hnds].
    apply sort_sorted; [apply by_date_trans | apply by_date_total].
  - intros d. rewrite <- !list_elem_of_In. rewrite Hperm. rewrite !list_elem_of_In.
    unfold byDate. rewrite byDate_keys. simpl. intuition.
  - f_equal. rewrite map_map. apply map_ext_in. intros [d v] Hin. simpl.
    assert (In (d, v) byDate) as Hin'.
    { apply list_elem_of_In. rewrite <- Hperm. apply list_elem_of_In. exact Hin. }
    pose proof (map_get_In d v byDate Hnd Hin') as Hget.
    unfold byDate in Hget. rewrite byDate_get in Hget. simpl in Hget.
    rewrite date_step_none in Hget; [congruence|].
    assert (In d (map fst byDate)) as Hk.
    { change d with (fst (d, v)). apply in_map. exact Hin'. }
    unfold byDate in Hk. apply byDate_keys in Hk. simpl in Hk. intuition.
Qed.

Lemma costs_on_finite d points :
  Forall (fun p => JS.isFinite (snd p) = true) points ->
  Forall (fun c => JS.isFinite c = true) (costs_on d points).
Proof.
  unfold costs_on. induction points as [|[k c] points IH]; intros Hfin; simpl.
  - constructor.
  - inversion Hfin as [|? ? Hc Hrest]; subst.
    destruct (String.eqb k d); simpl; [constructor; [exact Hc|]|]; apply IH; exact Hrest.
Qed.

(** With finite costs, the total of a date is their plain sum. *)
Lemma date_total_plain d points :
  Forall (fun p => JS.isFinite (snd p) = true) points ->
  date_total d points = float_sum (costs_on d points).
Proof.
  intros Hfin. unfold date_total, float_sum.
  apply plain_sum; [apply safe_zero | apply costs_on_finite; exact Hfin].
Qed.

Lemma long_points_finite parse_date_code iFecha iCosto rows :
  Forall (fun p => JS.isFinite (snd p) = true)
    (long_points parse_date_code iFecha iCosto rows).
Proof.
  induction rows as [|[row|] rows IH]; simpl; [constructor | | exact IH].
  destruct (parseNumber (cell_at row iCosto)) as [cost|] eqn:Hcost; [|exact IH].
  destruct (toISODate parse_date_code (cell_at row iFecha)); [|exact IH].
  constructor; [|exact IH]. simpl. eapply parseNumber_Some_finite. exact Hcost.
Qed.

Lemma cost_step_fold cs a :
  fold_left cost_step cs (Some a) =
    Some (fold_left (fun acc c => (JS.or0 acc + c)%float) cs a).
Proof. revert a. induction cs as [|c cs IH]; intros a; simpl; [reflexivity | apply IH]. Qed.

Lemma map_add_get d m k v :
  map_get d (map_add m k v) =
    if String.eqb k d then cost_step (map_get k m) v else map_get d m.
Proof. unfold map_add. rewrite map_get_set. reflexivity. Qed.

Lemma initial_sums_get dateCols d : forall m,
  map_get d (fold_left (fun m (c : nat * string) => map_set (snd c) zero m) dateCols m) =
    if existsb (fun c : nat * string => String.eqb (snd c) d) dateCols
    then Some zero else map_get d m.
Proof.
  induction dateCols as [|c dateCols IH]; intros m; simpl; [reflexivity|].
  rewrite IH, map_get_set.
  destruct (existsb _ dateCols); [rewrite orb_true_r; reflexivity|].
  rewrite orb_false_r. reflexivity.
Qed.

Lemma initial_sums_NoDup (dateCols : list (nat * string)) : forall m,
  NoDup (map fst m) ->
  NoDup (map fst (fold_left (fun m (c : nat * string) => map_set (snd c) zero m) dateCols m)).
Proof.
  induction dateCols as [|c dateCols IH]; intros m Hnd; simpl; [exact Hnd|].
  apply IH, map_set_NoDup. exact Hnd.
Qed.

Lemma row_costs_cons d (c : nat * string) dateCols row :
  row_costs d (c :: dateCols) row =
    match (if String.eqb (snd c) d
           then parseNumber (cell_at row (Z.of_nat (fst c))) else None) with
    | Some v => v :: row_costs d dateCols row
    | None => row_costs d dateCols row
    end.
Proof. reflexivity. Qed.

Lemma wide_row_get d dateCols row : forall m,
  map_get d (wide_row dateCols row m) =
    fold_left cost_step (row_costs d dateCols row) (map_get d m).
Proof.
  unfold wide_row.
  induction dateCols as [|c dateCols IH]; intros m; [reflexivity|].
  cbn [fold_left]. rewrite IH, row_costs_cons.
  destruct (parseNumber (cell_at row (Z.of_nat (fst c)))) as [v|].
  - rewrite map_add_get. destruct (String.eqb_spec (snd c) d) as [->|Hne]; reflexivity.
  - destruct (String.eqb (snd c) d); reflexivity.
Qed.

Lemma wide_row_NoDup dateCols row : forall m,
  NoDup (map fst m) -> NoDup (map fst (wide_row dateCols row m)).
Proof.
  unfold wide_row.
  induction dateCols as [|c dateCols IH]; intros m Hnd; [exact Hnd|].
  cbn [fold_left]. apply IH.
  destruct (parseNumber _); [apply map_set_NoDup|]; exact Hnd.
Qed.

Lemma wide_rows_get d dateCols rows : forall m,
  map_get d (wide_rows dateCols rows m) =
    fold_left cost_step (sheet_costs d dateCols rows) (map_get d m).
Proof.
  induction rows as [|[row|] rows IH]; intros m; simpl; [reflexivity| |apply IH].
  rewrite IH, wide_row_get, fold_left_app. reflexivity.
Qed.

Lemma wide_rows_NoDup dateCols rows : forall m,
  NoDup (map fst m) -> NoDup (map fst (wide_rows dateCols rows m)).
Proof.
  induction rows as [|[row|] rows IH]; intros m Hnd; simpl; [exact Hnd| |apply IH; exact Hnd].
  apply IH, wide_row_NoDup. exact Hnd.
Qed.

Lemma row_costs_finite d dateCols row :
  Forall (fun c => JS.isFinite c = true) (row_costs d dateCols row).
Proof.
  induction dateCols as [|c dateCols IH]; [constructor|].
  rewrite row_costs_cons. destruct (String.eqb (snd c) d); [|exact IH].
  destruct (parseNumber _) as [v|] eqn:Hv; [|exact IH].
  constructor; [|exact IH]. eapply parseNumber_Some_finite. exact Hv.
Qed.

Lemma sheet_costs_finite d dateCols rows :
  Forall (fun c => JS.isFinite c = true) (sheet_costs d dateCols rows).
Proof.
  induction rows as [|[row|] rows IH]; simpl; [constructor| |exact IH].
  apply Forall_app. split; [apply row_costs_finite | exact IH].
Qed.

Lemma row_costs_no_column d dateCols row :
  existsb (fun c : nat * string => String.eqb (snd c) d) dateCols = false ->
  row_costs d dateCols row = [].
Proof.
  induction dateCols as [|c dateCols IH]; [reflexivity|].
  cbn [existsb]. intros H. apply orb_false_iff in H as [Hc Hrest].
  rewrite row_costs_cons, Hc. apply IH. exact Hrest.
Qed.

Lemma sheet_costs_no_column d dateCols rows :
  existsb (fun c : nat * string => String.eqb (snd c) d) dateCols = false ->
  sheet_costs d dateCols rows = [].
Proof.
  intros H. induction rows as [|[row|] rows IH]; simpl; [reflexivity| |exact IH].
  rewrite (row_costs_no_column d dateCols row H), IH. reflexivity.
Qed.

(** Shape B: every entry of the per-column sums is the plain sum of the
    numbers under the columns of its date, and no running total was
    changed by [|| 0]. *)
Lemma wide_points_entry dateCols rows d v :
  In (d, v) (wide_points dateCols rows) ->
  v = float_sum (sheet_costs d dateCols rows) /\ safe_total v.
Proof.
  intros Hin. unfold wide_points in Hin.
  assert (Hnd : NoDup (map fst
            (wide_rows dateCols rows
               (fold_left (fun m (c : nat * string) => map_set (snd c) zero m) dateCols [])))).
  { apply wide_rows_NoDup, initial_sums_NoDup. constructor. }
  pose proof (map_get_In d v _ Hnd Hin) as Hget.
  rewrite wide_rows_get, initial_sums_get in Hget.
  destruct (existsb _ dateCols) eqn:Hcol.
  - rewrite cost_step_fold in Hget. injection Hget as <-.
    destruct (plain_sum (sheet_costs d dateCols rows) zero safe_zero
                (sheet_costs_finite d dateCols rows)) as [Heq Hsafe].
    unfold float_sum. rewrite Heq. auto.
  - rewrite (sheet_costs_no_column d dateCols rows Hcol) in Hget. discriminate Hget.
Qed.

Lemma costs_on_absent d (m : DateMap) : ~ In d (map fst m) -> costs_on d m = [].
Proof.
  unfold costs_on. induction m as [|[k c] m IH]; intros Hnotin; [reflexivity|].
  simpl. destruct (String.eqb_spec k d) as [->|Hne].
  - exfalso. apply Hnotin. left. reflexivity.
  - apply IH. intros H. apply Hnotin. right. exact H.
Qed.

Lemma costs_on_unique d v (m : DateMap) :
  NoDup (map fst m) -> In (d, v) m -> costs_on d m = [v].
Proof.
  induction m as [|[k c] m IH]; intros Hnd Hin; [destruct Hin|].
  inversion Hnd as [|? ? Hnotin Hnd']; subst.
  rewrite list_elem_of_In in Hnotin.
  destruct Hin as [[= -> ->]|Hin].
  - unfold costs_on. simpl. rewrite String.eqb_refl. simpl. f_equal.
    apply (costs_on_absent d m Hnotin).
  - unfold costs_on. simpl. destruct (String.eqb_spec k d) as [->|Hne].
    + exfalso. apply Hnotin.
      change d with (fst (d, v)). apply in_map. exact Hin.
    + apply IH; assumption.
Qed.

(** Shape A: the points collected are what the rows say, row after row. *)
Lemma long_points_rows parse_date_code iFecha iCosto rows :
  long_points parse_date_code iFecha iCosto rows =
    omap (long_row parse_date_code iFecha iCosto) rows.
Proof.
  induction rows as [|[cells|] rows IH]; [reflexivity| |exact IH].
  rewrite omap_cons_case. cbn [long_points long_row].
  destruct (parseNumber (cell_at cells iCosto)) as [c|];
    destruct (toISODate parse_date_code (cell_at cells iFecha)) as [d|];
    rewrite IH; reflexivity.
Qed.

Lemma long_points_dates parse_date_code iFecha iCosto rows :
  map fst (long_points parse_date_code iFecha iCosto rows) =
    long_dates parse_date_code iFecha iCosto rows.
Proof.
  rewrite long_points_rows. unfold long_dates.
  induction rows as [|row rows IH]; [reflexivity|].
  rewrite !omap_cons_case.
  destruct (long_row parse_date_code iFecha iCosto row) as [[d c]|]; [|exact IH].
  cbn. f_equal. exact IH.
Qed.

Lemma long_points_costs parse_date_code iFecha iCosto d rows :
  costs_on d (long_points parse_date_code iFecha iCosto rows) =
    long_costs parse_date_code iFecha iCosto d rows.
Proof.
  rewrite long_points_rows. unfold long_costs, costs_on.
  induction rows as [|row rows IH]; [reflexivity|].
  rewrite !omap_cons_case.
  destruct (long_row parse_date_code iFecha iCosto row) as [[d' c]|]; [|exact IH].
  cbn [List.filter fst]. destruct (String.eqb d' d); [|exact IH].
  cbn [map snd]. f_equal. exact IH.
Qed.

(** Shape B: the dates collected are those of the date columns. *)
Lemma map_add_keys (m : DateMap) k v k' :
  In k' (map fst (map_add m k v)) <-> k' = k \/ In k' (map fst m).
Proof. unfold map_add. apply map_set_keys. Qed.

Lemma initial_sums_keys (dateCols : list (nat * string)) d : forall m,
  In d (map fst (fold_left (fun m (c : nat * string) => map_set (snd c) zero m) dateCols m))
  <-> In d (map fst m) \/ In d (map snd dateCols).
Proof.
  induction dateCols as [|c dateCols IH]; intros m; cbn [fold_left map In]; [tauto|].
  rewrite IH, map_set_keys. intuition congruence.
Qed.

Lemma wide_row_keys (dateCols : list (nat * string)) row d : forall m,
  In d (map fst (wide_row dateCols row m)) ->
  In d (map fst m) \/ In d (map snd dateCols).
Proof.
  unfold wide_row.
  induction dateCols as [|c dateCols IH]; intros m; cbn [fold_left map In]; [tauto|].
  intros H. apply IH in H. destruct H as [H | H]; [|tauto].
  destruct (parseNumber _); [|tauto].
  apply map_add_keys in H. intuition congruence.
Qed.

Lemma wide_row_keeps (dateCols : list (nat * string)) row d : forall m,
  In d (map fst m) -> In d (map fst (wide_row dateCols row m)).
Proof.
  unfold wide_row.
  induction dateCols as [|c dateCols IH]; intros m H; cbn [fold_left]; [exact H|].
  apply IH. destruct (parseNumber _); [|exact H].
  apply map_add_keys. right. exact H.
Qed.

Lemma wide_rows_keys (dateCols : list (nat * string)) rows d : forall m,
  (forall d', In d' (map snd dateCols) -> In d' (map fst m)) ->
  In d (map fst (wide_rows dateCols rows m)) <-> In d (map fst m).
Proof.
  induction rows as [|[row|] rows IH]; intros m Hm; cbn [wide_rows];
    [tauto| |apply IH; exact Hm].
  rewrite IH.
  - split; [|apply wide_row_keeps].
    intros H. apply wide_row_keys in H. destruct H as [H | H]; auto.
  - intros d' H. apply wide_row_keeps. auto.
Qed.

Lemma wide_points_dates (dateCols : list (nat * string)) rows d :
  In d (map fst (wide_points dateCols rows)) <-> In d (map snd dateCols).
Proof.
  unfold wide_points. rewrite wide_rows_keys.
  - rewrite initial_sums_keys. cbn [map In]. tauto.
  - intros d' H. apply initial_sums_keys. right. exact H.
Qed.

(** For both shapes the dates collected are the dates the sheet holds. *)
Lemma planned_points_dates parse_date_code rows points d :
  planned_points parse_date_code rows = Some points ->
  In d (map fst points) <-> In d (sheet_dates parse_date_code rows).
Proof.
  unfold planned_points, sheet_dates. cbv zeta.
  set (header := planned_header rows).
  destruct ((0 <=? fecha_index header)%Z && (0 <=? costo_index header)%Z).
  - intros [= <-]. rewrite long_points_dates. tauto.
  - destruct (length (date_columns parse_date_code header 0) <? 3); [discriminate|].
    intros [= <-]. apply wide_points_dates.
Qed.

(** For both shapes the total the importer forms for a date of the curve is
    the plain sum of the raw costs of that date. *)
Lemma date_total_raw_costs parse_date_code rows points d :
  planned_points parse_date_code rows = Some points ->
  In d (map fst points) ->
  date_total d points = float_sum (raw_costs parse_date_code rows d).
Proof.
  unfold planned_points, raw_costs. cbv zeta.
  set (header := planned_header rows).
  destruct ((0 <=? fecha_index header)%Z && (0 <=? costo_index header)%Z).
  - intros [= <-] _. rewrite <- long_points_costs.
    apply date_total_plain, long_points_finite.
  - destruct (length (date_columns parse_date_code header 0) <? 3); [discriminate|].
    intros [= <-] Hd.
    apply in_map_iff in Hd as ([d' v] & Hfst & Hin). simpl in Hfst. subst d'.
    destruct (wide_points_entry _ _ _ _ Hin) as [Hv Hsafe].
    assert (Hnd : NoDup (map fst (wide_points (date_columns parse_date_code header 0)
                                    (planned_body rows)))).
    { apply wide_rows_NoDup, initial_sums_NoDup. constructor. }
    unfold date_total. rewrite (costs_on_unique d v _ Hnd Hin). simpl.
    rewrite (or0_safe zero safe_zero), (zero_add_safe v Hsafe). exact Hv.
Qed.

(** C7: whenever a shape is recognized, the dates of the curve are the
    distinct dates the sheet holds (in the long shape those of the rows
    with a date and a cost, in the wide shape those of the date columns)
    in ascending order, and the value at each date is the running
    cumulative sum, date after date, of the sums of the raw costs the
    sheet holds for each date.  Two rows on 2024-01-05 with costs 100 and
    50 give the single point (2024-01-05, 150), and a later date continues
    from 150; a sheet with three date columns and two rows of costs gives
    one point per column, each the sum of its column on top of the
    earlier ones. *)
Theorem parsePlanned_cumulative_by_date :
  forall (parse_date_code : float -> option (Z * Z * Z)) (rows : list Row)
         (points : DateMap),
    rows <> [] ->
    planned_points parse_date_code rows = Some points ->
    let curve := parsed_curve (parsePlanned parse_date_code rows) in
    StronglySorted str_lt (map date curve)
    /\ (forall d, In d (map date curve) <-> In d (sheet_dates parse_date_code rows))
    /\ map plannedCostAccum curve =
         running_sums zero
           (map (fun d => float_sum (raw_costs parse_date_code rows d)) (map date curve))
    /\ parsed_curve (parsePlanned no_serial_dates planned_sheet_1) =
         [{| date := "2024-01-05"; plannedCostAccum := 150 |}]
    /\ parsed_curve (parsePlanned no_serial_dates planned_sheet_2) =
         [{| date := "2024-01-05"; plannedCostAccum := 150 |};
          {| date := "2024-02-01"; plannedCostAccum := 180 |}]
    /\ parsed_curve (parsePlanned no_serial_dates planned_sheet_wide) =
         [{| date := "2024-01-31"; plannedCostAccum := 150 |};
          {| date := "2024-02-29"; plannedCostAccum := 375.5 |};
          {| date := "2024-03-31"; plannedCostAccum := 675.5 |}].
Proof.
  intros parse_date_code rows points Hrows Hpoints curve.
  assert (Hcurve : curve = curve_of_points points).
  { subst curve. unfold parsePlanned. destruct rows as [|r rows]; [congruence|].
    rewrite Hpoints. reflexivity. }
  rewrite Hcurve.
  destruct (curve_of_points_spec points) as (Hsorted & Hdates & Hsums).
  split; [exact Hsorted|]. split; [|split].
  - intros d. rewrite Hdates.
    apply (planned_points_dates parse_date_code rows points d Hpoints).
  - rewrite Hsums. f_equal. apply map_ext_in. intros d Hd.
    apply (date_total_raw_costs parse_date_code rows points d Hpoints).
    apply Hdates. exact Hd.
  - repeat split; vm_compute; reflexivity.
Qed.

Lemma parsePlanned_cumulative_by_date_witness :
  (planned_sheet_2 <> [] /\
   planned_points no_serial_dates planned_sheet_2 =
     Some [("2024-01-05", 100%float); ("2024-01-05", 50%float); ("2024-02-01", 30%float)] /\
   raw_costs no_serial_dates planned_sheet_2 "2024-01-05" = [100%float; 50%float] /\
   map plannedCostAccum (parsed_curve (parsePlanned no_serial_dates planned_sheet_2)) =
     running_sums zero
       (map (fun d => float_sum (raw_costs no_serial_dates planned_sheet_2 d))
          (map date (parsed_curve (parsePlanned no_serial_dates planned_sheet_2))))) /\
  (planned_sheet_wide <> [] /\
   planned_points no_serial_dates planned_sheet_wide =
     Some [("2024-01-31", 150%float); ("2024-02-29", 225.5%float);
           ("2024-03-31", 300%float)] /\
   sheet_dates no_serial_dates planned_sheet_wide =
     ["2024-01-31"; "2024-02-29"; "2024-03-31"] /\
   raw_costs no_serial_dates planned_sheet_wide "2024-02-29" = [200%float; 25.5%float] /\
   (forall d, In d (map date (parsed_curve (parsePlanned no_serial_dates planned_sheet_wide)))
              <-> In d (sheet_dates no_serial_dates planned_sheet_wide)) /\
   map plannedCostAccum (parsed_curve (parsePlanned no_serial_dates planned_sheet_wide)) =
     running_sums zero
       (map (fun d => float_sum (raw_costs no_serial_dates planned_sheet_wide d))
          (map date (parsed_curve (parsePlanned no_serial_dates planned_sheet_wide))))).
Proof.
  assert (Hne : planned_sheet_2 <> []) by discriminate.
  assert (Hpts : planned_points no_serial_dates planned_sheet_2 =
                 Some [("2024-01-05", 100%float); ("2024-01-05", 50%float);
                       ("2024-02-01", 30%float)]) by (vm_compute; reflexivity).
  assert (Hnew : planned_sheet_wide <> []) by discriminate.
  assert (Hptw : planned_points no_serial_dates planned_sheet_wide =
                 Some [("2024-01-31", 150%float); ("2024-02-29", 225.5%float);
                       ("2024-03-31", 300%float)]) by (vm_compute; reflexivity).
  split.
  - split; [exact Hne|]. split; [exact Hpts|]. split; [vm_compute; reflexivity|].
    exact (proj1 (proj2 (proj2
             (parsePlanned_cumulative_by_date no_serial_dates planned_sheet_2 _ Hne Hpts)))).
  - split; [exact Hnew|]. split; [exact Hptw|]. split; [vm_compute; reflexivity|].
    split; [vm_compute; reflexivity|].
    split.
    + exact (proj1 (proj2
               (parsePlanned_cumulative_by_date no_serial_dates planned_sheet_wide _
                  Hnew Hptw))).
    + exact (proj1 (proj2 (proj2
               (parsePlanned_cumulative_by_date no_serial_dates planned_sheet_wide _
                  Hnew Hptw)))).
Defined.

(** ** Suspension shifting *)

(** C9 (where the code departs from it): the date is read as local
    midnight and written back as a UTC date, so where local time is ahead
    of UTC the result is one day early: with no suspension 2024-01-10
    comes back as 2024-01-09, and with one suspension of 10 days ended
    before it 2024-03-01 comes back as 2024-03-10 instead of 2024-03-11;
    five hours behind UTC the same calls give 2024-01-10 and
    2024-03-11. *)
Theorem shiftDateBySuspensions_one_day_early_east_of_UTC :
  shiftDateBySuspensions UTC_plus_1 "2024-01-10" (suspended_project [])
    = Returned "2024-01-09"
  /\ shiftDateBySuspensions UTC_plus_1 "2024-03-01" (suspended_project [january_suspension])
    = Returned "2024-03-10"
  /\ shiftDateBySuspensions UTC_minus_5 "2024-01-10" (suspended_project [])
    = Returned "2024-01-10"
  /\ shiftDateBySuspensions UTC_minus_5 "2024-03-01" (suspended_project [january_suspension])
    = Returned "2024-03-11".
Proof. repeat split; vm_compute; reflexivity. Qed.

(** ** Row tags (RowClassifier) *)

Lemma nonempty_false (s : string) : JS.nonempty s = false -> s = "".
Proof. destruct s; simpl; congruence. Qed.

Lemma nonempty_true (s : string) : JS.nonempty s = true -> s <> "".
Proof. destruct s; simpl; congruence. Qed.

Lemma numeric_code_nonempty (s : string) : is_numeric_code s = true -> s <> "".
Proof. intros H ->. discriminate H. Qed.

(** X1: what a tag of [classifyRow] tells about the row.  CAP and SUB are
    given only to a numeric dotted code of one and of two segments; ITEM
    only to a row with a code; LUMP and TEXT only to a row with a
    description and no code, LUMP when the total is a finite number and
    TEXT when it is not; OTHER only to a row with neither code nor
    description, or with a code that normalizes to nothing.  The quantity,
    the unit and the unit price never change the tag. *)
Theorem classifyRow_tags :
  forall (code desc : value) (qty : option float) (unit : value) (vu vt : option float),
    let t := classifyRow code desc qty unit vu vt in
    let cn := normalizeCode (VStr (text_of code)) in
    (t = CAP -> is_numeric_code cn = true /\ codeLevel cn = 1) /\
    (t = SUB -> is_numeric_code cn = true /\ codeLevel cn = 2) /\
    (t = ITEM -> text_of code <> "" /\ cn <> "") /\
    (t = LUMP -> text_of code = "" /\ text_of desc <> "" /\
                 exists x, vt = Some x /\ JS.isFinite x = true) /\
    (t = TEXT -> text_of code = "" /\ text_of desc <> "" /\
                 forall x, vt = Some x -> JS.isFinite x = false) /\
    (t = OTHER -> (text_of code = "" /\ text_of desc = "") \/
                  (text_of code <> "" /\ cn = "")) /\
    (forall qty' unit' vu',
       classifyRow code desc qty' unit' vu' vt = t).
Proof.
  intros code desc qty unit vu vt t cn. subst t cn. unfold classifyRow.
  destruct (JS.nonempty (text_of code)) eqn:Hc;
    destruct (JS.nonempty (text_of desc)) eqn:Hd; cbn [negb andb].
  all: repeat match goal with
         | |- context [if ?b then _ else _] => destruct b eqn:?
         end.
  all: try (destruct (codeLevel _) as [|[|[|?]]] eqn:Hl).
  all: repeat split; try discriminate; try reflexivity; intros.
  all: try assumption.
  all: try (apply nonempty_true; assumption).
  all: try (apply nonempty_false; assumption).
  all: try (apply numeric_code_nonempty; assumption).
  all: try (destruct vt as [x0|]; [eexists; split; [reflexivity|assumption] | discriminate]).
  all: try congruence.
  all: try (left; split; apply nonempty_false; assumption).
  all: try (right; split; [apply nonempty_true | apply nonempty_false]; assumption).
  all: subst vt; assumption.
Qed.

Lemma classifyRow_SUBTOTAL code desc qty unit vu vt :
  classifyRow code desc qty unit vu vt = SUBTOTAL ->
  JS.startsWith (JS.toLowerCase (text_of code)) "subtotal"
  || JS.startsWith (JS.toLowerCase (text_of desc)) "subtotal" = true.
Proof.
  unfold classifyRow.
  repeat match goal with
         | |- context [if ?b then _ else _] => destruct b eqn:?
         end; try discriminate; try (intros _; reflexivity).
  all: destruct (codeLevel _) as [|[|[|?]]]; discriminate.
Qed.

Lemma classifyRow_level code desc qty unit vu vt :
  let cn := normalizeCode (VStr (text_of code)) in
  (classifyRow code desc qty unit vu vt = CAP -> codeLevel cn = 1) /\
  (classifyRow code desc qty unit vu vt = SUB -> codeLevel cn = 2).
Proof.
  unfold classifyRow.
  repeat match goal with
         | |- context [if ?b then _ else _] => destruct b eqn:?
         end; cbv zeta; try (split; discriminate).
  destruct (codeLevel _) as [|[|[|?]]]; split; congruence.
Qed.

Lemma startsWith_lower_nonempty (s : string) (c : ascii) (p : string) :
  JS.startsWith (JS.toLowerCase s) (String c p) = true -> s <> "".
Proof. intros H ->. discriminate H. Qed.

Lemma append_nil_r (s : string) : s +:+ "" = s.
Proof.
  induction s as [|a s IH]; [reflexivity|].
  change (String a (s +:+ "") = String a s). f_equal. exact IH.
Qed.

Lemma append_assoc (a b c : string) : (a +:+ b) +:+ c = a +:+ (b +:+ c).
Proof.
  induction a as [|x a IH]; [reflexivity|].
  change (String x ((a +:+ b) +:+ c) = String x (a +:+ (b +:+ c))). f_equal. exact IH.
Qed.

Lemma rev_app_append (s1 : string) : forall s2,
  String.rev_app s1 s2 = String.rev s1 +:+ s2.
Proof.
  unfold String.rev. induction s1 as [|a s1 IH]; intros s2; [reflexivity|].
  cbn [String.rev_app]. rewrite (IH (String a s2)), (IH (String a "")).
  rewrite append_assoc. reflexivity.
Qed.

Lemma split_go_cons (c : ascii) (s : string) : forall cur,
  exists x r, JS.split_go c cur s = x :: r.
Proof.
  induction s as [|a t IH]; intros cur; simpl; [eauto|].
  destruct (Ascii.eqb a c); eauto.
Qed.

Lemma join_cons (sep x : string) (l : list string) :
  l <> [] -> JS.join sep (x :: l) = x +:+ sep +:+ JS.join sep l.
Proof. destruct l; [congruence | reflexivity]. Qed.

(** Joining the pieces of a split gives the text back. *)
Lemma split_go_join (c : ascii) (s : string) : forall cur,
  JS.join (String c "") (JS.split_go c cur s) = String.rev cur +:+ s.
Proof.
  induction s as [|a t IH]; intros cur; simpl JS.split_go.
  - simpl. symmetry. apply append_nil_r.
  - destruct (Ascii.eqb a c) eqn:Hac.
    + apply Ascii.eqb_eq in Hac. subst a.
      destruct (split_go_cons c t "") as (x & r & Hx).
      rewrite join_cons by (rewrite Hx; discriminate).
      rewrite IH. reflexivity.
    + rewrite IH.
      change (String.rev (String a cur)) with (String.rev_app cur (String a "")).
      rewrite rev_app_append, append_assoc. reflexivity.
Qed.

Lemma join_snoc (sep x : string) (l : list string) :
  l <> [] -> JS.join sep (l ++ [x]) = JS.join sep l +:+ sep +:+ x.
Proof.
  induction l as [|y l IH]; [congruence|]. intros _.
  destruct l as [|z l].
  - reflexivity.
  - change ((y :: z :: l) ++ [x]) with (y :: ((z :: l) ++ [x])).
    rewrite join_cons by (simpl; discriminate).
    rewrite IH by discriminate.
    rewrite (join_cons sep y (z :: l)) by discriminate.
    rewrite !append_assoc. reflexivity.
Qed.

Lemma join_nonempty (sep : string) (l : list string) :
  l <> [] -> Forall (fun seg => JS.nonempty seg = true) l -> JS.join sep l <> "".
Proof.
  destruct l as [|x l]; [congruence|]. intros _ H.
  inversion H as [|? ? Hx _]; subst.
  destruct x as [|a x]; [discriminate|].
  destruct l; simpl; discriminate.
Qed.


(** ** Items stored by the budget importer *)

Lemma budget_rows_Forall (P : BudgetItem -> Prop) random_hex cols rows : forall r,
  (forall r row it, budget_row random_hex cols r row = Some it -> P it) ->
  Forall P (budget_rows random_hex cols r rows).
Proof.
  induction rows as [|row rows IH]; intros r HP; simpl; [constructor|].
  destruct (budget_row random_hex cols r row) as [it|] eqn:Hrow; [constructor|]; eauto.
Qed.

Lemma budget_rows_length random_hex cols rows : forall r,
  length (budget_rows random_hex cols r rows) <= length rows.
Proof.
  induction rows as [|row rows IH]; intros r; simpl; [lia|].
  destruct (budget_row random_hex cols r row); simpl; specialize (IH (S r)); lia.
Qed.

Lemma column_number_finite row col x :
  column_number row col = Some x -> JS.isFinite x = true.
Proof.
  unfold column_number. destruct (0 <=? col)%Z; [|discriminate].
  apply parseNumber_Some_finite.
Qed.

Lemma Some_eq {A : Type} (a b : A) : Some a = Some b -> b = a.
Proof. intros H. congruence. Qed.

Lemma budget_row_well_formed random_hex cols r row it :
  budget_row random_hex cols r row = Some it -> well_formed_item it.
Proof.
  unfold budget_row. destruct row as [row|]; [|discriminate].
  destruct (is_blank_row row); [discriminate|]. cbv zeta.
  set (code0 := column_cell row (col_code cols)).
  set (desc0 := column_cell row (col_desc cols)).
  set (qty0 := column_number row (col_qty cols)).
  set (vu0 := column_number row (col_vu cols)).
  set (vt0 := column_number row (col_vt cols)).
  set (unit0 := column_cell row (col_unit cols)).
  set (typ := classifyRow code0 desc0 qty0 unit0 vu0 vt0).
  destruct (bool_decide (typ = OTHER)) eqn:Hother; [discriminate|].
  apply bool_decide_eq_false in Hother.
  intros H. apply Some_eq in H. subst it. unfold well_formed_item. cbn [type codeNorm code qtyContract vuContract
    vtContract desc].
  split; [exact Hother|]. split; [reflexivity|].
  split.
  { eexists _, _, _. repeat split.
    - destruct qty0 as [q|] eqn:Hq; [|reflexivity].
      apply (column_number_finite row (col_qty cols)). exact Hq.
    - destruct vu0 as [v|] eqn:Hv; [|reflexivity].
      apply (column_number_finite row (col_vu cols)). exact Hv.
    - destruct vt0 as [t|] eqn:Ht; [left|right; reflexivity].
      apply (column_number_finite row (col_vt cols)). exact Ht. }
  split.
  { intros Hsub. pose proof (classifyRow_SUBTOTAL _ _ _ _ _ _ Hsub) as Hstart.
    fold code0 desc0 in Hstart.
    rewrite (bool_decide_eq_true_2 _ Hsub). cbn [andb].
    destruct (JS.nonempty (text_of desc0)) eqn:Hd; cbn [negb andb].
    - apply nonempty_true. exact Hd.
    - apply nonempty_false in Hd. rewrite Hd in Hstart. cbn in Hstart.
      rewrite orb_false_r in Hstart. rewrite Hstart.
      eapply startsWith_lower_nonempty. exact Hstart. }
  assert (Hkeep : typ <> SUBTOTAL ->
            (if bool_decide (typ = SUBTOTAL) && negb (JS.nonempty (text_of desc0)) &&
                JS.startsWith (JS.toLowerCase (text_of code0)) "subtotal"
             then "" else text_of code0) = text_of code0).
  { intros Hne. rewrite (bool_decide_eq_false_2 _ Hne). reflexivity. }
  pose proof (classifyRow_level code0 desc0 qty0 unit0 vu0 vt0)
    as [Hcap Hsubl].
  split; intros Ht; rewrite Hkeep by (fold typ in Ht; congruence); auto.
Qed.

(** X2: every item [parseBudgetFromSheet] stores is well formed: its tag
    is not OTHER; its normalized code is [normalizeCode] of its code; its
    quantity, unit price and total are numbers, the first two finite and
    the total either a finite number read from the sheet or the product of
    the two; a SUBTOTAL item has a description (the text is moved there
    when it came in the code column); a CAP item has a code of level 1 and
    a SUB item of level 2.  There are fewer items than rows. *)
Theorem parseBudgetFromSheet_items_well_formed :
  forall (settings : Settings) (random_hex : nat -> string) (rows : list Row),
    Forall well_formed_item (parsed_items (parseBudgetFromSheet settings random_hex rows)) /\
    length (parsed_items (parseBudgetFromSheet settings random_hex rows)) <= length rows - 1.
Proof.
  intros settings random_hex rows. unfold parseBudgetFromSheet.
  destruct (findHeaderRow rows <? 0)%Z; cbn [parsed_items].
  - split; [constructor | simpl; lia].
  - split.
    + apply budget_rows_Forall. intros r row it. apply budget_row_well_formed.
    + etransitivity; [apply budget_rows_length|].
      rewrite length_skipn. lia.
Qed.

Lemma parseBudgetFromSheet_items_well_formed_witness :
  map type (parsed_items (parseBudgetFromSheet defaultSettings (fun _ => "0")
                            budget_sheet_example)) = [CAP; SUB; ITEM; SUBTOTAL; AIU] /\
  Forall well_formed_item
    (parsed_items (parseBudgetFromSheet defaultSettings (fun _ => "0") budget_sheet_example)).
Proof.
  split; [vm_compute; reflexivity|].
  apply (parseBudgetFromSheet_items_well_formed defaultSettings (fun _ => "0")
           budget_sheet_example).
Defined.

Lemma budget_row_parent random_hex cols r row it :
  budget_row random_hex cols r row = Some it -> parent_linked it.
Proof.
  unfold budget_row. destruct row as [row|]; [|discriminate].
  destruct (is_blank_row row); [discriminate|].
  destruct (bool_decide (_ = OTHER)); [discriminate|].
  intros H. apply Some_eq in H. subst it. unfold parent_linked. cbn [codeNorm parentCodeNorm].
  set (cn := normalizeCode _). unfold has_parent.
  destruct ((2 <=? codeLevel cn) && is_numeric_code cn) eqn:Hp; [|reflexivity].
  apply andb_true_iff in Hp as [Hlvl Hnum]. apply Nat.leb_le in Hlvl.
  pose proof (numeric_code_nonempty cn Hnum) as Hne.
  unfold codeLevel in Hlvl. rewrite Hnum in Hlvl.
  destruct (JS.nonempty cn) eqn:Hcn; [|lia].
  pose proof (split_go_join "." cn "") as Hjoin. fold (JS.split "." cn) in Hjoin.
  change (String.rev "" +:+ cn) with cn in Hjoin.
  unfold is_numeric_code in Hnum. rewrite forallb_forall in Hnum.
  assert (Hl : JS.split "." cn <> []) by (intros E; rewrite E in Hlvl; simpl in Hlvl; lia).
  rewrite (app_removelast_last "" Hl) in Hjoin.
  assert (Hr : removelast (JS.split "." cn) <> []).
  { destruct (JS.split "." cn) as [|a [|b l]]; simpl in Hlvl; try lia. discriminate. }
  rewrite join_snoc in Hjoin by exact Hr.
  assert (Hlast : In (List.last (JS.split "." cn) "") (JS.split "." cn)).
  { rewrite (app_removelast_last "" Hl) at 2. apply in_or_app. right. left. reflexivity. }
  split.
  - apply join_nonempty; [exact Hr|].
    apply List.Forall_forall. intros seg Hin.
    assert (In seg (JS.split "." cn)) as Hin'.
    { rewrite (app_removelast_last "" Hl). apply in_or_app. left. exact Hin. }
    apply Hnum in Hin'. apply andb_true_iff in Hin'. tauto.
  - exists (List.last (JS.split "." cn) ""). split; [symmetry; exact Hjoin|].
    apply Hnum in Hlast. apply andb_true_iff in Hlast. exact Hlast.
Qed.

(** X3: the parent code [parseBudgetFromSheet] stores.  For an item whose
    normalized code is numeric with two or more segments the parent is not
    empty and the code is the parent, a dot and one more non-empty run of
    digits; for every other item the parent is empty. *)
Theorem parseBudgetFromSheet_parent_codes :
  forall (settings : Settings) (random_hex : nat -> string) (rows : list Row),
    Forall parent_linked (parsed_items (parseBudgetFromSheet settings random_hex rows)).
Proof.
  intros settings random_hex rows. unfold parseBudgetFromSheet.
  destruct (findHeaderRow rows <? 0)%Z; cbn [parsed_items]; [constructor|].
  apply budget_rows_Forall. intros r row it. apply budget_row_parent.
Qed.

Lemma parseBudgetFromSheet_parent_codes_witness :
  map parentCodeNorm
    (parsed_items (parseBudgetFromSheet defaultSettings (fun _ => "0")
                     budget_sheet_example)) = [""; "1"; "1.1"; ""; ""] /\
  Forall parent_linked
    (parsed_items (parseBudgetFromSheet defaultSettings (fun _ => "0") budget_sheet_example)).
Proof.
  split; [vm_compute; reflexivity|].
  apply (parseBudgetFromSheet_parent_codes defaultSettings (fun _ => "0")
           budget_sheet_example).
Defined.

(** ** The header row and the columns *)

Lemma header_loop_spec (rows : list Row) : forall i best_idx best_score,
  (header_loop rows i best_idx best_score = best_idx /\
   Forall (fun r => row_score r <= best_score) rows) \/
  exists k r,
    header_loop rows i best_idx best_score = Z.of_nat (i + k) /\
    rows !! k = Some r /\ best_score < row_score r /\
    (forall j r', j < k -> rows !! j = Some r' -> row_score r' < row_score r) /\
    Forall (fun r' => row_score r' <= row_score r) rows.
Proof.
  induction rows as [|r rows IH]; intros i best_idx best_score; simpl header_loop.
  - left. split; [reflexivity | constructor].
  - destruct (best_score <? row_score r) eqn:Hlt.
    + apply Nat.ltb_lt in Hlt. right.
      destruct (IH (S i) (Z.of_nat i) (row_score r))
        as [[Hres Hall] | (k & r' & Hres & Hk & Hbetter & Hfirst & Hall)].
      * exists 0, r. rewrite Hres, Nat.add_0_r.
        repeat split; try assumption; [intros j r' Hj; lia | constructor; [lia | exact Hall]].
      * exists (S k), r'. rewrite Hres. replace (S i + k) with (i + S k) by lia.
        repeat split; try assumption; try lia.
        -- intros [|j] r'' Hj Hlook; simpl in Hlook.
           ++ injection Hlook as <-. exact Hbetter.
           ++ apply (Hfirst j); [lia | exact Hlook].
        -- constructor; [lia | exact Hall].
    + apply Nat.ltb_ge in Hlt.
      destruct (IH (S i) best_idx best_score)
        as [[Hres Hall] | (k & r' & Hres & Hk & Hbetter & Hfirst & Hall)].
      * left. split; [exact Hres | constructor; assumption].
      * right. exists (S k), r'. rewrite Hres. replace (S i + k) with (i + S k) by lia.
        repeat split; try assumption.
        -- intros [|j] r'' Hj Hlook; simpl in Hlook.
           ++ injection Hlook as <-. lia.
           ++ apply (Hfirst j); [lia | exact Hlook].
        -- constructor; [lia | exact Hall].
Qed.

(** X4: [findHeaderRow] returns -1 when every one of the first 80 rows
    scores 0, and otherwise the index, below 80, of a row with a positive
    score that no scanned row beats and that every earlier row falls short
    of: the first row with the highest score. *)
Theorem findHeaderRow_first_best_row :
  forall rows : list Row,
    (findHeaderRow rows = (-1)%Z /\
     forall j r, j < 80 -> rows !! j = Some r -> row_score r = 0) \/
    exists k r,
      findHeaderRow rows = Z.of_nat k /\ k < 80 /\ rows !! k = Some r /\
      0 < row_score r /\
      (forall j r', j < k -> rows !! j = Some r' -> row_score r' < row_score r) /\
      (forall j r', j < 80 -> rows !! j = Some r' -> row_score r' <= row_score r).
Proof.
  intros rows. unfold findHeaderRow. rewrite scanned_rows.
  assert (Hscan : forall j r, j < 80 -> rows !! j = Some r -> In r (firstn 80 rows)).
  { intros j r Hj Hlook. apply list_elem_of_In.
    apply (list_elem_of_lookup_2 _ j). rewrite lookup_take_lt by exact Hj. exact Hlook. }
  destruct (header_loop_spec (firstn 80 rows) 0 (-1) 0)
    as [[Hres Hall] | (k & r & Hres & Hk & Hbetter & Hfirst & Hall)].
  - left. split; [exact Hres|]. intros j r Hj Hlook.
    rewrite List.Forall_forall in Hall. specialize (Hall r (Hscan j r Hj Hlook)). lia.
  - right. exists k, r.
    apply lookup_take_Some in Hk as [Hk Hk80].
    repeat split; try assumption.
    + intros j r' Hj Hlook. apply (Hfirst j); [exact Hj|].
      rewrite lookup_take_lt by lia. exact Hlook.
    + intros j r' Hj Hlook. rewrite List.Forall_forall in Hall.
      apply Hall. exact (Hscan j r' Hj Hlook).
Qed.

Lemma find_column_spec (preds header : list string) : forall i,
  (find_column header preds i = (-1)%Z /\
   Forall (fun h => header_matches preds h = false) header) \/
  exists k h,
    find_column header preds i = Z.of_nat (i + k) /\ header !! k = Some h /\
    header_matches preds h = true /\
    forall j h', j < k -> header !! j = Some h' -> header_matches preds h' = false.
Proof.
  induction header as [|h header IH]; intros i; simpl find_column.
  - left. split; [reflexivity | constructor].
  - fold (header_matches preds h). destruct (header_matches preds h) eqn:Hm.
    + right. exists 0, h. rewrite Nat.add_0_r.
      repeat split; try assumption. intros j h' Hj. lia.
    + destruct (IH (S i)) as [[Hres Hall] | (k & h' & Hres & Hk & Hhit & Hfirst)].
      * left. split; [exact Hres | constructor; assumption].
      * right. exists (S k), h'. rewrite Hres. replace (S i + k) with (i + S k) by lia.
        repeat split; try assumption.
        intros [|j] h'' Hj Hlook; simpl in Hlook.
        -- injection Hlook as <-. exact Hm.
        -- apply (Hfirst j); [lia | exact Hlook].
Qed.

Lemma find_column_first_match preds header :
  first_match preds header (find_column header preds 0).
Proof.
  destruct (find_column_spec preds header 0) as [H | (k & h & H)]; [left; exact H|].
  right. exists k, h. exact H.
Qed.

(** X5: each column index [mapColumns] gives is the position of the first
    non-empty header cell (lower-cased, trimmed) that contains one of the
    synonyms of its role, or -1 when no cell does. *)
Theorem mapColumns_first_matching_header :
  forall headerRow : list value,
    let header := map cell_text headerRow in
    let cols := mapColumns headerRow in
    first_match ["item"; "ítem"; "codigo"; "código"] header (col_code cols) /\
    first_match ["descripcion"; "descripción"; "desc"] header (col_desc cols) /\
    first_match ["unidad"; "und"] header (col_unit cols) /\
    first_match ["cantidad"; "cant"] header (col_qty cols) /\
    first_match ["valor unit"; "vr unit"; "v/u"; "vu"] header (col_vu cols) /\
    first_match ["valor total"; "vr total"; "total"; "vt"] header (col_vt cols).
Proof.
  intros headerRow header cols. subst header cols. unfold mapColumns.
  cbn [col_code col_desc col_unit col_qty col_vu col_vt].
  repeat split; apply find_column_first_match.
Qed.

Lemma mapColumns_first_matching_header_witness :
  mapColumns [VStr "Item"; VStr "Descripción"; VStr "Unidad"; VStr "Cantidad";
              VStr "Valor unitario"; VStr "Valor total"] =
    {| col_code := 0; col_desc := 1; col_unit := 2; col_qty := 3; col_vu := 4; col_vt := 5 |}
  /\ first_match ["valor total"; "vr total"; "total"; "vt"]
       (map cell_text [VStr "Item"; VStr "Descripción"; VStr "Unidad"; VStr "Cantidad";
                       VStr "Valor unitario"; VStr "Valor total"]) 5.
Proof.
  split; [vm_compute; reflexivity|].
  apply (mapColumns_first_matching_header
           [VStr "Item"; VStr "Descripción"; VStr "Unidad"; VStr "Cantidad";
            VStr "Valor unitario"; VStr "Valor total"]).
Defined.

(** ** Revisions that leave an item alone *)

Lemma revisions_loop_skips codeN revs : forall q v,
  revisions_loop codeN revs q v =
    revisions_loop codeN (List.filter (changes_item codeN) revs) q v.
Proof.
  induction revs as [|rev revs IH]; intros q v; [reflexivity|].
  cbn [List.filter revisions_loop]. unfold changes_item at 1.
  destruct (find_change codeN (changes rev)) as [ch|] eqn:Hfind.
  - destruct (qtyNew ch) as [x|] eqn:Hq; [|destruct (vuNew ch) as [y|] eqn:Hv].
    + cbn [revisions_loop]. rewrite Hfind, Hq. apply IH.
    + cbn [revisions_loop]. rewrite Hfind, Hq, Hv. apply IH.
    + apply IH.
  - apply IH.
Qed.

(** X6: revisions that hold no change for an item, or a change that sets
    neither quantity nor unit price, can be dropped without changing the
    item's effective values; when no revision changes the item its
    effective quantity and unit price are the contract ones and its total
    their product. *)
Theorem effectiveValue_skips_unrelated_revisions :
  forall (item : BudgetItem) (revs : list Revision),
    effectiveValue item revs =
      effectiveValue item (List.filter (changes_item (codeNorm item)) revs)
    /\ (Forall (fun rev => changes_item (codeNorm item) rev = false) revs ->
        effectiveValue item revs =
          {| qty := fst (base_state item); vu := snd (base_state item);
             vt := (fst (base_state item) * snd (base_state item))%float |}).
Proof.
  intros item revs.
  assert (Hskip : effectiveValue item revs =
            effectiveValue item (List.filter (changes_item (codeNorm item)) revs)).
  { unfold effectiveValue. rewrite revisions_loop_skips. reflexivity. }
  split; [exact Hskip|].
  intros Hnone. rewrite Hskip. clear Hskip.
  replace (List.filter (changes_item (codeNorm item)) revs) with (@nil Revision).
  - reflexivity.
  - symmetry. induction Hnone as [|rev revs Hrev _ IH]; [reflexivity|].
    cbn [List.filter]. rewrite Hrev. exact IH.
Qed.

(** ** The total row and the revisions *)

Lemma find_some_exists {A} (f : A -> bool) (l : list A) (x : A) :
  In x l -> f x = true -> exists y, List.find f l = Some y.
Proof.
  induction l as [|a l IH]; intros Hin Hf; [contradiction|].
  simpl. destruct (f a) eqn:Ha; [eauto|].
  destruct Hin as [-> | Hin]; [congruence | auto].
Qed.

(** X7: once the budget holds a TOTAL row whose description contains
    "valor total" and whose total is a finite number, replacing the
    project's revisions by any others leaves [contractValue] as it is. *)
Theorem contractValue_total_row_ignores_revisions :
  forall (project : Project) (settings : Settings) (revs : list Revision)
         (it : BudgetItem) (x : float),
    In it (items project) -> authoritative_total it x ->
    contractValue (with_revisions project revs) settings = contractValue project settings.
Proof.
  intros project settings revs it x Hin Htotal.
  assert (Hrow : is_total_row it = true) by (apply is_total_row_true; eauto).
  destruct (find_some_exists is_total_row (items project) it Hin Hrow) as [t Hfind].
  unfold contractValue. cbn [items with_revisions]. rewrite Hfind. reflexivity.
Qed.

Lemma contractValue_total_row_ignores_revisions_witness :
  In example_total [example_item; example_total; example_aiu] /\
  authoritative_total example_total 1000000%float /\
  contractValue
    (with_revisions (example_project [example_item; example_total; example_aiu])
       [example_R1; example_R2]) defaultSettings =
  contractValue (example_project [example_item; example_total; example_aiu]) defaultSettings.
Proof.
  assert (Hin : In example_total [example_item; example_total; example_aiu])
    by (right; left; reflexivity).
  assert (Ht : authoritative_total example_total 1000000%float)
    by (repeat split; reflexivity).
  split; [exact Hin|]. split; [exact Ht|].
  exact (contractValue_total_row_ignores_revisions
           (example_project [example_item; example_total; example_aiu]) defaultSettings
           [example_R1; example_R2] example_total 1000000%float Hin Ht).
Defined.

(** ** Zeros in sums and differences *)

Lemma Prim2SF_zero : Prim2SF zero = S754_zero false.
Proof. reflexivity. Qed.

Lemma sub_zero_r (x : float) : (x - zero)%float = x.
Proof.
  apply Prim2SF_inj. rewrite FloatAxioms.sub_spec, Prim2SF_zero.
  destruct (Prim2SF x) as [[|]|[|]| |s m e]; reflexivity.
Qed.




Lemma add_zero_r (x : float) : not_neg_zero x -> (x + zero)%float = x.
Proof.
  unfold not_neg_zero. intros H. apply Prim2SF_inj.
  rewrite FloatAxioms.add_spec, Prim2SF_zero.
  destruct (Prim2SF x) as [[|]|[|]| |s m e]; try reflexivity. congruence.
Qed.

Lemma SFadd_not_neg_zero (x y : spec_float) :
  valid_binary x = true -> valid_binary y = true ->
  x <> S754_zero true -> y <> S754_zero true -> SF64add x y <> S754_zero true.
Proof.
  intros Hvx Hvy Hx Hy. unfold SF64add, SFadd.
  destruct x as [sx|sx| |sx mx ex], y as [sy|sy| |sy my ey];
    try discriminate; try assumption.
  - destruct sx, sy; congruence.
  - destruct sx, sy; discriminate.
  - apply valid_emin in Hvx. apply valid_emin in Hvy. cbv zeta.
    destruct (cond_Zopp sx (Zpos (fst (shl_align mx ex (Z.min ex ey)))) +
              cond_Zopp sy (Zpos (fst (shl_align my ey (Z.min ex ey)))))%Z as [|p|p];
      unfold binary_normalize.
    + discriminate.
    + pose proof (binary_round_pos false p (Z.min ex ey) ltac:(lia)) as H.
      destruct (binary_round prec emax false p (Z.min ex ey)); try contradiction; discriminate.
    + pose proof (binary_round_pos true p (Z.min ex ey) ltac:(lia)) as H.
      destruct (binary_round prec emax true p (Z.min ex ey)); try contradiction; discriminate.
Qed.

Lemma add_not_neg_zero (x y : float) :
  not_neg_zero x -> not_neg_zero y -> not_neg_zero (x + y)%float.
Proof.
  unfold not_neg_zero. intros Hx Hy. rewrite FloatAxioms.add_spec.
  apply SFadd_not_neg_zero; auto using Prim2SF_valid.
Qed.

Lemma falsy_or0 (y : float) : JS.truthy y = false -> JS.or0 y = zero.
Proof. unfold JS.or0. intros ->. reflexivity. Qed.

Lemma truthy_or0 (y : float) : JS.truthy y = true -> JS.or0 y = y.
Proof. unfold JS.or0. intros ->. reflexivity. Qed.

Lemma or0_not_neg_zero (y : float) : not_neg_zero (JS.or0 y).
Proof.
  unfold JS.or0. destruct (JS.truthy y) eqn:Ht; [|unfold not_neg_zero; discriminate].
  unfold JS.truthy in Ht. apply negb_true_iff, orb_false_iff in Ht as [_ Hz].
  unfold not_neg_zero. intros E.
  unfold is_zero in Hz. rewrite FloatAxioms.eqb_spec, E in Hz. discriminate Hz.
Qed.

(** ** Executed values across reports *)

Lemma fold_left_ext_in {A B} (f g : A -> B -> A) (l : list B) : forall a,
  (forall a x, In x l -> f a x = g a x) -> fold_left f l a = fold_left g l a.
Proof.
  induction l as [|x l IH]; intros a H; [reflexivity|].
  simpl. rewrite (H a x) by (left; reflexivity).
  apply IH. intros a' y Hy. apply H. right. exact Hy.
Qed.

Lemma filter_none {A} (f : A -> bool) (l : list A) :
  (forall x, In x l -> f x = false) -> List.filter f l = [].
Proof.
  induction l as [|x l IH]; intros H; [reflexivity|].
  simpl. rewrite (H x) by (left; reflexivity). apply IH. intros y Hy. apply H. right. exact Hy.
Qed.

Lemma qty_of_empty (codeN : string) : qty_of ∅ codeN = zero.
Proof. unfold qty_of. rewrite lookup_empty. reflexivity. Qed.

(** X8: for a report that no report of the project precedes (no cut-off
    date strictly before its own), [previousReport] is null and the period
    value [computeExecutedValues] gives equals the accumulated value. *)
Theorem computeExecutedValues_first_report :
  forall (settings : Settings) (project : Project) (report : Report),
    (forall r, In r (reports project) ->
       JS.str_ltb (cutoffDate r) (cutoffDate report) = false) ->
    previousReport project report = None /\
    periodVal (computeExecutedValues settings project report) =
      accumVal (computeExecutedValues settings project report).
Proof.
  intros settings project report Hfirst.
  assert (Hprev : previousReport project report = None).
  { unfold previousReport. rewrite filter_none by exact Hfirst. reflexivity. }
  split; [exact Hprev|].
  unfold computeExecutedValues. rewrite Hprev, executed_loop_sums.
  cbn [periodVal accumVal]. do 2 f_equal.
  apply fold_left_ext_in. intros a it _.
  rewrite qty_of_empty, sub_zero_r. reflexivity.
Qed.

Lemma computeExecutedValues_first_report_witness :
  (forall r, In r (reports example_reports_project) ->
     JS.str_ltb (cutoffDate r) (cutoffDate (example_report "2024-01-31" 5)) = false) /\
  periodVal (computeExecutedValues defaultSettings example_reports_project
               (example_report "2024-01-31" 5)) = Some 500%float /\
  periodVal (computeExecutedValues defaultSettings example_reports_project
               (example_report "2024-01-31" 5)) =
    accumVal (computeExecutedValues defaultSettings example_reports_project
                (example_report "2024-01-31" 5)).
Proof.
  assert (H : forall r, In r (reports example_reports_project) ->
            JS.str_ltb (cutoffDate r) (cutoffDate (example_report "2024-01-31" 5)) = false).
  { intros r [<- | [<- | []]]; reflexivity. }
  split; [exact H|]. split; [vm_compute; reflexivity|].
  exact (proj2 (computeExecutedValues_first_report defaultSettings example_reports_project
                  (example_report "2024-01-31" 5) H)).
Defined.

Lemma contractValue_with_reports project rs settings :
  contractValue (with_reports project rs) settings = contractValue project settings.
Proof.
  unfold contractValue. cbn [items with_reports].
  rewrite !contract_sum_loop_fold. reflexivity.
Qed.

(** X9: the accumulated value and the executed percentage of a report do
    not depend on the other reports of the project: replacing the report
    list by any other leaves both as they are. *)
Theorem accumulated_value_ignores_other_reports :
  forall (settings : Settings) (project : Project) (rs : list Report) (report : Report),
    accumVal (computeExecutedValues settings (with_reports project rs) report) =
      accumVal (computeExecutedValues settings project report)
    /\ computeExecutedPct settings (with_reports project rs) report =
         computeExecutedPct settings project report.
Proof.
  intros settings project rs report.
  assert (Hacc : accumVal (computeExecutedValues settings (with_reports project rs) report) =
                 accumVal (computeExecutedValues settings project report)).
  { unfold computeExecutedValues. rewrite !executed_loop_sums. reflexivity. }
  split; [exact Hacc|].
  unfold computeExecutedPct, contract_value_or0.
  rewrite contractValue_with_reports, Hacc. reflexivity.
Qed.

(** ** Amounts that are not numbers *)

Lemma filter_comm {A} (f g : A -> bool) (l : list A) :
  List.filter f (List.filter g l) = List.filter g (List.filter f l).
Proof.
  induction l as [|x l IH]; [reflexivity|].
  simpl. destruct (f x) eqn:Hf, (g x) eqn:Hg; simpl; rewrite ?Hf, ?Hg, IH; reflexivity.
Qed.

Lemma filter_idem {A} (f : A -> bool) (l : list A) :
  List.filter f (List.filter f l) = List.filter f l.
Proof.
  induction l as [|x l IH]; [reflexivity|].
  simpl. destruct (f x) eqn:Hf; simpl; rewrite ?Hf, IH; reflexivity.
Qed.

Lemma finance_sum_skips_void (evs : list FinanceEvent) : forall acc,
  not_neg_zero acc ->
  fold_left (fun a e => (a + JS.or0 (ToNumber (amount e)))%float) evs acc =
    fold_left (fun a x => (a + x)%float)
      (map (fun e => ToNumber (amount e)) (List.filter has_amount evs)) acc.
Proof.
  induction evs as [|e evs IH]; intros acc Hacc; [reflexivity|].
  cbn [fold_left List.filter]. unfold has_amount at 1.
  destruct (JS.truthy (ToNumber (amount e))) eqn:Ht.
  - rewrite (truthy_or0 _ Ht). cbn [map fold_left]. apply IH.
    apply add_not_neg_zero; [exact Hacc|].
    rewrite <- (truthy_or0 _ Ht). apply or0_not_neg_zero.
  - rewrite (falsy_or0 _ Ht), add_zero_r by exact Hacc. apply IH. exact Hacc.
Qed.

(** X10: [financeAccumUpTo] is the rounded plain sum, in order, of the
    amounts that read as a number other than 0, over the events dated up
    to the cut-off; events whose amount reads as 0 or as no number can be
    removed from the project without changing the result. *)
Theorem financeAccumUpTo_plain_sum_of_amounts :
  forall (settings : Settings) (project : Project) (cutoffDate : option string),
    financeAccumUpTo settings project cutoffDate =
      roundByDecimals
        (VNum (float_sum (map (fun e => ToNumber (amount e))
                            (List.filter has_amount (counted_events project cutoffDate)))))
        (moneyDecimals settings)
    /\ financeAccumUpTo settings
         (with_events project (List.filter has_amount (events project))) cutoffDate =
       financeAccumUpTo settings project cutoffDate.
Proof.
  intros settings project cutoffDate.
  assert (Hz : not_neg_zero zero) by (unfold not_neg_zero; discriminate).
  assert (Hsum : forall p, financeAccumUpTo settings p cutoffDate =
            roundByDecimals
              (VNum (float_sum (map (fun e => ToNumber (amount e))
                       (List.filter has_amount (counted_events p cutoffDate)))))
              (moneyDecimals settings)).
  { intros p. unfold financeAccumUpTo. rewrite finance_sum_skips_void by exact Hz.
    reflexivity. }
  split; [apply Hsum|].
  rewrite !Hsum. unfold counted_events. cbn [events with_events].
  rewrite (filter_comm _ has_amount (events project)), filter_idem. reflexivity.
Qed.

Lemma financeAccumUpTo_plain_sum_of_amounts_witness :
  financeAccumUpTo defaultSettings example_void_project (Some "2024-12-31") = Some 500%float /\
  List.filter has_amount (events example_void_project) = [example_dateless] /\
  financeAccumUpTo defaultSettings
    (with_events example_void_project
       (List.filter has_amount (events example_void_project))) (Some "2024-12-31") =
  financeAccumUpTo defaultSettings example_void_project (Some "2024-12-31").
Proof.
  split; [vm_compute; reflexivity|]. split; [vm_compute; reflexivity|].
  exact (proj2 (financeAccumUpTo_plain_sum_of_amounts defaultSettings example_void_project
                  (Some "2024-12-31"))).
Defined.


(** ** Creating and deleting reports *)













Lemma find_none_filter {A} (f : A -> bool) (l : list A) :
  List.find f l = None -> List.filter (fun x => negb (f x)) l = l.
Proof.
  induction l as [|x l IH]; [reflexivity|].
  simpl. destruct (f x); [discriminate|]. intros H. simpl. rewrite IH by exact H. reflexivity.
Qed.

Lemma find_all_false {A} (f : A -> bool) (l : list A) :
  (forall x, In x l -> f x = false) -> List.find f l = None.
Proof.
  induction l as [|x l IH]; intros H; [reflexivity|].
  simpl. rewrite (H x) by (left; reflexivity). apply IH. intros y Hy. apply H. right. exact Hy.
Qed.

Lemma with_reports_same p : with_reports p (reports p) = p.
Proof. destruct p. reflexivity. Qed.

Lemma with_reports_twice p rs rs' :
  with_reports (with_reports p rs) rs' = with_reports p rs'.
Proof. reflexivity. Qed.

Lemma deleteSelectedReport_reports selected p :
  deleteSelectedReport selected true p =
    with_reports p (List.filter (fun r => negb (String.eqb (rep_id r) selected)) (reports p)).
Proof.
  unfold deleteSelectedReport, getSelectedReport.
  destruct (List.find _ (reports p)) as [rep|] eqn:Hfind.
  - apply find_some in Hfind as [_ Hid]. apply String.eqb_eq in Hid. rewrite Hid.
    reflexivity.
  - rewrite (find_none_filter _ _ Hfind). symmetry. apply with_reports_same.
Qed.

(** X13: [deleteSelectedReport] leaves the project alone when the dialog
    is not confirmed; when it is, the reports left are those whose
    identifier differs from the selected one, in their order; and deleting
    the report that [createNewReport] has just appended, under an
    identifier no other report has, gives the project back. *)
Theorem deleteSelectedReport_removes_by_id :
  forall (selected : string) (p : Project),
    deleteSelectedReport selected false p = p /\
    reports (deleteSelectedReport selected true p) =
      List.filter (fun r => negb (String.eqb (rep_id r) selected)) (reports p) /\
    (forall (random_hex cutoff : string) (label : option string),
       (forall r, In r (reports p) -> rep_id r <> ensureReportId random_hex cutoff) ->
       deleteSelectedReport (ensureReportId random_hex cutoff) true
         (createNewReport random_hex (Some cutoff) label p) = p).
Proof.
  intros selected p. split; [|split].
  - unfold deleteSelectedReport. destruct (getSelectedReport selected p); reflexivity.
  - rewrite deleteSelectedReport_reports. reflexivity.
  - intros random_hex cutoff label Hfresh.
    assert (Hold : List.filter
              (fun r => negb (String.eqb (rep_id r) (ensureReportId random_hex cutoff)))
              (reports p) = reports p).
    { apply find_none_filter. apply find_all_false. intros r Hin.
      apply String.eqb_neq. apply Hfresh. exact Hin. }
    rewrite deleteSelectedReport_reports.
    unfold createNewReport.
    destruct (List.filter _ (items p)) as [|i l];
      [cbn [reports]; rewrite Hold; apply with_reports_same|].
    destruct cutoff as [|a s];
      [cbn [reports]; rewrite Hold; apply with_reports_same|].
    cbv zeta. rewrite with_reports_twice. cbn [reports with_reports].
    rewrite List.filter_app, Hold. cbn [List.filter rep_id].
    rewrite String.eqb_refl. cbn [negb]. rewrite app_nil_r. apply with_reports_same.
Qed.

Lemma deleteSelectedReport_removes_by_id_witness :
  (forall r, In r (reports example_reports_project) ->
     rep_id r <> ensureReportId "a3f" "2024-03-31") /\
  deleteSelectedReport (ensureReportId "a3f" "2024-03-31") true
    (createNewReport "a3f" (Some "2024-03-31") None example_reports_project) =
  example_reports_project.
Proof.
  assert (H : forall r, In r (reports example_reports_project) ->
            rep_id r <> ensureReportId "a3f" "2024-03-31").
  { intros r [<- | [<- | []]]; discriminate. }
  split; [exact H|].
  exact (proj2 (proj2 (deleteSelectedReport_removes_by_id "" example_reports_project))
           "a3f" "2024-03-31" None H).
Defined.

(** ** Normalizing the budget quantities *)

Lemma revisions_loop_price codeN revs : forall q q' v,
  snd (revisions_loop codeN revs q v) = snd (revisions_loop codeN revs q' v).
Proof.
  induction revs as [|rev revs IH]; intros q q' v; [reflexivity|].
  cbn [revisions_loop]. destruct (find_change codeN (changes rev)); apply IH.
Qed.

Lemma effectiveValue_price item revs :
  vu (effectiveValue item revs) =
    snd (revisions_loop (codeNorm item) revs
           (match qtyContract item with Some x => x | None => zero end)
           (match vuContract item with Some x => x | None => zero end)).
Proof. unfold effectiveValue. destruct (revisions_loop _ _ _ _). reflexivity. Qed.

Lemma normalize_item_price dec it revs :
  vu (effectiveValue (normalize_item dec it) revs) = vu (effectiveValue it revs).
Proof.
  rewrite !effectiveValue_price. unfold normalize_item.
  destruct (bool_decide (type it = ITEM)); [|reflexivity].
  cbn [codeNorm qtyContract vuContract]. apply revisions_loop_price.
Qed.

Lemma normalize_item_type dec it : type (normalize_item dec it) = type it.
Proof. unfold normalize_item. destruct (bool_decide (type it = ITEM)); reflexivity. Qed.

Lemma normalize_item_codeNorm dec it : codeNorm (normalize_item dec it) = codeNorm it.
Proof. unfold normalize_item. destruct (bool_decide (type it = ITEM)); reflexivity. Qed.

Lemma executed_loop_normalize settings p map prevMap its : forall a b,
  executed_loop (normalizeBudgetQuantities settings p) map prevMap
    (List.map (normalize_item (qtyDecimals settings)) its) a b =
  executed_loop p map prevMap its a b.
Proof.
  induction its as [|it its IH]; intros a b; [reflexivity|].
  cbn [List.map executed_loop]. rewrite normalize_item_type.
  destruct (bool_decide (type it = ITEM)); [|apply IH].
  unfold budgetEffectiveItem. cbn [revisions normalizeBudgetQuantities with_items].
  rewrite normalize_item_price, normalize_item_codeNorm. apply IH.
Qed.

(** X14: [normalizeBudgetQuantities] changes no executed value: for every
    report [computeExecutedValues] gives the same before and after; the
    rows that are not ITEM are untouched, and tag, normalized code and unit
    price of every row are kept. *)
Theorem normalizeBudgetQuantities_keeps_executed_values :
  forall (settings : Settings) (p : Project) (report : Report),
    computeExecutedValues settings (normalizeBudgetQuantities settings p) report =
      computeExecutedValues settings p report
    /\ List.filter (fun it => negb (is_ITEM it))
         (items (normalizeBudgetQuantities settings p)) =
       List.filter (fun it => negb (is_ITEM it)) (items p)
    /\ map (fun it => (type it, codeNorm it, vuContract it))
         (items (normalizeBudgetQuantities settings p)) =
       map (fun it => (type it, codeNorm it, vuContract it)) (items p).
Proof.
  intros settings p report. split; [|split].
  - unfold computeExecutedValues.
    change (items (normalizeBudgetQuantities settings p))
      with (List.map (normalize_item (qtyDecimals settings)) (items p)).
    rewrite executed_loop_normalize. reflexivity.
  - cbn [items normalizeBudgetQuantities with_items].
    induction (items p) as [|it its IH]; [reflexivity|].
    cbn [map List.filter].
    assert (Ht : is_ITEM (normalize_item (qtyDecimals settings) it) = is_ITEM it)
      by (unfold is_ITEM; rewrite normalize_item_type; reflexivity).
    rewrite Ht. destruct (is_ITEM it) eqn:Hi; cbn [negb]; [exact IH|].
    f_equal; [|exact IH]. unfold normalize_item. unfold is_ITEM in Hi. rewrite Hi.
    reflexivity.
  - cbn [items normalizeBudgetQuantities with_items].
    induction (items p) as [|it its IH]; [reflexivity|].
    cbn [map]. rewrite IH. f_equal. unfold normalize_item.
    destruct (bool_decide (type it = ITEM)); reflexivity.
Qed.

(** ** Chart series *)

Lemma sort_nil_iff {A} (cmp : A -> A -> comparison) (l : list A) :
  sort cmp l = [] <-> l = [].
Proof.
  split; [|intros ->; reflexivity].
  intros H. pose proof (sort_perm cmp l) as Hp. rewrite H in Hp.
  symmetry in Hp. apply Permutation_nil_r in Hp. exact Hp.
Qed.

Lemma by_cutoff_trans (a b c : Report) :
  cmp_le by_cutoff a b -> cmp_le by_cutoff b c -> cmp_le by_cutoff a c.
Proof. unfold cmp_le, by_cutoff, JS.localeCompare. apply string_compare_trans. Qed.

Lemma by_cutoff_total (a b : Report) : by_cutoff a b = Gt -> cmp_le by_cutoff b a.
Proof. unfold cmp_le, by_cutoff, JS.localeCompare. apply string_compare_total. Qed.

Lemma executed_points_pct settings project reps :
  (contract_value_or0 settings project <=? 0)%float = false ->
  map (fun pt => Some (pt_y pt)) (executed_points settings project reps) =
    map (computeExecutedPct settings project) reps.
Proof.
  intros Hcv. unfold executed_points. rewrite map_map. apply map_ext. intros r.
  cbn [pt_y]. unfold computeExecutedPct. rewrite Hcv. reflexivity.
Qed.

Lemma executed_points_dates settings project reps :
  map pt_x (executed_points settings project reps) = map cutoffDate reps.
Proof. unfold executed_points. rewrite map_map. reflexivity. Qed.

(** X15: [buildFinanceVsExecutedSeries] gives null exactly when the
    project has no report or the contract value is not positive.
    Otherwise it gives two series with one point per report, in ascending
    order of cut-off date (a permutation of the reports), whose heights are
    what [computeFinancePct] and [computeExecutedPct] give at each report:
    the fallback [?? 0] is never taken. *)
Theorem buildFinanceVsExecutedSeries_plots_the_percentages :
  forall (settings : Settings) (project : Project),
    let reps := sort by_cutoff (reports project) in
    (buildFinanceVsExecutedSeries settings project = None <->
     reports project = [] \/ (contract_value_or0 settings project <=? 0)%float = true)
    /\ (forall series, buildFinanceVsExecutedSeries settings project = Some series ->
          exists fin exec,
            series = [fin; exec] /\
            map pt_x (points fin) = map cutoffDate reps /\
            map pt_x (points exec) = map cutoffDate reps /\
            map (fun pt => Some (pt_y pt)) (points fin) =
              map (fun r => computeFinancePct settings project (Some (cutoffDate r))) reps /\
            map (fun pt => Some (pt_y pt)) (points exec) =
              map (computeExecutedPct settings project) reps)
    /\ StronglySorted (cmp_le by_cutoff) reps /\ reps ≡ₚ reports project.
Proof.
  intros settings project reps. unfold buildFinanceVsExecutedSeries. fold reps.
  split; [|split; [|split;
    [apply sort_sorted; [apply by_cutoff_trans | apply by_cutoff_total] | apply sort_perm]]].
  - destruct reps as [|r rs] eqn:Hreps.
    + split; [intros _; left; apply (sort_nil_iff by_cutoff); exact Hreps | reflexivity].
    + destruct (contract_value_or0 settings project <=? 0)%float eqn:Hcv.
      * split; [intros _; right; reflexivity | reflexivity].
      * split; [discriminate|]. intros [Hnil | Hneg]; [|congruence].
        apply (sort_nil_iff by_cutoff) in Hnil. fold reps in Hnil. congruence.
  - intros series. destruct reps as [|r rs] eqn:Hreps; [discriminate|].
    destruct (contract_value_or0 settings project <=? 0)%float eqn:Hcv; [discriminate|].
    intros H. apply Some_eq in H. subst series.
    eexists _, _. split; [reflexivity|]. cbn [points].
    split; [rewrite map_map; reflexivity|].
    split; [apply executed_points_dates|].
    split; [|apply executed_points_pct; exact Hcv].
    rewrite map_map. apply map_ext. intros r'. cbn [pt_y].
    unfold computeFinancePct. rewrite Hcv. reflexivity.
Qed.

Lemma buildFinanceVsExecutedSeries_plots_the_percentages_witness :
  exists fin exec,
    buildFinanceVsExecutedSeries defaultSettings example_chart_project = Some [fin; exec] /\
    map pt_x (points exec) = ["2024-01-31"; "2024-02-29"] /\
    map pt_y (points exec) = [(500 / 1000)%float; (800 / 1000)%float] /\
    map pt_y (points fin) = [(500 / 1000)%float; (500 / 1000)%float] /\
    map (fun pt => Some (pt_y pt)) (points exec) =
      map (computeExecutedPct defaultSettings example_chart_project)
        (sort by_cutoff (reports example_chart_project)).
Proof.
  destruct (buildFinanceVsExecutedSeries defaultSettings example_chart_project)
    as [series|] eqn:Hbuild; [|vm_compute in Hbuild; discriminate Hbuild].
  destruct (proj1 (proj2 (buildFinanceVsExecutedSeries_plots_the_percentages
                            defaultSettings example_chart_project)) series Hbuild)
    as (fin & exec & -> & _ & _ & _ & Hexec).
  exists fin, exec. split; [reflexivity|].
  vm_compute in Hbuild. apply Some_eq in Hbuild.
  assert (Hfin : fin = hd fin [fin; exec]) by reflexivity.
  assert (Hex : exec = hd exec (tl [fin; exec])) by reflexivity.
  rewrite Hbuild in Hfin, Hex. cbn [hd tl] in Hfin, Hex.
  split; [rewrite Hex; vm_compute; reflexivity|].
  split; [rewrite Hex; vm_compute; reflexivity|].
  split; [rewrite Hfin; vm_compute; reflexivity|].
  exact Hexec.
Defined.


Lemma Normal_eq {A : Type} (a b : A) : Normal a = Normal b -> b = a.
Proof. intros H. congruence. Qed.

Lemma planned_series_points_spec UTC settings project cv curve :
  match planned_series_points UTC settings project cv curve with
  | Normal l =>
      map (fun pt => Returned (pt_x pt)) l =
        map (planned_point_date UTC settings project) curve /\
      map pt_y l = map (fun p => (plannedCostAccum p / cv)%float) curve
  | Throws =>
      exists p, In p curve /\ planned_point_date UTC settings project p = RangeError
  end.
Proof.
  induction curve as [|p curve IH]; cbn [planned_series_points]; [split; reflexivity|].
  destruct (planned_point_date UTC settings project p) as [d|] eqn:Hd.
  - destruct (planned_series_points UTC settings project cv curve) as [l|].
    + destruct IH as [Hx Hy]. cbn [map pt_x pt_y]. rewrite Hx, Hy, Hd. split; reflexivity.
    + destruct IH as (q & Hin & Hq). exists q. split; [right; exact Hin | exact Hq].
  - exists p. split; [left; reflexivity | exact Hd].
Qed.

(** X16: [buildPlannedVsExecutedSeries] gives null when the curve or the
    report list is empty or the contract value is not positive; it throws
    only if shifting the date of a curve point throws, hence never when
    shifting is off; and a result holds two series, the planned one with
    the dates (shifted when the setting says so) and the planned cost over
    the contract value of the curve points in ascending date order, the
    executed one being the executed series of
    [buildFinanceVsExecutedSeries]. *)
Theorem buildPlannedVsExecutedSeries_points :
  forall (UTC : Z -> Z) (settings : Settings) (project : Project),
    let sorted := sort by_point_date (curve project) in
    let reps := sort by_cutoff (reports project) in
    let cv := contract_value_or0 settings project in
    (curve project = [] \/ reports project = [] \/ (cv <=? 0)%float = true ->
     buildPlannedVsExecutedSeries UTC settings project = Normal None)
    /\ (buildPlannedVsExecutedSeries UTC settings project = Throws ->
        exists p, In p (curve project) /\
                  planned_point_date UTC settings project p = RangeError)
    /\ (forall series,
          buildPlannedVsExecutedSeries UTC settings project = Normal (Some series) ->
          exists planned exec fin,
            series = [planned; exec] /\
            buildFinanceVsExecutedSeries settings project = Some [fin; exec] /\
            map (fun pt => Returned (pt_x pt)) (points planned) =
              map (planned_point_date UTC settings project) sorted /\
            map pt_y (points planned) =
              map (fun p => (plannedCostAccum p / cv)%float) sorted /\
            map (fun pt => Some (pt_y pt)) (points exec) =
              map (computeExecutedPct settings project) reps)
    /\ (shiftPlannedBySuspensions settings = false ->
        buildPlannedVsExecutedSeries UTC settings project <> Throws).
Proof.
  intros UTC settings project sorted reps cv.
  unfold buildPlannedVsExecutedSeries, buildFinanceVsExecutedSeries.
  fold sorted reps cv.
  pose proof (planned_series_points_spec UTC settings project cv sorted) as Hspec.
  assert (Hin : forall p, In p sorted -> In p (curve project))
    by (intros p; apply sort_In).
  split; [|split; [|split]].
  - intros [Hc | [Hr | Hcv]].
    + apply (sort_nil_iff by_point_date) in Hc. fold sorted in Hc. rewrite Hc. reflexivity.
    + apply (sort_nil_iff by_cutoff) in Hr. fold reps in Hr. rewrite Hr.
      destruct sorted; reflexivity.
    + rewrite Hcv. destruct sorted, reps; reflexivity.
  - destruct sorted as [|p ps] eqn:Hs; [discriminate|].
    destruct reps as [|r rs] eqn:Hr; [discriminate|].
    destruct (cv <=? 0)%float; [discriminate|].
    destruct (planned_series_points UTC settings project cv (p :: ps)); [discriminate|].
    intros _. destruct Hspec as (q & Hq & Hthrow). exists q. split; [apply Hin|]; assumption.
  - intros series.
    destruct sorted as [|p ps] eqn:Hs; [discriminate|].
    destruct reps as [|r rs] eqn:Hr; [discriminate|].
    destruct (cv <=? 0)%float eqn:Hcv; [discriminate|].
    destruct (planned_series_points UTC settings project cv (p :: ps)) as [l|];
      [|discriminate].
    intros H. apply Normal_eq, Some_eq in H. subst series.
    eexists _, _, _. split; [reflexivity|]. split; [reflexivity|]. cbn [points].
    destruct Hspec as [Hx Hy]. split; [exact Hx|]. split; [exact Hy|].
    apply executed_points_pct. exact Hcv.
  - intros Hoff.
    destruct sorted as [|p ps] eqn:Hs; [discriminate|].
    destruct reps as [|r rs] eqn:Hr; [discriminate|].
    destruct (cv <=? 0)%float; [discriminate|].
    destruct (planned_series_points UTC settings project cv (p :: ps)); [discriminate|].
    destruct Hspec as (q & _ & Hthrow). unfold planned_point_date in Hthrow.
    rewrite Hoff in Hthrow. discriminate Hthrow.
Qed.

Lemma buildPlannedVsExecutedSeries_points_witness :
  exists planned exec fin,
    buildPlannedVsExecutedSeries UTC_minus_5 defaultSettings example_chart_project =
      Normal (Some [planned; exec]) /\
    buildFinanceVsExecutedSeries defaultSettings example_chart_project = Some [fin; exec] /\
    map pt_x (points planned) = ["2024-01-31"; "2024-02-29"] /\
    map pt_y (points planned) = [(400 / 1000)%float; (900 / 1000)%float].
Proof.
  destruct (buildPlannedVsExecutedSeries UTC_minus_5 defaultSettings example_chart_project)
    as [[series|]|] eqn:Hbuild; try (vm_compute in Hbuild; discriminate Hbuild).
  destruct (proj1 (proj2 (proj2 (buildPlannedVsExecutedSeries_points UTC_minus_5
                                   defaultSettings example_chart_project))) series Hbuild)
    as (planned & exec & fin & -> & Hfin & _).
  exists planned, exec, fin. split; [reflexivity|]. split; [exact Hfin|].
  vm_compute in Hbuild. apply Normal_eq, Some_eq in Hbuild.
  assert (Hpl : planned = hd planned [planned; exec]) by reflexivity.
  rewrite <- Hbuild in Hpl. cbn [hd] in Hpl.
  split; rewrite Hpl; vm_compute; reflexivity.
Defined.


(** ** HTML escaping *)

Lemma append_cons (a : ascii) (s t : string) : String a s +:+ t = String a (s +:+ t).
Proof. reflexivity. Qed.

Lemma append_nil_l (t : string) : "" +:+ t = t.
Proof. reflexivity. Qed.

Lemma replaceAll_app c r u v :
  replaceAll c r (u +:+ v) = replaceAll c r u +:+ replaceAll c r v.
Proof.
  induction u as [|a u IH]; [reflexivity|].
  rewrite append_cons. cbn [replaceAll]. rewrite IH.
  destruct (Ascii.eqb a c); [rewrite append_assoc|]; reflexivity.
Qed.

Lemma replaceAll_expand c r s :
  replaceAll c r s = expand (fun a => if Ascii.eqb a c then r else String a "") s.
Proof.
  induction s as [|a s IH]; [reflexivity|].
  cbn [replaceAll expand]. rewrite IH. destruct (Ascii.eqb a c); reflexivity.
Qed.

Lemma replaceAll_of_expand c r f s :
  replaceAll c r (expand f s) = expand (fun a => replaceAll c r (f a)) s.
Proof.
  induction s as [|a s IH]; [reflexivity|].
  cbn [expand]. rewrite replaceAll_app, IH. reflexivity.
Qed.

Lemma expand_ext f g s : (forall a, f a = g a) -> expand f s = expand g s.
Proof.
  intros H. induction s as [|a s IH]; [reflexivity|].
  cbn [expand]. rewrite H, IH. reflexivity.
Qed.

Lemma escapeHtml_expand (s : string) : escapeHtml (VStr s) = expand escape_char s.
Proof.
  unfold escapeHtml. cbn [nullish_or ToString].
  rewrite (replaceAll_expand "&"), !replaceAll_of_expand.
  apply expand_ext. intros a. unfold escape_char.
  destruct (Ascii.eqb a "&") eqn:H1; [reflexivity|].
  cbn [replaceAll]. destruct (Ascii.eqb a "<") eqn:H2; [reflexivity|].
  cbn [replaceAll]. destruct (Ascii.eqb a ">") eqn:H3; [reflexivity|].
  cbn [replaceAll]. destruct (Ascii.eqb a double_quote) eqn:H4; reflexivity.
Qed.

Lemma in_append (c : ascii) (u v : string) :
  In c (list_ascii_of_string (u +:+ v)) <->
  In c (list_ascii_of_string u) \/ In c (list_ascii_of_string v).
Proof.
  induction u as [|a u IH]; [simpl; tauto|].
  rewrite append_cons. cbn [list_ascii_of_string In]. rewrite IH. tauto.
Qed.

Lemma escape_char_safe (a c : ascii) :
  In c (list_ascii_of_string (escape_char a)) -> is_markup c = false.
Proof.
  unfold escape_char.
  destruct (Ascii.eqb a "&") eqn:H1;
    [intros H; repeat (destruct H as [<- | H]; [reflexivity|]); contradiction|].
  destruct (Ascii.eqb a "<") eqn:H2;
    [intros H; repeat (destruct H as [<- | H]; [reflexivity|]); contradiction|].
  destruct (Ascii.eqb a ">") eqn:H3;
    [intros H; repeat (destruct H as [<- | H]; [reflexivity|]); contradiction|].
  destruct (Ascii.eqb a double_quote) eqn:H4;
    [intros H; repeat (destruct H as [<- | H]; [reflexivity|]); contradiction|].
  intros [<- | []]. unfold is_markup. rewrite H2, H3, H4. reflexivity.
Qed.

Lemma escape_char_plain (a : ascii) :
  Ascii.eqb a "&" = false -> is_markup a = false -> escape_char a = String a "".
Proof.
  unfold is_markup, escape_char. intros -> H.
  apply orb_false_iff in H as [H H4]. apply orb_false_iff in H as [H2 H3].
  rewrite H2, H3, H4. reflexivity.
Qed.

(** X17: [escapeHtml] replaces each character by its entity, character by
    character (the ampersand of an entity it has written is not escaped
    again); its result holds none of [<], [>] and the double quote; and a
    text without [&], [<], [>] and double quote is returned as it is. *)
Theorem escapeHtml_leaves_no_markup :
  forall v : value,
    let text := ToString (nullish_or v (VStr "")) in
    escapeHtml v = expand escape_char text
    /\ (forall c, In c (list_ascii_of_string (escapeHtml v)) -> is_markup c = false)
    /\ ((forall c, In c (list_ascii_of_string text) ->
           Ascii.eqb c "&" = false /\ is_markup c = false) ->
        escapeHtml v = text).
Proof.
  intros v text.
  assert (Hexp : escapeHtml v = expand escape_char text).
  { rewrite <- escapeHtml_expand. unfold escapeHtml. subst text.
    destruct v; reflexivity. }
  split; [exact Hexp|]. rewrite Hexp. clear Hexp. split.
  - induction text as [|a t IH]; intros c Hc; [contradiction|].
    cbn [expand] in Hc. apply in_append in Hc as [Hc | Hc];
      [exact (escape_char_safe a c Hc) | exact (IH c Hc)].
  - induction text as [|a t IH]; intros Hplain; [reflexivity|].
    cbn [expand]. destruct (Hplain a (or_introl eq_refl)) as [Hamp Hm].
    rewrite (escape_char_plain a Hamp Hm), IH; [reflexivity|].
    intros c Hc. apply Hplain. right. exact Hc.
Qed.

Lemma escape_char_cases (a : ascii) :
  (a = "&"%char /\ escape_char a = "&amp;") \/
  (a = "<"%char /\ escape_char a = "&lt;") \/
  (a = ">"%char /\ escape_char a = "&gt;") \/
  (a = double_quote /\ escape_char a = "&quot;") \/
  (a <> "&"%char /\ escape_char a = String a "").
Proof.
  unfold escape_char.
  destruct (Ascii.eqb a "&") eqn:H1; [apply Ascii.eqb_eq in H1; auto|].
  destruct (Ascii.eqb a "<") eqn:H2; [apply Ascii.eqb_eq in H2; auto|].
  destruct (Ascii.eqb a ">") eqn:H3; [apply Ascii.eqb_eq in H3; auto|].
  destruct (Ascii.eqb a double_quote) eqn:H4; [apply Ascii.eqb_eq in H4; auto 6|].
  apply Ascii.eqb_neq in H1. auto 6.
Qed.

Lemma expand_escape_injective (s1 : string) : forall s2,
  expand escape_char s1 = expand escape_char s2 -> s1 = s2.
Proof.
  induction s1 as [|a s1 IH]; intros [|b s2]; cbn [expand]; intros H.
  - reflexivity.
  - exfalso.
    destruct (escape_char_cases b) as [[_ E]|[[_ E]|[[_ E]|[[_ E]|[_ E]]]]];
      rewrite E in H; discriminate H.
  - exfalso.
    destruct (escape_char_cases a) as [[_ E]|[[_ E]|[[_ E]|[[_ E]|[_ E]]]]];
      rewrite E in H; discriminate H.
  - destruct (escape_char_cases a) as [[Ha Ea]|[[Ha Ea]|[[Ha Ea]|[[Ha Ea]|[Ha Ea]]]]];
      destruct (escape_char_cases b) as [[Hb Eb]|[[Hb Eb]|[[Hb Eb]|[[Hb Eb]|[Hb Eb]]]]];
      rewrite Ea, Eb in H; rewrite ?append_cons, ?append_nil_l in H;
      try discriminate H; try (subst a b; f_equal; apply IH; congruence);
      try (exfalso; congruence).
    f_equal; [congruence | apply IH; congruence].
Qed.

(** X18: [escapeHtml] loses nothing: two texts with the same escaped form
    are the same text. *)
Theorem escapeHtml_injective :
  forall s1 s2 : string, escapeHtml (VStr s1) = escapeHtml (VStr s2) -> s1 = s2.
Proof.
  intros s1 s2. rewrite !escapeHtml_expand. apply expand_escape_injective.
Qed.

Lemma escapeHtml_injective_witness :
  escapeHtml (VStr "a < b & c") = "a &lt; b &amp; c" /\
  escapeHtml (VStr "&lt;") = "&amp;lt;" /\
  "a<b" = "a<b".
Proof.
  split; [reflexivity|]. split; [reflexivity|].
  apply (escapeHtml_injective "a<b" "a<b"). reflexivity.
Defined.

(** ** Suspensions that count *)

Lemma suspension_days_ended date_of d ss : forall extraDays,
  suspension_days_host date_of d ss extraDays =
    suspension_days_host date_of d (List.filter (ended_by date_of d) ss) extraDays.
Proof.
  induction ss as [|s ss IH]; intros extraDays; [reflexivity|].
  cbn [suspension_days_host List.filter]. unfold ended_by at 1.
  destruct (JS.nonempty (from s)) eqn:Hf; cbn [negb orb andb]; [|apply IH].
  destruct (JS.nonempty (to s)) eqn:Ht; cbn [negb orb andb]; [|apply IH].
  destruct (is_nan (date_of (from s))) eqn:Ha; cbn [negb orb andb]; [apply IH|].
  destruct (is_nan (date_of (to s))) eqn:Hb; cbn [negb orb andb]; [apply IH|].
  destruct (date_of (to s) <=? d)%float eqn:Hle; [|apply IH].
  cbn [suspension_days_host]. rewrite Hf, Ht, Ha, Hb, Hle. cbn [negb orb]. apply IH.
Qed.

Lemma suspension_days_on_model UTC d ss : forall extraDays,
  suspension_days UTC d ss extraDays =
    suspension_days_host (local_midnight UTC) d ss extraDays.
Proof.
  induction ss as [|s ss IH]; intros extraDays; [reflexivity|].
  cbn [suspension_days suspension_days_host]. rewrite !IH. reflexivity.
Qed.

(** X19: whatever the host reads as a date, [shiftDateBySuspensions]
    returns a text that the host does not read as it is, and counts only
    the suspensions with both dates given and read that end on or before
    the date: all others (incomplete, unreadable, or still open on that
    day) can be removed from the project without changing the result, and
    when there are only such the result is that of a project without
    suspensions.  With the dates read in the date-time string format the
    function is the one modelled above. *)
Theorem shiftDateBySuspensions_counts_ended_suspensions :
  forall (date_of : string -> float) (dateISO : string) (project : Project),
    (is_nan (date_of dateISO) = true ->
     shiftDateBySuspensions_host date_of dateISO project = Returned dateISO)
    /\ shiftDateBySuspensions_host date_of dateISO project =
       shiftDateBySuspensions_host date_of dateISO
         (with_suspensions project
            (List.filter (ended_by date_of (date_of dateISO)) (suspensions project)))
    /\ (Forall (fun s => ended_by date_of (date_of dateISO) s = false)
          (suspensions project) ->
        shiftDateBySuspensions_host date_of dateISO project =
          shiftDateBySuspensions_host date_of dateISO (with_suspensions project []))
    /\ (forall UTC : Z -> Z,
          shiftDateBySuspensions UTC dateISO project =
            shiftDateBySuspensions_host (local_midnight UTC) dateISO project).
Proof.
  intros date_of dateISO project.
  assert (Hfilter : shiftDateBySuspensions_host date_of dateISO project =
            shiftDateBySuspensions_host date_of dateISO
              (with_suspensions project
                 (List.filter (ended_by date_of (date_of dateISO))
                    (suspensions project)))).
  { unfold shiftDateBySuspensions_host. cbn [suspensions with_suspensions].
    rewrite <- suspension_days_ended. reflexivity. }
  split; [|split; [exact Hfilter|split]].
  - intros Hnan. unfold shiftDateBySuspensions_host. rewrite Hnan. reflexivity.
  - intros Hnone. rewrite Hfilter.
    rewrite (filter_none (ended_by date_of (date_of dateISO)) (suspensions project));
      [reflexivity|].
    intros s Hs. rewrite List.Forall_forall in Hnone. auto.
  - intros UTC. unfold shiftDateBySuspensions, shiftDateBySuspensions_host.
    rewrite suspension_days_on_model. reflexivity.
Qed.

Lemma shiftDateBySuspensions_counts_ended_suspensions_witness :
  shiftDateBySuspensions_host (local_midnight UTC_minus_5) "2024-01-15"
    (suspended_project [open_suspension; undated_suspension]) = Returned "2024-01-15" /\
  shiftDateBySuspensions_host (local_midnight UTC_minus_5) "2024-03-01"
    (suspended_project [january_suspension; open_suspension]) = Returned "2024-03-22" /\
  Forall (fun s => ended_by (local_midnight UTC_minus_5)
                     (local_midnight UTC_minus_5 "2024-01-15") s = false)
    [open_suspension; undated_suspension] /\
  shiftDateBySuspensions_host (local_midnight UTC_minus_5) "2024-01-15"
    (suspended_project [open_suspension; undated_suspension]) =
  shiftDateBySuspensions_host (local_midnight UTC_minus_5) "2024-01-15"
    (with_suspensions (suspended_project [open_suspension; undated_suspension]) []).
Proof.
  assert (H : Forall (fun s => ended_by (local_midnight UTC_minus_5)
                                 (local_midnight UTC_minus_5 "2024-01-15") s = false)
                [open_suspension; undated_suspension]).
  { constructor; [vm_compute; reflexivity|].
    constructor; [vm_compute; reflexivity|]. constructor. }
  split; [vm_compute; reflexivity|]. split; [vm_compute; reflexivity|].
  split; [exact H|].
  exact (proj1 (proj2 (proj2
           (shiftDateBySuspensions_counts_ended_suspensions (local_midnight UTC_minus_5)
              "2024-01-15" (suspended_project [open_suspension; undated_suspension])))) H).
Defined.

(** ** Dates read from text *)

Lemma is_digit_cases (c : ascii) :
  JS.is_digit c = true ->
  In c digit_chars.
Proof.
  destruct c as [[|] [|] [|] [|] [|] [|] [|] [|]]; intros H;
    try discriminate H; cbn; auto 11.
Qed.

Lemma span_digits_all (s : string) : forall d r,
  JS.span_digits s = (d, r) -> JS.all_digits d = true.
Proof.
  induction s as [|c s IH]; intros d r; cbn [JS.span_digits].
  - intros [= <- <-]. reflexivity.
  - destruct (JS.is_digit c) eqn:Hc.
    + destruct (JS.span_digits s) as [d' r'] eqn:Hs. intros [= <- <-].
      unfold JS.all_digits. cbn [list_ascii_of_string forallb]. rewrite Hc.
      exact (IH d' r' eq_refl).
    + intros [= <- <-]. reflexivity.
Qed.

Lemma one_digit_table :
  forallb (fun c => two_digit_text (padStart2 (renumber (String c "")))) digit_chars = true.
Proof. vm_compute. reflexivity. Qed.

Lemma two_digit_table :
  forallb (fun c1 =>
     forallb (fun c2 => two_digit_text (padStart2 (renumber (String c1 (String c2 "")))))
       digit_chars) digit_chars = true.
Proof. vm_compute. reflexivity. Qed.

Lemma two_digits (g : string) :
  JS.all_digits g = true -> (1 <=? String.length g) && (String.length g <=? 2) = true ->
  two_digit_text (padStart2 (renumber g)) = true.
Proof.
  intros Hd Hlen. destruct g as [|c1 [|c2 [|c3 g]]]; try discriminate Hlen.
  - unfold JS.all_digits in Hd. cbn [list_ascii_of_string forallb] in Hd.
    rewrite andb_true_r in Hd. apply is_digit_cases in Hd.
    pose proof one_digit_table as T. rewrite forallb_forall in T. exact (T c1 Hd).
  - unfold JS.all_digits in Hd. cbn [list_ascii_of_string forallb] in Hd.
    rewrite andb_true_r in Hd. apply andb_true_iff in Hd as [H1 H2].
    apply is_digit_cases in H1, H2.
    pose proof two_digit_table as T. rewrite forallb_forall in T.
    specialize (T c1 H1). rewrite forallb_forall in T. exact (T c2 H2).
Qed.

Lemma ws_prefix_digit (c : ascii) (t : string) :
  JS.is_digit c = true ->
  JS.ws_prefix JS.whitespace (String c t) = None /\
  JS.ws_prefix (map String.rev JS.whitespace) (String c t) = None.
Proof.
  intros H. apply is_digit_cases in H. unfold digit_chars in H. cbn [In] in H.
  repeat (destruct H as [<- | H]; [split; reflexivity|]). contradiction.
Qed.

Lemma trim_iso_date (s : string) : is_iso_date s = true -> JS.trim s = s.
Proof.
  intros H. unfold is_iso_date in H.
  destruct s as [|y1 [|y2 [|y3 [|y4 [|h1 [|m1 [|m2 [|h2 [|d1 [|d2 [|x s]]]]]]]]]]];
    try discriminate H.
  cbn [list_ascii_of_string forallb] in H.
  assert (Hy : JS.is_digit y1 = true).
  { destruct (JS.is_digit y1); [reflexivity | discriminate H]. }
  assert (Hd : JS.is_digit d2 = true).
  { repeat (apply andb_true_iff in H as [H ?]).
    repeat match goal with
           | H' : _ && _ = true |- _ => apply andb_true_iff in H' as [? ?]
           end.
    assumption. }
  unfold JS.trim, JS.trimStart. cbn [String.length JS.trim_go].
  rewrite (proj1 (ws_prefix_digit y1 _ Hy)).
  unfold JS.trimEnd. cbn [String.length String.rev String.rev_app JS.trim_go].
  rewrite (proj2 (ws_prefix_digit d2 _ Hd)). reflexivity.
Qed.

Lemma match_dmy_groups (s g1 g2 g3 : string) :
  match_dmy s = Some (g1, g2, g3) ->
  (JS.all_digits g1 = true /\ (1 <=? String.length g1) && (String.length g1 <=? 2) = true) /\
  (JS.all_digits g2 = true /\ (1 <=? String.length g2) && (String.length g2 <=? 2) = true) /\
  (JS.all_digits g3 = true /\ String.length g3 = 4).
Proof.
  unfold match_dmy.
  destruct (JS.span_digits s) as [a r1] eqn:H1. destruct r1 as [|c1 r2]; [discriminate|].
  destruct (JS.span_digits r2) as [b r3] eqn:H2. destruct r3 as [|c2 r4]; [discriminate|].
  destruct (JS.span_digits r4) as [c r5] eqn:H3.
  destruct (_ && _) eqn:Hcond; [|discriminate].
  intros H. apply Some_eq in H.
  assert (g1 = a /\ g2 = b /\ g3 = c) as (-> & -> & ->) by (repeat split; congruence).
  apply andb_true_iff in Hcond as [Hcond _].
  apply andb_true_iff in Hcond as [Hcond _].
  apply andb_true_iff in Hcond as [Hcond _].
  apply andb_true_iff in Hcond as [Hcond Hlen].
  apply andb_true_iff in Hcond as [Hshort1 Hshort2].
  apply span_digits_all in H1, H2, H3. apply Nat.eqb_eq in Hlen.
  repeat split; assumption.
Qed.

Lemma iso_of_groups (g3 p2 p1 : string) :
  JS.all_digits g3 = true -> String.length g3 = 4 ->
  two_digit_text p2 = true -> two_digit_text p1 = true ->
  is_iso_date (g3 +:+ "-" +:+ p2 +:+ "-" +:+ p1) = true.
Proof.
  intros Hd Hlen H2 H1.
  destruct g3 as [|y1 [|y2 [|y3 [|y4 [|x g3]]]]]; try discriminate Hlen.
  destruct p2 as [|a [|b [|? ?]]]; try discriminate H2.
  destruct p1 as [|c [|d [|? ?]]]; try discriminate H1.
  unfold JS.all_digits in Hd. cbn [list_ascii_of_string forallb] in Hd.
  cbn [two_digit_text] in H1, H2.
  unfold is_iso_date. rewrite !append_cons, !append_nil_l.
  cbn [list_ascii_of_string forallb].
  repeat (apply andb_true_iff in Hd as [? Hd]).
  apply andb_true_iff in H1 as [? ?]. apply andb_true_iff in H2 as [? ?].
  repeat match goal with H : JS.is_digit _ = true |- _ => rewrite H; clear H end.
  reflexivity.
Qed.

(** X20: a date [toISODate] reads from a text has the form
    [dddd-dd-dd], and [toISODate] maps it to itself. *)
Theorem toISODate_text_is_canonical :
  forall (parse_date_code : float -> option (Z * Z * Z)) (s iso : string),
    toISODate parse_date_code (VStr s) = Some iso ->
    is_iso_date iso = true /\ toISODate parse_date_code (VStr iso) = Some iso.
Proof.
  intros parse_date_code s iso H.
  assert (Hiso : is_iso_date iso = true).
  { unfold toISODate in H. cbn [ToString] in H.
    destruct (is_iso_date (JS.trim s)) eqn:Htrim.
    - apply Some_eq in H. subst iso. exact Htrim.
    - destruct (match_dmy (JS.trim s)) as [[[g1 g2] g3]|] eqn:Hm; [|discriminate H].
      apply Some_eq in H. subst iso.
      apply match_dmy_groups in Hm as ([Hd1 Hl1] & [Hd2 Hl2] & [Hd3 Hl3]).
      apply iso_of_groups; auto using two_digits. }
  split; [exact Hiso|].
  unfold toISODate. cbn [ToString]. rewrite (trim_iso_date iso Hiso), Hiso. reflexivity.
Qed.

Lemma toISODate_text_is_canonical_witness :
  toISODate no_serial_dates (VStr " 5/1/2024 ") = Some "2024-01-05" /\
  toISODate no_serial_dates (VStr "45-13-2024") = Some "2024-13-45" /\
  toISODate no_serial_dates (VStr "2024-1-5") = None /\
  is_iso_date "2024-01-05" = true /\
  toISODate no_serial_dates (VStr "2024-01-05") = Some "2024-01-05".
Proof.
  split; [vm_compute; reflexivity|]. split; [vm_compute; reflexivity|].
  split; [vm_compute; reflexivity|].
  apply (toISODate_text_is_canonical no_serial_dates " 5/1/2024 " "2024-01-05").
  vm_compute. reflexivity.
Defined.

(** ** A recognized planned sheet *)

Lemma map_set_length k v (m : DateMap) : length (map_set k v m) <= S (length m).
Proof.
  induction m as [|[k' v'] m IH]; simpl; [lia|].
  destruct (String.eqb k' k); simpl; lia.
Qed.

Lemma byDate_length (points : DateMap) : forall m,
  length (fold_left (fun m p => map_add m (fst p) (snd p)) points m)
    <= length points + length m.
Proof.
  induction points as [|p points IH]; intros m; simpl; [lia|].
  etransitivity; [apply IH|]. unfold map_add.
  pose proof (map_set_length (fst p)
                ((match map_get (fst p) m with Some x => JS.or0 x | None => zero end)
                 + snd p)%float m). lia.
Qed.

Lemma accumulate_length a (l : DateMap) : length (accumulate a l) = length l.
Proof.
  revert a. induction l as [|[d c] l IH]; intros a; simpl; [reflexivity|].
  rewrite IH. reflexivity.
Qed.

Lemma curve_of_points_length (points : DateMap) :
  length (curve_of_points points) <= length points.
Proof.
  unfold curve_of_points. rewrite accumulate_length.
  rewrite (Permutation_length (sort_perm by_date _)).
  etransitivity; [apply byDate_length|]. simpl. lia.
Qed.

Lemma curve_of_points_nonempty (points : DateMap) :
  points <> [] -> curve_of_points points <> [].
Proof.
  intros Hne Hnil. destruct points as [|p points]; [congruence|].
  destruct (curve_of_points_spec (p :: points)) as (_ & Hdates & _).
  rewrite Hnil in Hdates. apply (Hdates (fst p)). left. reflexivity.
Qed.

(** X21: on a non-empty sheet in which [parsePlanned] recognizes one of
    the two shapes, an empty list of usable points gives an empty curve
    and no warning at all; a non-empty one gives a non-empty curve and the
    single message with the number of points; and the curve never has more
    points than the sheet has usable points. *)
Theorem parsePlanned_recognized_sheet :
  forall (parse_date_code : float -> option (Z * Z * Z)) (rows : list Row)
         (points : DateMap),
    rows <> [] -> planned_points parse_date_code rows = Some points ->
    (points = [] ->
     parsePlanned parse_date_code rows = {| parsed_curve := []; planned_warnings := [] |})
    /\ (points <> [] ->
        parsed_curve (parsePlanned parse_date_code rows) <> [] /\
        planned_warnings (parsePlanned parse_date_code rows) =
          ["Programado: " +:+
           JS.digits (Z.of_nat (length (parsed_curve (parsePlanned parse_date_code rows))))
           +:+ " punto(s) de curva cargados."])
    /\ length (parsed_curve (parsePlanned parse_date_code rows)) <= length points.
Proof.
  intros parse_date_code rows points Hrows Hpoints. unfold parsePlanned.
  destruct rows as [|row rows]; [congruence|]. rewrite Hpoints.
  cbn [parsed_curve planned_warnings].
  split; [|split].
  - intros ->. reflexivity.
  - intros Hne. pose proof (curve_of_points_nonempty points Hne) as Hcurve.
    split; [exact Hcurve|].
    destruct (curve_of_points points); [congruence | reflexivity].
  - apply curve_of_points_length.
Qed.

Lemma parsePlanned_recognized_sheet_witness :
  planned_sheet_without_data <> [] /\
  planned_points no_serial_dates planned_sheet_without_data = Some [] /\
  parsePlanned no_serial_dates planned_sheet_without_data =
    {| parsed_curve := []; planned_warnings := [] |}.
Proof.
  assert (Hrows : planned_sheet_without_data <> []) by discriminate.
  assert (Hpoints : planned_points no_serial_dates planned_sheet_without_data = Some [])
    by (vm_compute; reflexivity).
  split; [exact Hrows|]. split; [exact Hpoints|].
  exact (proj1 (parsePlanned_recognized_sheet no_serial_dates planned_sheet_without_data []
                  Hrows Hpoints) eq_refl).
Defined.

(** ** Adding a revision *)

Lemma effectiveValue_after_empty_revision item revs rev :
  changes rev = [] -> effectiveValue item (revs ++ [rev]) = effectiveValue item revs.
Proof.
  intros Hempty. unfold effectiveValue. rewrite revisions_loop_app.
  destruct (revisions_loop (codeNorm item) revs _ _) as [q v].
  cbn [revisions_loop]. rewrite Hempty. reflexivity.
Qed.

Lemma addRevisionFlow_effective random_hex now name p item :
  effectiveValue item (revisions (addRevisionFlow random_hex now name p)) =
    effectiveValue item (revisions p).
Proof.
  unfold addRevisionFlow. destruct name as [[|c n]|]; try reflexivity.
  cbn [revisions with_revisions]. apply effectiveValue_after_empty_revision. reflexivity.
Qed.

Lemma contract_sum_loop_same_values p1 p2 its :
  (forall item, budgetEffectiveItem item p1 = budgetEffectiveItem item p2) ->
  forall sum, contract_sum_loop p1 its sum = contract_sum_loop p2 its sum.
Proof.
  intros H. induction its as [|it its IH]; intros sum; [reflexivity|].
  cbn [contract_sum_loop]. rewrite (H it). destruct (type it); apply IH.
Qed.

Lemma executed_loop_same_values p1 p2 map prevMap its :
  (forall item, budgetEffectiveItem item p1 = budgetEffectiveItem item p2) ->
  forall a b, executed_loop p1 map prevMap its a b = executed_loop p2 map prevMap its a b.
Proof.
  intros H. induction its as [|it its IH]; intros a b; [reflexivity|].
  cbn [executed_loop]. rewrite (H it). destruct (bool_decide (type it = ITEM)); apply IH.
Qed.

Lemma addRevisionFlow_items random_hex now name p :
  items (addRevisionFlow random_hex now name p) = items p.
Proof. unfold addRevisionFlow. destruct name as [[|c n]|]; reflexivity. Qed.

Lemma addRevisionFlow_reports random_hex now name p :
  reports (addRevisionFlow random_hex now name p) = reports p.
Proof. unfold addRevisionFlow. destruct name as [[|c n]|]; reflexivity. Qed.

Lemma addRevisionFlow_currency random_hex now name p :
  currency_or_COP (addRevisionFlow random_hex now name p) = currency_or_COP p.
Proof. unfold addRevisionFlow. destruct name as [[|c n]|]; reflexivity. Qed.

(** X22: the revision [addRevisionFlow] creates changes no value: the
    effective values of every item, the contract value and the executed
    values of every report are the same before and after, whatever the
    dialog returns; with a name given, the project has one revision
    more. *)
Theorem addRevisionFlow_changes_no_value :
  forall (settings : Settings) (random_hex : string) (now : Z) (name : option string)
         (p : Project),
    (forall item,
       budgetEffectiveItem item (addRevisionFlow random_hex now name p) =
         budgetEffectiveItem item p)
    /\ contractValue (addRevisionFlow random_hex now name p) settings =
         contractValue p settings
    /\ (forall report,
          computeExecutedValues settings (addRevisionFlow random_hex now name p) report =
            computeExecutedValues settings p report)
    /\ (forall n, name = Some n -> n <> "" ->
          length (revisions (addRevisionFlow random_hex now name p)) =
            S (length (revisions p))).
Proof.
  intros settings random_hex now name p.
  assert (Heff : forall item,
            budgetEffectiveItem item (addRevisionFlow random_hex now name p) =
              budgetEffectiveItem item p)
    by (intros item; apply addRevisionFlow_effective).
  split; [exact Heff|]. split; [|split].
  - unfold contractValue.
    rewrite addRevisionFlow_items, addRevisionFlow_currency.
    rewrite (contract_sum_loop_same_values _ p (items p) Heff). reflexivity.
  - intros report. unfold computeExecutedValues, previousReport.
    rewrite addRevisionFlow_items, addRevisionFlow_currency, addRevisionFlow_reports.
    rewrite (executed_loop_same_values _ p _ _ (items p) Heff). reflexivity.
  - intros n -> Hn. unfold addRevisionFlow. destruct n as [|c n]; [congruence|].
    cbn [revisions with_revisions]. rewrite length_app. simpl. lia.
Qed.

(** ** What the quantity listeners store *)





(** ** Adding and deleting finance events *)



Section SortedLists.
Context {A : Type} (cmp : A -> A -> comparison).



End SortedLists.



